(** * Spreadsheet import of the business-management backend

    A shallow embedding of the Excel import code:
    - [ImportService] in [backend/src/services/import.service.js]
      ([importWorkersFromExcel], [parseExcelDate], [importProductsFromExcel]);
    - the older duplicate [importWorkers] of
      [backend/src/controllers/worker.controller.js].

    Modelling conventions.
    - A worksheet read with [sheet_to_json (header: 1)] is a [list (list cell)].
    - Text is held in its UTF-8 encoding.  White space and letter case are
      those of Unicode, as the engine has them, and the length of a text
      counts UTF-16 code units.
    - Numeric cells hold whole numbers ([Z]); on them the double arithmetic
      of the source is exact.  Numbers produced by [parseFloat] are exact
      rationals with the overflow and underflow of doubles.
    - A [Date] is its time value in milliseconds, or the invalid date.
    - [Date.parse] on text is implementation-defined outside the ISO format
      and is a parameter of the development, as is the clock. *)

From Stdlib Require Import ZArith QArith String Ascii List DecimalString DecimalNat Lia Bool.
From stdpp Require Import base list.
Import ListNotations.

#[local] Open Scope string_scope.
#[local] Open Scope nat_scope.

(** ** JavaScript values *)

Module Js.

(** *** Strings

    Text is held in its UTF-8 encoding: a character of the basic plane takes
    one to three bytes, any other character four. *)

Definition is_digit (a : ascii) : bool :=
  let n := nat_of_ascii a in (48 <=? n) && (n <=? 57).

Definition digit_val (a : ascii) : Z := Z.of_nat (nat_of_ascii a) - 48.

#[local] Open Scope N_scope.

(** The payload of a byte that continues a character. *)
Definition continuation (a : ascii) : option N :=
  let n := N_of_ascii a in
  if (128 <=? n) && (n <? 192) then Some (n - 128) else None.

(** The character at the head of [s]: its code point and the number of
    bytes that continue it.  [None] when no character starts there. *)
Definition code_point (s : string) : option (N * nat) :=
  match s with
  | String a t =>
      let x := N_of_ascii a in
      if x <? 128 then Some (x, 0%nat)
      else if (194 <=? x) && (x <? 224) then
        match t with
        | String b _ =>
            match continuation b with
            | Some y => Some ((x - 192) * 64 + y, 1%nat)
            | None => None
            end
        | _ => None
        end
      else if (224 <=? x) && (x <? 240) then
        match t with
        | String b (String c _) =>
            match continuation b, continuation c with
            | Some y, Some z => Some ((x - 224) * 4096 + y * 64 + z, 2%nat)
            | _, _ => None
            end
        | _ => None
        end
      else if (240 <=? x) && (x <? 245) then
        match t with
        | String b (String c (String d _)) =>
            match continuation b, continuation c, continuation d with
            | Some y, Some z, Some v =>
                Some ((x - 240) * 262144 + y * 4096 + z * 64 + v, 3%nat)
            | _, _, _ => None
            end
        | _ => None
        end
      else None
  | EmptyString => None
  end.

(** The bytes of a character. *)
Definition encode (cp : N) : string :=
  if cp <? 128 then String (ascii_of_N cp) ""
  else if cp <? 2048 then
    String (ascii_of_N (192 + cp / 64)) (String (ascii_of_N (128 + cp mod 64)) "")
  else if cp <? 65536 then
    String (ascii_of_N (224 + cp / 4096))
      (String (ascii_of_N (128 + (cp / 64) mod 64))
         (String (ascii_of_N (128 + cp mod 64)) ""))
  else
    String (ascii_of_N (240 + cp / 262144))
      (String (ascii_of_N (128 + (cp / 4096) mod 64))
         (String (ascii_of_N (128 + (cp / 64) mod 64))
            (String (ascii_of_N (128 + cp mod 64)) ""))).

Fixpoint encode_all (l : list N) : string :=
  match l with
  | [] => ""
  | cp :: rest => encode cp ++ encode_all rest
  end.

(** White space of [\s], of [trim] and of the number parsers: tab to
    carriage return, the space, the no-break space, the space separators
    of Unicode, the line and paragraph separators and the byte order
    mark. *)
Definition is_white (cp : N) : bool :=
  ((9 <=? cp) && (cp <=? 13)) || (cp =? 32) || (cp =? 160) || (cp =? 5760)
  || ((8192 <=? cp) && (cp <=? 8202)) || (cp =? 8232) || (cp =? 8233) || (cp =? 8239)
  || (cp =? 8287) || (cp =? 12288) || (cp =? 65279).

#[local] Close Scope N_scope.

(** The number of bytes of the white-space character at the head of [s],
    0 when there is none. *)
Definition space_width (s : string) : nat :=
  match code_point s with
  | Some (cp, w) => if is_white cp then S w else 0
  | None => 0
  end.

(** [s] without the white space at its head; [k] bytes of a white-space
    character are still to be passed. *)
Fixpoint skip_spaces (k : nat) (s : string) : string :=
  match s with
  | EmptyString => EmptyString
  | String a t =>
      match k with
      | S k' => skip_spaces k' t
      | O =>
          match space_width s with
          | O => s
          | S w => skip_spaces w t
          end
      end
  end.

(** [s.trimStart()] *)
Definition trimStart (s : string) : string := skip_spaces 0 s.

(** [s.trimEnd()]: the text is cut where only white space follows. *)
Fixpoint trimEnd (s : string) : string :=
  match s with
  | EmptyString => EmptyString
  | String a t => if String.eqb (trimStart s) "" then EmptyString else String a (trimEnd t)
  end.

(** [s.trim()] *)
Definition trim (s : string) : string := trimEnd (trimStart s).

Fixpoint drop_spaces (k : nat) (s : string) : string :=
  match s with
  | EmptyString => EmptyString
  | String a t =>
      match k with
      | S k' => drop_spaces k' t
      | O =>
          match space_width s with
          | O => String a (drop_spaces 0 t)
          | S w => drop_spaces w t
          end
      end
  end.

(** [s.replace(/\s/g, '')] *)
Definition remove_spaces (s : string) : string := drop_spaces 0 s.

(** [s.length], the number of UTF-16 code units: one for a character of
    the basic plane, counted at its first byte, and two for a character of
    four bytes, counted at its first two bytes. *)
Fixpoint str_length (s : string) : nat :=
  match s with
  | EmptyString => 0
  | String a t =>
      if 240 <=? nat_of_ascii a then
        match t with
        | String _ u => 2 + str_length u
        | EmptyString => 1
        end
      else if (128 <=? nat_of_ascii a) && (nat_of_ascii a <? 192) then str_length t
      else 1 + str_length t
  end.

(** *** Letter case

    [toUpperCase] and [toLowerCase] follow the default case conversion of
    Unicode; the tables are those of Unicode 14.0. *)

Definition upper_char (a : ascii) : ascii :=
  let n := nat_of_ascii a in
  if (97 <=? n) && (n <=? 122) then ascii_of_nat (n - 32) else a.

Definition lower_char (a : ascii) : ascii :=
  let n := nat_of_ascii a in
  if (65 <=? n) && (n <=? 90) then ascii_of_nat (n + 32) else a.

Fixpoint map_chars (f : ascii -> ascii) (s : string) : string :=
  match s with
  | EmptyString => EmptyString
  | String a t => String (f a) (map_chars f t)
  end.

(** The characters beyond ASCII with a one-character upper case, in runs
    [(first, last, step, image of first)] of equal distance. *)
Definition upper_ranges : list (N * N * N * N) :=
  [(181, 181, 1, 924); (224, 246, 1, 192); (248, 254, 1, 216); (255, 255, 1, 376);
   (257, 303, 2, 256); (305, 305, 1, 73); (307, 311, 2, 306); (314, 328, 2, 313);
   (331, 375, 2, 330); (378, 382, 2, 377); (383, 383, 1, 83); (384, 384, 1, 579);
   (387, 389, 2, 386); (392, 392, 1, 391); (396, 396, 1, 395); (402, 402, 1, 401);
   (405, 405, 1, 502); (409, 409, 1, 408); (410, 410, 1, 573); (414, 414, 1, 544);
   (417, 421, 2, 416); (424, 424, 1, 423); (429, 429, 1, 428); (432, 432, 1, 431);
   (436, 438, 2, 435); (441, 441, 1, 440); (445, 445, 1, 444); (447, 447, 1, 503);
   (453, 453, 1, 452); (454, 454, 1, 452); (456, 456, 1, 455); (457, 457, 1, 455);
   (459, 459, 1, 458); (460, 460, 1, 458); (462, 476, 2, 461); (477, 477, 1, 398);
   (479, 495, 2, 478); (498, 498, 1, 497); (499, 499, 1, 497); (501, 501, 1, 500);
   (505, 543, 2, 504); (547, 563, 2, 546); (572, 572, 1, 571); (575, 576, 1, 11390);
   (578, 578, 1, 577); (583, 591, 2, 582); (592, 592, 1, 11375); (593, 593, 1, 11373);
   (594, 594, 1, 11376); (595, 595, 1, 385); (596, 596, 1, 390); (598, 599, 1, 393);
   (601, 601, 1, 399); (603, 603, 1, 400); (604, 604, 1, 42923); (608, 608, 1, 403);
   (609, 609, 1, 42924); (611, 611, 1, 404); (613, 613, 1, 42893); (614, 614, 1, 42922);
   (616, 616, 1, 407); (617, 617, 1, 406); (618, 618, 1, 42926); (619, 619, 1, 11362);
   (620, 620, 1, 42925); (623, 623, 1, 412); (625, 625, 1, 11374); (626, 626, 1, 413);
   (629, 629, 1, 415); (637, 637, 1, 11364); (640, 640, 1, 422); (642, 642, 1, 42949);
   (643, 643, 1, 425); (647, 647, 1, 42929); (648, 648, 1, 430); (649, 649, 1, 580);
   (650, 651, 1, 433); (652, 652, 1, 581); (658, 658, 1, 439); (669, 669, 1, 42930);
   (670, 670, 1, 42928); (837, 837, 1, 921); (881, 883, 2, 880); (887, 887, 1, 886);
   (891, 893, 1, 1021); (940, 940, 1, 902); (941, 943, 1, 904); (945, 961, 1, 913);
   (962, 962, 1, 931); (963, 971, 1, 931); (972, 972, 1, 908); (973, 974, 1, 910);
   (976, 976, 1, 914); (977, 977, 1, 920); (981, 981, 1, 934); (982, 982, 1, 928);
   (983, 983, 1, 975); (985, 1007, 2, 984); (1008, 1008, 1, 922); (1009, 1009, 1, 929);
   (1010, 1010, 1, 1017); (1011, 1011, 1, 895); (1013, 1013, 1, 917); (1016, 1016, 1, 1015);
   (1019, 1019, 1, 1018); (1072, 1103, 1, 1040); (1104, 1119, 1, 1024); (1121, 1153, 2, 1120);
   (1163, 1215, 2, 1162); (1218, 1230, 2, 1217); (1231, 1231, 1, 1216); (1233, 1327, 2, 1232);
   (1377, 1414, 1, 1329); (4304, 4346, 1, 7312); (4349, 4351, 1, 7357); (5112, 5117, 1, 5104);
   (7296, 7296, 1, 1042); (7297, 7297, 1, 1044); (7298, 7298, 1, 1054); (7299, 7300, 1, 1057);
   (7301, 7301, 1, 1058); (7302, 7302, 1, 1066); (7303, 7303, 1, 1122); (7304, 7304, 1, 42570);
   (7545, 7545, 1, 42877); (7549, 7549, 1, 11363); (7566, 7566, 1, 42950); (7681, 7829, 2, 7680);
   (7835, 7835, 1, 7776); (7841, 7935, 2, 7840); (7936, 7943, 1, 7944); (7952, 7957, 1, 7960);
   (7968, 7975, 1, 7976); (7984, 7991, 1, 7992); (8000, 8005, 1, 8008); (8017, 8023, 2, 8025);
   (8032, 8039, 1, 8040); (8048, 8049, 1, 8122); (8050, 8053, 1, 8136); (8054, 8055, 1, 8154);
   (8056, 8057, 1, 8184); (8058, 8059, 1, 8170); (8060, 8061, 1, 8186); (8112, 8113, 1, 8120);
   (8126, 8126, 1, 921); (8144, 8145, 1, 8152); (8160, 8161, 1, 8168); (8165, 8165, 1, 8172);
   (8526, 8526, 1, 8498); (8560, 8575, 1, 8544); (8580, 8580, 1, 8579); (9424, 9449, 1, 9398);
   (11312, 11359, 1, 11264); (11361, 11361, 1, 11360); (11365, 11365, 1, 570);
   (11366, 11366, 1, 574); (11368, 11372, 2, 11367); (11379, 11379, 1, 11378);
   (11382, 11382, 1, 11381); (11393, 11491, 2, 11392); (11500, 11502, 2, 11499);
   (11507, 11507, 1, 11506); (11520, 11557, 1, 4256); (11559, 11559, 1, 4295);
   (11565, 11565, 1, 4301); (42561, 42605, 2, 42560); (42625, 42651, 2, 42624);
   (42787, 42799, 2, 42786); (42803, 42863, 2, 42802); (42874, 42876, 2, 42873);
   (42879, 42887, 2, 42878); (42892, 42892, 1, 42891); (42897, 42899, 2, 42896);
   (42900, 42900, 1, 42948); (42903, 42921, 2, 42902); (42933, 42947, 2, 42932);
   (42952, 42954, 2, 42951); (42961, 42961, 1, 42960); (42967, 42969, 2, 42966);
   (42998, 42998, 1, 42997); (43859, 43859, 1, 42931); (43888, 43967, 1, 5024);
   (65345, 65370, 1, 65313); (66600, 66639, 1, 66560); (66776, 66811, 1, 66736);
   (66967, 66977, 1, 66928); (66979, 66993, 1, 66940); (66995, 67001, 1, 66956);
   (67003, 67004, 1, 66964); (68800, 68850, 1, 68736); (71872, 71903, 1, 71840);
   (93792, 93823, 1, 93760); (125218, 125251, 1, 125184)]%N.

(** The characters whose upper case is more than one character. *)
Definition upper_special : list (N * list N) :=
  [(223, [83; 83]); (329, [700; 78]); (496, [74; 780]); (912, [921; 776; 769]);
   (944, [933; 776; 769]); (1415, [1333; 1362]); (7830, [72; 817]); (7831, [84; 776]);
   (7832, [87; 778]); (7833, [89; 778]); (7834, [65; 702]); (8016, [933; 787]);
   (8018, [933; 787; 768]); (8020, [933; 787; 769]); (8022, [933; 787; 834]);
   (8064, [7944; 921]); (8065, [7945; 921]); (8066, [7946; 921]); (8067, [7947; 921]);
   (8068, [7948; 921]); (8069, [7949; 921]); (8070, [7950; 921]); (8071, [7951; 921]);
   (8072, [7944; 921]); (8073, [7945; 921]); (8074, [7946; 921]); (8075, [7947; 921]);
   (8076, [7948; 921]); (8077, [7949; 921]); (8078, [7950; 921]); (8079, [7951; 921]);
   (8080, [7976; 921]); (8081, [7977; 921]); (8082, [7978; 921]); (8083, [7979; 921]);
   (8084, [7980; 921]); (8085, [7981; 921]); (8086, [7982; 921]); (8087, [7983; 921]);
   (8088, [7976; 921]); (8089, [7977; 921]); (8090, [7978; 921]); (8091, [7979; 921]);
   (8092, [7980; 921]); (8093, [7981; 921]); (8094, [7982; 921]); (8095, [7983; 921]);
   (8096, [8040; 921]); (8097, [8041; 921]); (8098, [8042; 921]); (8099, [8043; 921]);
   (8100, [8044; 921]); (8101, [8045; 921]); (8102, [8046; 921]); (8103, [8047; 921]);
   (8104, [8040; 921]); (8105, [8041; 921]); (8106, [8042; 921]); (8107, [8043; 921]);
   (8108, [8044; 921]); (8109, [8045; 921]); (8110, [8046; 921]); (8111, [8047; 921]);
   (8114, [8122; 921]); (8115, [913; 921]); (8116, [902; 921]); (8118, [913; 834]);
   (8119, [913; 834; 921]); (8124, [913; 921]); (8130, [8138; 921]); (8131, [919; 921]);
   (8132, [905; 921]); (8134, [919; 834]); (8135, [919; 834; 921]); (8140, [919; 921]);
   (8146, [921; 776; 768]); (8147, [921; 776; 769]); (8150, [921; 834]); (8151, [921; 776; 834]);
   (8162, [933; 776; 768]); (8163, [933; 776; 769]); (8164, [929; 787]); (8166, [933; 834]);
   (8167, [933; 776; 834]); (8178, [8186; 921]); (8179, [937; 921]); (8180, [911; 921]);
   (8182, [937; 834]); (8183, [937; 834; 921]); (8188, [937; 921]); (64256, [70; 70]);
   (64257, [70; 73]); (64258, [70; 76]); (64259, [70; 70; 73]); (64260, [70; 70; 76]);
   (64261, [83; 84]); (64262, [83; 84]); (64275, [1348; 1350]); (64276, [1348; 1333]);
   (64277, [1348; 1339]); (64278, [1358; 1350]); (64279, [1348; 1341])]%N.

(** The characters beyond ASCII with a one-character lower case. *)
Definition lower_ranges : list (N * N * N * N) :=
  [(192, 214, 1, 224); (216, 222, 1, 248); (256, 302, 2, 257); (306, 310, 2, 307);
   (313, 327, 2, 314); (330, 374, 2, 331); (376, 376, 1, 255); (377, 381, 2, 378);
   (385, 385, 1, 595); (386, 388, 2, 387); (390, 390, 1, 596); (391, 391, 1, 392);
   (393, 394, 1, 598); (395, 395, 1, 396); (398, 398, 1, 477); (399, 399, 1, 601);
   (400, 400, 1, 603); (401, 401, 1, 402); (403, 403, 1, 608); (404, 404, 1, 611);
   (406, 406, 1, 617); (407, 407, 1, 616); (408, 408, 1, 409); (412, 412, 1, 623);
   (413, 413, 1, 626); (415, 415, 1, 629); (416, 420, 2, 417); (422, 422, 1, 640);
   (423, 423, 1, 424); (425, 425, 1, 643); (428, 428, 1, 429); (430, 430, 1, 648);
   (431, 431, 1, 432); (433, 434, 1, 650); (435, 437, 2, 436); (439, 439, 1, 658);
   (440, 440, 1, 441); (444, 444, 1, 445); (452, 452, 1, 454); (453, 453, 1, 454);
   (455, 455, 1, 457); (456, 456, 1, 457); (458, 458, 1, 460); (459, 475, 2, 460);
   (478, 494, 2, 479); (497, 497, 1, 499); (498, 500, 2, 499); (502, 502, 1, 405);
   (503, 503, 1, 447); (504, 542, 2, 505); (544, 544, 1, 414); (546, 562, 2, 547);
   (570, 570, 1, 11365); (571, 571, 1, 572); (573, 573, 1, 410); (574, 574, 1, 11366);
   (577, 577, 1, 578); (579, 579, 1, 384); (580, 580, 1, 649); (581, 581, 1, 652);
   (582, 590, 2, 583); (880, 882, 2, 881); (886, 886, 1, 887); (895, 895, 1, 1011);
   (902, 902, 1, 940); (904, 906, 1, 941); (908, 908, 1, 972); (910, 911, 1, 973);
   (913, 929, 1, 945); (931, 939, 1, 963); (975, 975, 1, 983); (984, 1006, 2, 985);
   (1012, 1012, 1, 952); (1015, 1015, 1, 1016); (1017, 1017, 1, 1010); (1018, 1018, 1, 1019);
   (1021, 1023, 1, 891); (1024, 1039, 1, 1104); (1040, 1071, 1, 1072); (1120, 1152, 2, 1121);
   (1162, 1214, 2, 1163); (1216, 1216, 1, 1231); (1217, 1229, 2, 1218); (1232, 1326, 2, 1233);
   (1329, 1366, 1, 1377); (4256, 4293, 1, 11520); (4295, 4295, 1, 11559); (4301, 4301, 1, 11565);
   (5024, 5103, 1, 43888); (5104, 5109, 1, 5112); (7312, 7354, 1, 4304); (7357, 7359, 1, 4349);
   (7680, 7828, 2, 7681); (7838, 7838, 1, 223); (7840, 7934, 2, 7841); (7944, 7951, 1, 7936);
   (7960, 7965, 1, 7952); (7976, 7983, 1, 7968); (7992, 7999, 1, 7984); (8008, 8013, 1, 8000);
   (8025, 8031, 2, 8017); (8040, 8047, 1, 8032); (8072, 8079, 1, 8064); (8088, 8095, 1, 8080);
   (8104, 8111, 1, 8096); (8120, 8121, 1, 8112); (8122, 8123, 1, 8048); (8124, 8124, 1, 8115);
   (8136, 8139, 1, 8050); (8140, 8140, 1, 8131); (8152, 8153, 1, 8144); (8154, 8155, 1, 8054);
   (8168, 8169, 1, 8160); (8170, 8171, 1, 8058); (8172, 8172, 1, 8165); (8184, 8185, 1, 8056);
   (8186, 8187, 1, 8060); (8188, 8188, 1, 8179); (8486, 8486, 1, 969); (8490, 8490, 1, 107);
   (8491, 8491, 1, 229); (8498, 8498, 1, 8526); (8544, 8559, 1, 8560); (8579, 8579, 1, 8580);
   (9398, 9423, 1, 9424); (11264, 11311, 1, 11312); (11360, 11360, 1, 11361);
   (11362, 11362, 1, 619); (11363, 11363, 1, 7549); (11364, 11364, 1, 637);
   (11367, 11371, 2, 11368); (11373, 11373, 1, 593); (11374, 11374, 1, 625);
   (11375, 11375, 1, 592); (11376, 11376, 1, 594); (11378, 11378, 1, 11379);
   (11381, 11381, 1, 11382); (11390, 11391, 1, 575); (11392, 11490, 2, 11393);
   (11499, 11501, 2, 11500); (11506, 11506, 1, 11507); (42560, 42604, 2, 42561);
   (42624, 42650, 2, 42625); (42786, 42798, 2, 42787); (42802, 42862, 2, 42803);
   (42873, 42875, 2, 42874); (42877, 42877, 1, 7545); (42878, 42886, 2, 42879);
   (42891, 42891, 1, 42892); (42893, 42893, 1, 613); (42896, 42898, 2, 42897);
   (42902, 42920, 2, 42903); (42922, 42922, 1, 614); (42923, 42923, 1, 604);
   (42924, 42924, 1, 609); (42925, 42925, 1, 620); (42926, 42926, 1, 618);
   (42928, 42928, 1, 670); (42929, 42929, 1, 647); (42930, 42930, 1, 669);
   (42931, 42931, 1, 43859); (42932, 42946, 2, 42933); (42948, 42948, 1, 42900);
   (42949, 42949, 1, 642); (42950, 42950, 1, 7566); (42951, 42953, 2, 42952);
   (42960, 42960, 1, 42961); (42966, 42968, 2, 42967); (42997, 42997, 1, 42998);
   (65313, 65338, 1, 65345); (66560, 66599, 1, 66600); (66736, 66771, 1, 66776);
   (66928, 66938, 1, 66967); (66940, 66954, 1, 66979); (66956, 66962, 1, 66995);
   (66964, 66965, 1, 67003); (68736, 68786, 1, 68800); (71840, 71871, 1, 71872);
   (93760, 93791, 1, 93792); (125184, 125217, 1, 125218)]%N.

(** The cased characters that are not case-ignorable, in runs
    [(first, last)]. *)
Definition cased_ranges : list (N * N) :=
  [(65, 90); (97, 122); (170, 170); (181, 181); (186, 186); (192, 214); (216, 246); (248, 442);
   (444, 447); (452, 659); (661, 687); (880, 883); (886, 887); (891, 893); (895, 895);
   (902, 902); (904, 906); (908, 908); (910, 929); (931, 1013); (1015, 1153); (1162, 1327);
   (1329, 1366); (1376, 1416); (4256, 4293); (4295, 4295); (4301, 4301); (4304, 4346);
   (4349, 4351); (5024, 5109); (5112, 5117); (7296, 7304); (7312, 7354); (7357, 7359);
   (7424, 7467); (7531, 7543); (7545, 7578); (7680, 7957); (7960, 7965); (7968, 8005);
   (8008, 8013); (8016, 8023); (8025, 8025); (8027, 8027); (8029, 8029); (8031, 8061);
   (8064, 8116); (8118, 8124); (8126, 8126); (8130, 8132); (8134, 8140); (8144, 8147);
   (8150, 8155); (8160, 8172); (8178, 8180); (8182, 8188); (8450, 8450); (8455, 8455);
   (8458, 8467); (8469, 8469); (8473, 8477); (8484, 8484); (8486, 8486); (8488, 8488);
   (8490, 8493); (8495, 8500); (8505, 8505); (8508, 8511); (8517, 8521); (8526, 8526);
   (8544, 8575); (8579, 8580); (9398, 9449); (11264, 11387); (11390, 11492); (11499, 11502);
   (11506, 11507); (11520, 11557); (11559, 11559); (11565, 11565); (42560, 42605);
   (42624, 42651); (42786, 42863); (42865, 42887); (42891, 42894); (42896, 42954);
   (42960, 42961); (42963, 42963); (42965, 42969); (42997, 42998); (43002, 43002);
   (43824, 43866); (43872, 43880); (43888, 43967); (64256, 64262); (64275, 64279);
   (65313, 65338); (65345, 65370); (66560, 66639); (66736, 66771); (66776, 66811);
   (66928, 66938); (66940, 66954); (66956, 66962); (66964, 66965); (66967, 66977);
   (66979, 66993); (66995, 67001); (67003, 67004); (68736, 68786); (68800, 68850);
   (71840, 71903); (93760, 93823); (119808, 119892); (119894, 119964); (119966, 119967);
   (119970, 119970); (119973, 119974); (119977, 119980); (119982, 119993); (119995, 119995);
   (119997, 120003); (120005, 120069); (120071, 120074); (120077, 120084); (120086, 120092);
   (120094, 120121); (120123, 120126); (120128, 120132); (120134, 120134); (120138, 120144);
   (120146, 120485); (120488, 120512); (120514, 120538); (120540, 120570); (120572, 120596);
   (120598, 120628); (120630, 120654); (120656, 120686); (120688, 120712); (120714, 120744);
   (120746, 120770); (120772, 120779); (122624, 122633); (122635, 122654); (125184, 125251);
   (127280, 127305); (127312, 127337); (127344, 127369)]%N.

(** The case-ignorable characters. *)
Definition ignorable_ranges : list (N * N) :=
  [(39, 39); (46, 46); (58, 58); (94, 94); (96, 96); (168, 168); (173, 173); (175, 175);
   (180, 180); (183, 184); (688, 879); (884, 885); (890, 890); (900, 901); (903, 903);
   (1155, 1161); (1369, 1369); (1375, 1375); (1425, 1469); (1471, 1471); (1473, 1474);
   (1476, 1477); (1479, 1479); (1524, 1524); (1536, 1541); (1552, 1562); (1564, 1564);
   (1600, 1600); (1611, 1631); (1648, 1648); (1750, 1757); (1759, 1768); (1770, 1773);
   (1807, 1807); (1809, 1809); (1840, 1866); (1958, 1968); (2027, 2037); (2042, 2042);
   (2045, 2045); (2070, 2093); (2137, 2139); (2184, 2184); (2192, 2193); (2200, 2207);
   (2249, 2306); (2362, 2362); (2364, 2364); (2369, 2376); (2381, 2381); (2385, 2391);
   (2402, 2403); (2417, 2417); (2433, 2433); (2492, 2492); (2497, 2500); (2509, 2509);
   (2530, 2531); (2558, 2558); (2561, 2562); (2620, 2620); (2625, 2626); (2631, 2632);
   (2635, 2637); (2641, 2641); (2672, 2673); (2677, 2677); (2689, 2690); (2748, 2748);
   (2753, 2757); (2759, 2760); (2765, 2765); (2786, 2787); (2810, 2815); (2817, 2817);
   (2876, 2876); (2879, 2879); (2881, 2884); (2893, 2893); (2901, 2902); (2914, 2915);
   (2946, 2946); (3008, 3008); (3021, 3021); (3072, 3072); (3076, 3076); (3132, 3132);
   (3134, 3136); (3142, 3144); (3146, 3149); (3157, 3158); (3170, 3171); (3201, 3201);
   (3260, 3260); (3263, 3263); (3270, 3270); (3276, 3277); (3298, 3299); (3328, 3329);
   (3387, 3388); (3393, 3396); (3405, 3405); (3426, 3427); (3457, 3457); (3530, 3530);
   (3538, 3540); (3542, 3542); (3633, 3633); (3636, 3642); (3654, 3662); (3761, 3761);
   (3764, 3772); (3782, 3782); (3784, 3789); (3864, 3865); (3893, 3893); (3895, 3895);
   (3897, 3897); (3953, 3966); (3968, 3972); (3974, 3975); (3981, 3991); (3993, 4028);
   (4038, 4038); (4141, 4144); (4146, 4151); (4153, 4154); (4157, 4158); (4184, 4185);
   (4190, 4192); (4209, 4212); (4226, 4226); (4229, 4230); (4237, 4237); (4253, 4253);
   (4348, 4348); (4957, 4959); (5906, 5908); (5938, 5939); (5970, 5971); (6002, 6003);
   (6068, 6069); (6071, 6077); (6086, 6086); (6089, 6099); (6103, 6103); (6109, 6109);
   (6155, 6159); (6211, 6211); (6277, 6278); (6313, 6313); (6432, 6434); (6439, 6440);
   (6450, 6450); (6457, 6459); (6679, 6680); (6683, 6683); (6742, 6742); (6744, 6750);
   (6752, 6752); (6754, 6754); (6757, 6764); (6771, 6780); (6783, 6783); (6823, 6823);
   (6832, 6862); (6912, 6915); (6964, 6964); (6966, 6970); (6972, 6972); (6978, 6978);
   (7019, 7027); (7040, 7041); (7074, 7077); (7080, 7081); (7083, 7085); (7142, 7142);
   (7144, 7145); (7149, 7149); (7151, 7153); (7212, 7219); (7222, 7223); (7288, 7293);
   (7376, 7378); (7380, 7392); (7394, 7400); (7405, 7405); (7412, 7412); (7416, 7417);
   (7468, 7530); (7544, 7544); (7579, 7679); (8125, 8125); (8127, 8129); (8141, 8143);
   (8157, 8159); (8173, 8175); (8189, 8190); (8203, 8207); (8216, 8217); (8228, 8228);
   (8231, 8231); (8234, 8238); (8288, 8292); (8294, 8303); (8305, 8305); (8319, 8319);
   (8336, 8348); (8400, 8432); (11388, 11389); (11503, 11505); (11631, 11631); (11647, 11647);
   (11744, 11775); (11823, 11823); (12293, 12293); (12330, 12333); (12337, 12341);
   (12347, 12347); (12441, 12446); (12540, 12542); (40981, 40981); (42232, 42237);
   (42508, 42508); (42607, 42610); (42612, 42621); (42623, 42623); (42652, 42655);
   (42736, 42737); (42752, 42785); (42864, 42864); (42888, 42890); (42994, 42996);
   (43000, 43001); (43010, 43010); (43014, 43014); (43019, 43019); (43045, 43046);
   (43052, 43052); (43204, 43205); (43232, 43249); (43263, 43263); (43302, 43309);
   (43335, 43345); (43392, 43394); (43443, 43443); (43446, 43449); (43452, 43453);
   (43471, 43471); (43493, 43494); (43561, 43566); (43569, 43570); (43573, 43574);
   (43587, 43587); (43596, 43596); (43632, 43632); (43644, 43644); (43696, 43696);
   (43698, 43700); (43703, 43704); (43710, 43711); (43713, 43713); (43741, 43741);
   (43756, 43757); (43763, 43764); (43766, 43766); (43867, 43871); (43881, 43883);
   (44005, 44005); (44008, 44008); (44013, 44013); (64286, 64286); (64434, 64450);
   (65024, 65039); (65043, 65043); (65056, 65071); (65106, 65106); (65109, 65109);
   (65279, 65279); (65287, 65287); (65294, 65294); (65306, 65306); (65342, 65342);
   (65344, 65344); (65392, 65392); (65438, 65439); (65507, 65507); (65529, 65531);
   (66045, 66045); (66272, 66272); (66422, 66426); (67456, 67461); (67463, 67504);
   (67506, 67514); (68097, 68099); (68101, 68102); (68108, 68111); (68152, 68154);
   (68159, 68159); (68325, 68326); (68900, 68903); (69291, 69292); (69446, 69456);
   (69506, 69509); (69633, 69633); (69688, 69702); (69744, 69744); (69747, 69748);
   (69759, 69761); (69811, 69814); (69817, 69818); (69821, 69821); (69826, 69826);
   (69837, 69837); (69888, 69890); (69927, 69931); (69933, 69940); (70003, 70003);
   (70016, 70017); (70070, 70078); (70089, 70092); (70095, 70095); (70191, 70193);
   (70196, 70196); (70198, 70199); (70206, 70206); (70367, 70367); (70371, 70378);
   (70400, 70401); (70459, 70460); (70464, 70464); (70502, 70508); (70512, 70516);
   (70712, 70719); (70722, 70724); (70726, 70726); (70750, 70750); (70835, 70840);
   (70842, 70842); (70847, 70848); (70850, 70851); (71090, 71093); (71100, 71101);
   (71103, 71104); (71132, 71133); (71219, 71226); (71229, 71229); (71231, 71232);
   (71339, 71339); (71341, 71341); (71344, 71349); (71351, 71351); (71453, 71455);
   (71458, 71461); (71463, 71467); (71727, 71735); (71737, 71738); (71995, 71996);
   (71998, 71998); (72003, 72003); (72148, 72151); (72154, 72155); (72160, 72160);
   (72193, 72202); (72243, 72248); (72251, 72254); (72263, 72263); (72273, 72278);
   (72281, 72283); (72330, 72342); (72344, 72345); (72752, 72758); (72760, 72765);
   (72767, 72767); (72850, 72871); (72874, 72880); (72882, 72883); (72885, 72886);
   (73009, 73014); (73018, 73018); (73020, 73021); (73023, 73029); (73031, 73031);
   (73104, 73105); (73109, 73109); (73111, 73111); (73459, 73460); (78896, 78904);
   (92912, 92916); (92976, 92982); (92992, 92995); (94031, 94031); (94095, 94111);
   (94176, 94177); (94179, 94180); (110576, 110579); (110581, 110587); (110589, 110590);
   (113821, 113822); (113824, 113827); (118528, 118573); (118576, 118598); (119143, 119145);
   (119155, 119170); (119173, 119179); (119210, 119213); (119362, 119364); (121344, 121398);
   (121403, 121452); (121461, 121461); (121476, 121476); (121499, 121503); (121505, 121519);
   (122880, 122886); (122888, 122904); (122907, 122913); (122915, 122916); (122918, 122922);
   (123184, 123197); (123566, 123566); (123628, 123631); (125136, 125142); (125252, 125259);
   (127995, 127999); (917505, 917505); (917536, 917631); (917760, 917999)]%N.

#[local] Open Scope N_scope.

(** The image of [cp] in a table of runs sorted by their first character. *)
Fixpoint image (cp : N) (runs : list (N * N * N * N)) : option N :=
  match runs with
  | [] => None
  | (first, last, step, target) :: rest =>
      if cp <? first then None
      else if (cp <=? last) && ((cp - first) mod step =? 0) then Some (target + (cp - first))
      else image cp rest
  end.

Fixpoint in_runs (cp : N) (runs : list (N * N)) : bool :=
  match runs with
  | [] => false
  | (first, last) :: rest => if cp <? first then false else (cp <=? last) || in_runs cp rest
  end.

Fixpoint special (cp : N) (table : list (N * list N)) : option (list N) :=
  match table with
  | [] => None
  | (c, l) :: rest => if cp =? c then Some l else special cp rest
  end.

(** The upper case of a character. *)
Definition upper_cp (cp : N) : list N :=
  if cp <? 128 then [if (97 <=? cp) && (cp <=? 122) then cp - 32 else cp]
  else
    match special cp upper_special with
    | Some l => l
    | None =>
        match image cp upper_ranges with
        | Some u => [u]
        | None => [cp]
        end
    end.

(** The lower case of a character other than the capital sigma. *)
Definition lower_cp (cp : N) : list N :=
  if cp <? 128 then [if (65 <=? cp) && (cp <=? 90) then cp + 32 else cp]
  else if cp =? 304 then [105; 775]
  else
    match image cp lower_ranges with
    | Some l => [l]
    | None => [cp]
    end.

Definition case_ignorable (cp : N) : bool := in_runs cp ignorable_ranges.
Definition cased (cp : N) : bool := in_runs cp cased_ranges.

#[local] Close Scope N_scope.

Fixpoint upper_go (k : nat) (s : string) : string :=
  match s with
  | EmptyString => EmptyString
  | String a t =>
      match k with
      | S k' => upper_go k' t
      | O =>
          match code_point s with
          | Some (cp, w) => encode_all (upper_cp cp) ++ upper_go w t
          | None => String a (upper_go 0 t)
          end
      end
  end.

(** [s.toUpperCase()] *)
Definition toUpperCase (s : string) : string := upper_go 0 s.

(** After [k] more bytes, [s] goes on with case-ignorable characters and
    then a cased one. *)
Fixpoint before_cased (k : nat) (s : string) : bool :=
  match s with
  | EmptyString => false
  | String a t =>
      match k with
      | S k' => before_cased k' t
      | O =>
          match code_point s with
          | Some (cp, w) => if case_ignorable cp then before_cased w t else cased cp
          | None => false
          end
      end
  end.

(** [after_cased]: a cased character came before, followed by nothing but
    case-ignorable ones.  There, and when no cased character follows in
    the same way, the capital sigma (931) becomes the final sigma (962). *)
Fixpoint lower_go (after_cased : bool) (k : nat) (s : string) : string :=
  match s with
  | EmptyString => EmptyString
  | String a t =>
      match k with
      | S k' => lower_go after_cased k' t
      | O =>
          match code_point s with
          | Some (cp, w) =>
              encode_all
                (if (cp =? 931)%N
                 then [if after_cased && negb (before_cased w t) then 962%N else 963%N]
                 else lower_cp cp)
              ++ lower_go (if case_ignorable cp then after_cased else cased cp) w t
          | None => String a (lower_go false 0 t)
          end
      end
  end.

(** [s.toLowerCase()] *)
Definition toLowerCase (s : string) : string := lower_go false 0 s.

(** [hay.includes(needle)] on strings. *)
Fixpoint includes (needle hay : string) : bool :=
  String.prefix needle hay ||
  match hay with
  | EmptyString => false
  | String _ t => includes needle t
  end.

(** [arr.includes(x)] on arrays of strings. *)
Definition arr_includes (x : string) (arr : list string) : bool :=
  existsb (String.eqb x) arr.

Fixpoint rev_string (s acc : string) : string :=
  match s with
  | EmptyString => acc
  | String a t => rev_string t (String a acc)
  end.

(** [s.replace(from, to)] with one-character strings: first occurrence only. *)
Fixpoint replace_first (from to : ascii) (s : string) : string :=
  match s with
  | EmptyString => EmptyString
  | String a t =>
      if Ascii.eqb a from then String to t else String a (replace_first from to t)
  end.

(** [s.split(sep)] with a one-character separator. *)
Fixpoint split_go (sep : ascii) (s cur : string) : list string :=
  match s with
  | EmptyString => [rev_string cur ""]
  | String a t =>
      if Ascii.eqb a sep then rev_string cur "" :: split_go sep t ""
      else split_go sep t (String a cur)
  end.

Definition split (sep : ascii) (s : string) : list string := split_go sep s "".

(** Decimal printing of integers, as [String(n)] does for them. *)
Definition string_of_Z (n : Z) : string := NilZero.string_of_int (Z.to_int n).
Definition string_of_nat (n : nat) : string := NilZero.string_of_uint (Nat.to_uint n).

(** *** Numbers *)

(** A number as [parseFloat] yields it. *)
Inductive num : Type :=
  | NaN
  | Infinity (negative : bool)
  | Fin (q : Q).

(** Finite doubles lie strictly between [-max_bound] and [max_bound];
    nonzero values of magnitude at most [min_bound] round to zero. *)
Definition max_bound : Q := inject_Z (2 ^ 1024 - 2 ^ 970).
Definition min_bound : Q := 1 # (2 ^ 1075).

Definition to_double (q : Q) : num :=
  if Qle_bool max_bound q then Infinity false
  else if Qle_bool q (- max_bound) then Infinity true
  else if Qle_bool (- min_bound) q && Qle_bool q min_bound then Fin 0
  else Fin (Qred q).

Definition num_truthy (x : num) : bool :=
  match x with
  | NaN => false
  | Infinity _ => true
  | Fin q => negb (Qeq_bool q 0)
  end.

(** [x || 0] on numbers. *)
Definition or_zero (x : num) : num := if num_truthy x then x else Fin 0.

(** [x > 0] *)
Definition num_pos (x : num) : bool :=
  match x with
  | NaN => false
  | Infinity neg => negb neg
  | Fin q => negb (Qle_bool q 0)
  end.

(** The digits at the head of a string: their value, their number, the rest. *)
Fixpoint read_digits (s : string) (acc : Z) (n : nat) : Z * nat * string :=
  match s with
  | String a t =>
      if is_digit a then read_digits t (10 * acc + digit_val a)%Z (S n)
      else (acc, n, s)
  | EmptyString => (acc, n, s)
  end.

(** An optional sign. *)
Definition read_sign (s : string) : bool * string :=
  match s with
  | String a t =>
      if Ascii.eqb a "-" then (true, t)
      else if Ascii.eqb a "+" then (false, t)
      else (false, s)
  | EmptyString => (false, s)
  end.

(** An exponent part [e[+-]ddd], taken only when a digit follows. *)
Definition read_exponent (s : string) : Z :=
  match s with
  | String c t =>
      if Ascii.eqb c "e" || Ascii.eqb c "E" then
        let '(neg, t') := read_sign t in
        let '(e, n, _) := read_digits t' 0%Z 0 in
        if n =? 0 then 0%Z else if neg then (- e)%Z else e
      else 0%Z
  | EmptyString => 0%Z
  end.

(** [parseFloat(s)]: the longest prefix of the trimmed string that is a
    decimal literal, or [NaN] when there is none. *)
Definition parseFloat (s : string) : num :=
  let '(neg, s1) := read_sign (trimStart s) in
  if String.prefix "Infinity" s1 then Infinity neg
  else
    let '(ip, ni, s2) := read_digits s1 0%Z 0 in
    let '(fp, nf, s3) :=
      match s2 with
      | String a t => if Ascii.eqb a "." then read_digits t 0%Z 0 else (0%Z, 0, s2)
      | EmptyString => (0%Z, 0, s2)
      end in
    if (ni =? 0) && (nf =? 0) then NaN
    else
      let mant := (ip * 10 ^ Z.of_nat nf + fp)%Z in
      let ex := (read_exponent s3 - Z.of_nat nf)%Z in
      let q := (inject_Z mant * Qpower (10 # 1) ex)%Q in
      to_double (if neg then (- q)%Q else q).

Definition hex_val (a : ascii) : option Z :=
  let n := nat_of_ascii a in
  if (48 <=? n) && (n <=? 57) then Some (Z.of_nat n - 48)%Z
  else if (65 <=? n) && (n <=? 70) then Some (Z.of_nat n - 55)%Z
  else if (97 <=? n) && (n <=? 102) then Some (Z.of_nat n - 87)%Z
  else None.

Fixpoint read_hex (s : string) (acc : Z) (n : nat) : Z * nat :=
  match s with
  | String a t =>
      match hex_val a with
      | Some v => read_hex t (16 * acc + v)%Z (S n)
      | None => (acc, n)
      end
  | EmptyString => (acc, n)
  end.

(** [parseInt(s)] without a radix: the integer at the head of the trimmed
    string, in base 16 after a [0x] prefix and in base 10 otherwise;
    [None] is [NaN]. *)
Definition parseInt (s : string) : option Z :=
  let '(neg, s1) := read_sign (trimStart s) in
  let '(v, n) :=
    match s1 with
    | String z (String x t) =>
        if Ascii.eqb z "0" && (Ascii.eqb x "x" || Ascii.eqb x "X") then read_hex t 0%Z 0
        else let '(v, n, _) := read_digits s1 0%Z 0 in (v, n)
    | _ => let '(v, n, _) := read_digits s1 0%Z 0 in (v, n)
    end in
  if n =? 0 then None else Some (if neg then (- v)%Z else v).

(** *** Dates *)

Inductive Date : Type :=
  | ValidDate (ms : Z)
  | InvalidDate.

(** [new Date(t)] for a time value: out of range gives the invalid date. *)
Definition Date_of_time (t : Z) : Date :=
  if (Z.abs t <=? 8640000000000000)%Z then ValidDate t else InvalidDate.

(** [isNaN(d.getTime())] *)
Definition Date_isNaN (d : Date) : bool :=
  match d with ValidDate _ => false | InvalidDate => true end.

(** Year, month and day (UTC) of a day count from 1970-01-01. *)
Definition civil_from_days (days : Z) : Z * Z * Z :=
  let z := (days + 719468)%Z in
  let era := (z / 146097)%Z in
  let doe := (z - era * 146097)%Z in
  let yoe := ((doe - doe / 1460 + doe / 36524 - doe / 146096) / 365)%Z in
  let doy := (doe - (365 * yoe + yoe / 4 - yoe / 100))%Z in
  let mp := ((5 * doy + 2) / 153)%Z in
  let d := (doy - (153 * mp + 2) / 5 + 1)%Z in
  let m := (if (mp <? 10)%Z then mp + 3 else mp - 9)%Z in
  let y := (yoe + era * 400 + (if (m <=? 2)%Z then 1 else 0))%Z in
  (y, m, d).

(** Day count from 1970-01-01 of a calendar date. *)
Definition days_from_civil (y m d : Z) : Z :=
  let y' := (if (m <=? 2)%Z then y - 1 else y)%Z in
  let era := (y' / 400)%Z in
  let yoe := (y' - era * 400)%Z in
  let mp := (if (m >? 2)%Z then m - 3 else m + 9)%Z in
  let doy := ((153 * mp + 2) / 5 + d - 1)%Z in
  let doe := (yoe * 365 + yoe / 4 - yoe / 100 + doy)%Z in
  (era * 146097 + doe - 719468)%Z.

(** [getUTCFullYear], [getUTCMonth() + 1], [getUTCDate] of a valid date. *)
Definition utc_ymd (d : Date) : option (Z * Z * Z) :=
  match d with
  | ValidDate ms => Some (civil_from_days (ms / 86400000))
  | InvalidDate => None
  end.

(** A [Date.parse] that accepts exactly the ISO date-only form
    [YYYY-MM-DD] with a day that exists in the calendar. *)
Definition iso_Date_parse (s : string) : option Z :=
  match s with
  | String y1 (String y2 (String y3 (String y4 (String "-"
      (String m1 (String m2 (String "-" (String d1 (String d2 EmptyString))))))))) =>
      if forallb is_digit [y1; y2; y3; y4; m1; m2; d1; d2] then
        let y := (1000 * digit_val y1 + 100 * digit_val y2 + 10 * digit_val y3 + digit_val y4)%Z in
        let m := (10 * digit_val m1 + digit_val m2)%Z in
        let d := (10 * digit_val d1 + digit_val d2)%Z in
        let days := days_from_civil y m d in
        if (1 <=? m)%Z && (m <=? 12)%Z && (1 <=? d)%Z
           && (let '(y', m', d') := civil_from_days days in
               (y' =? y)%Z && (m' =? m)%Z && (d' =? d)%Z)
        then Some (days * 86400000)%Z else None
      else None
  | _ => None
  end.

(** *** Spreadsheet cells *)

(** A cell of the grid: text, a number, a boolean, or nothing (an index
    past the end of the row, or a hole of a sparse row). *)
Inductive cell : Type :=
  | CStr (s : string)
  | CNum (n : Z)
  | CBool (b : bool)
  | CUndef.

(** Truthiness of a cell, as in [if (c)] and [!c]. *)
Definition truthy (c : cell) : bool :=
  match c with
  | CStr s => negb (String.eqb s "")
  | CNum n => negb (n =? 0)%Z
  | CBool b => b
  | CUndef => false
  end.

(** [String(c)], also the text a template literal inserts. *)
Definition String_ (c : cell) : string :=
  match c with
  | CStr s => s
  | CNum n => string_of_Z n
  | CBool true => "true"
  | CBool false => "false"
  | CUndef => "undefined"
  end.

(** [row[j]] *)
Definition at_ (row : list cell) (j : nat) : cell := nth j row CUndef.

(** Truthiness of an optional string field ([undefined], [null] and the
    empty string are falsy). *)
Definition str_truthy (o : option string) : bool :=
  match o with
  | Some s => negb (String.eqb s "")
  | None => false
  end.

(** [a || b] on optional string fields. *)
Definition str_or (a b : option string) : option string :=
  if str_truthy a then a else b.

End Js.

Export Js.

(** ** The persistence layer, as the import code sees it *)

Record Stats : Type := mkStats {
  total : nat;
  created : nat;
  updated : nat;
  errors : list string
}.

Module Worker.
(** The fields of a worker record that the import reads or writes. *)
Record data : Type := mk {
  prenom : string;
  nom : string;
  poste : string;
  site_affectation : string;
  statut : string;
  date_embauche : Date;
  date_naissance : option Date;
  email : option string;
  cin : option string;
  contact : option string;
  adresse : option string;
  salaire_base : num;
  created_by : option Z
}.

(** The object literal handed to [existingWorker.update] by the service. *)
Record patch : Type := mkPatch {
  p_site_affectation : string;
  p_salaire_base : num;
  p_adresse : option string;
  p_contact : option string;
  p_date_naissance : option Date
}.

(** What [update] receives: the five keys of the service, or a whole
    [workerData] object (the controller). *)
Inductive changes : Type :=
  | Patch (p : patch)
  | Full (d : data).

(** A model instance returned by [findOne]: its primary key and fields. *)
Definition instance : Type := (nat * data)%type.

(** The [where] clauses the import builds. *)
Inductive where_ : Type :=
  | ByCin (c : string)
  | ByNameContact (prenom nom contact : string)
  | ByName (nom prenom : string).
End Worker.

Module Product.
(** [category_id] is [None] when the key is absent from the object. *)
Record data : Type := mk {
  nom : string;
  description : option string;
  unite : string;
  seuil_alerte : Z;
  statut : string;
  quantite_actuelle : Z;
  code_produit : option string;
  category_id : option nat
}.

Definition instance : Type := (nat * data)%type.

Inductive where_ : Type :=
  | ByCode (c : string)
  | ByNom (n : string).
End Product.

Module Category.
Record data : Type := mk {
  nom : string;
  description : string
}.

Definition instance : Type := (nat * data)%type.
End Category.

(** A call either returns or throws an error carrying a message; either
    way it leaves a store state behind. *)
Inductive outcome (A : Type) : Type :=
  | Returned (a : A)
  | Thrown (message : string).
Arguments Returned {A} a.
Arguments Thrown {A} message.

Definition M (S A : Type) : Type := S -> outcome A * S.

Definition ret {S A : Type} (a : A) : M S A := fun s => (Returned a, s).

Definition bind {S A B : Type} (m : M S A) (k : A -> M S B) : M S B :=
  fun s =>
    match m s with
    | (Returned a, s') => k a s'
    | (Thrown e, s') => (Thrown e, s')
    end.

Notation "x <- m ;; k" := (bind m (fun x => k))
  (at level 100, m at next level, right associativity).

(** The three models, over any store state [S] and with any behaviour. *)
Class Models (S : Type) : Type := {
  Worker_findOne : Worker.where_ -> M S (option Worker.instance);
  Worker_create : Worker.data -> M S unit;
  Worker_update : Worker.instance -> Worker.changes -> M S unit;
  Product_findOne : Product.where_ -> M S (option Product.instance);
  Product_create : Product.data -> M S unit;
  Product_update : Product.instance -> Product.data -> M S unit;
  Category_findOne : string -> M S (option Category.instance);
  Category_create : Category.data -> M S Category.instance
}.

(** Which branch of an upsert ran. *)
Inductive upserted : Type := Created | Updated.

(** The end of a [try { ... } catch (err) { errors.push(...) }] body. *)
Definition settle (st : Stats) (line : string) (o : outcome upserted) : Stats :=
  match o with
  | Returned Created => mkStats (total st) (S (created st)) (updated st) (errors st)
  | Returned Updated => mkStats (total st) (created st) (S (updated st)) (errors st)
  | Thrown msg => mkStats (total st) (created st) (updated st) (errors st ++ [line ++ msg])
  end.

(** [stats.total++] *)
Definition count (st : Stats) : Stats :=
  mkStats (S (total st)) (created st) (updated st) (errors st).

(** [headerRowIndex !== -1 && i > headerRowIndex] *)
Definition after_header (headerRowIndex : option nat) (i : nat) : bool :=
  match headerRowIndex with
  | Some h => h <? i
  | None => false
  end.

(** [colMap.k !== -1 && row[colMap.k]] *)
Definition present (col : option nat) (row : list cell) : option cell :=
  match col with
  | Some j => if truthy (at_ row j) then Some (at_ row j) else None
  | None => None
  end.

(** [row.map(c => String(c).trim().toUpperCase())] *)
Definition rowStr_of (row : list cell) : list string :=
  map (fun c => toUpperCase (trim (String_ c))) row.

(** ** [ImportService], worker import *)

Module WorkerScan.
(** [colMap] of [importWorkersFromExcel]; [None] stands for [-1]. *)
Record cols : Type := mkCols {
  prenom : option nat;
  nom : option nat;
  cin : option nat;
  telephone : option nat;
  adresse : option nat;
  salaire : option nat;
  date_naissance : option nat
}.

(** The variables the loop mutates. *)
Record t : Type := mk {
  currentSite : string;
  headerRowIndex : option nat;
  colMap : cols;
  stats : Stats
}.

Definition init : t :=
  mk "SIEGE" None (mkCols None None None None None None None) (mkStats 0 0 0 []).

Definition set_site (site : string) (st : t) : t :=
  mk site (headerRowIndex st) (colMap st) (stats st).

Definition set_stats (s : Stats) (st : t) : t :=
  mk (currentSite st) (headerRowIndex st) (colMap st) s.

(** One call of the [forEach] callback of the header branch. *)
Definition assign (colName : string) (idx : nat) (m : cols) : cols :=
  if includes "PRENOM" colName then
    mkCols (Some idx) (nom m) (cin m) (telephone m) (adresse m) (salaire m) (date_naissance m)
  else if String.eqb colName "NOMS" then
    mkCols (prenom m) (Some idx) (cin m) (telephone m) (adresse m) (salaire m) (date_naissance m)
  else if includes "N.I" colName || includes "CIN" colName then
    mkCols (prenom m) (nom m) (Some idx) (telephone m) (adresse m) (salaire m) (date_naissance m)
  else if includes "TELEPHONE" colName then
    mkCols (prenom m) (nom m) (cin m) (Some idx) (adresse m) (salaire m) (date_naissance m)
  else if includes "ADRESSE" colName then
    mkCols (prenom m) (nom m) (cin m) (telephone m) (Some idx) (salaire m) (date_naissance m)
  else if includes "SALAIRE" colName then
    mkCols (prenom m) (nom m) (cin m) (telephone m) (adresse m) (Some idx) (date_naissance m)
  else if includes "NAISSANCE" colName then
    mkCols (prenom m) (nom m) (cin m) (telephone m) (adresse m) (salaire m) (Some idx)
  else m.

Fixpoint map_columns (rowStr : list string) (idx : nat) (m : cols) : cols :=
  match rowStr with
  | [] => m
  | colName :: rest => map_columns rest (S idx) (assign colName idx m)
  end.
End WorkerScan.

(** [row.filter(c => c && String(c).trim() !== '')] *)
Definition nonEmptyCells_of (row : list cell) : list cell :=
  List.filter (fun c => truthy c && negb (String.eqb (trim (String_ c)) "")) row.

(** The site heuristic at the top of the worker loop: the new site, when
    the row is taken as a banner. *)
Definition site_banner (row : list cell) : option string :=
  match nonEmptyCells_of row with
  | [c] =>
      let potentialSite := trim (String_ c) in
      if (3 <? str_length potentialSite)
         && negb (arr_includes "PRENOMS" (rowStr_of row))
         && negb (includes "TECHNICIENS DE SURFACE" potentialSite)
      then Some potentialSite else None
  | _ => None
  end.

(** The header test of the worker loop. *)
Definition is_worker_header (row : list cell) : bool :=
  arr_includes "PRENOMS" (rowStr_of row) && arr_includes "NOMS" (rowStr_of row).

(** The second site check, inside the data branch. *)
Definition inner_site (row : list cell) : option string :=
  match nonEmptyCells_of row with
  | [c] =>
      let potentialSite := trim (String_ c) in
      if 3 <? str_length potentialSite then Some potentialSite else None
  | _ => None
  end.

(** The salary coercion of the worker import. *)
Definition salary_of (c : option cell) : num :=
  match c with
  | Some v => or_zero (parseFloat (replace_first "," "." (remove_spaces (String_ v))))
  | None => Fin 0
  end.

Section ImportService.
Context {Store : Type} `{!Models Store}.

(** [Date.parse] of the engine on text ([None] is [NaN]). *)
Variable Date_parse : string -> option Z.
(** The reading of the clock by [new Date()] while row [i] is processed. *)
Variable now : nat -> Z.

(** [new Date(text)] *)
Definition Date_of_string (s : string) : Date :=
  match Date_parse s with
  | Some t => Date_of_time t
  | None => InvalidDate
  end.

(** [Math.round] on a whole number. *)
Definition Math_round (x : Z) : Z := x.

Definition parseExcelDate (excelDate : cell) : option Date :=
  if negb (truthy excelDate) then None
  else
    match excelDate with
    | CNum n => Some (Date_of_time (Math_round ((n - 25569) * 86400 * 1000)))
    | CStr s =>
        match split "/" s with
        | [p0; p1; p2] => Some (Date_of_string (p2 ++ "-" ++ p1 ++ "-" ++ p0))
        | _ =>
            let d := Date_of_string s in
            if Date_isNaN d then None else Some d
        end
    | CBool b =>
        let d := Date_of_time (if b then 1 else 0) in
        if Date_isNaN d then None else Some d
    | CUndef => None
    end.

(** The object [workerData] built at the top of the [try] block. *)
Definition workerData_of (i : nat) (st : WorkerScan.t) (row : list cell)
    (prenom nom : cell) : Worker.data :=
  let colMap := WorkerScan.colMap st in
  {| Worker.prenom := trim (String_ prenom);
     Worker.nom := trim (String_ nom);
     Worker.poste := "Technicien de surface";
     Worker.site_affectation := WorkerScan.currentSite st;
     Worker.statut := "ACTIF";
     Worker.date_embauche := Date_of_time (now i);
     Worker.date_naissance :=
       match WorkerScan.date_naissance colMap with
       | Some j => parseExcelDate (at_ row j)
       | None => None
       end;
     Worker.email := None;
     Worker.cin :=
       option_map (fun c => trim (String_ c)) (present (WorkerScan.cin colMap) row);
     Worker.contact :=
       option_map (fun c => trim (remove_spaces (String_ c)))
                  (present (WorkerScan.telephone colMap) row);
     Worker.adresse :=
       option_map (fun c => trim (String_ c)) (present (WorkerScan.adresse colMap) row);
     Worker.salaire_base := salary_of (present (WorkerScan.salaire colMap) row);
     Worker.created_by := None |}.

(** The values of [existingWorker.update({...})]. *)
Definition worker_patch (workerData existing : Worker.data) : Worker.patch :=
  {| Worker.p_site_affectation := Worker.site_affectation workerData;
     Worker.p_salaire_base :=
       if num_pos (Worker.salaire_base workerData)
       then Worker.salaire_base workerData else Worker.salaire_base existing;
     Worker.p_adresse := str_or (Worker.adresse workerData) (Worker.adresse existing);
     Worker.p_contact := str_or (Worker.contact workerData) (Worker.contact existing);
     Worker.p_date_naissance :=
       match Worker.date_naissance workerData with
       | Some d => Some d
       | None => Worker.date_naissance existing
       end |}.

(** Lookup by national ID, else by name and contact. *)
Definition find_worker (workerData : Worker.data) : M Store (option Worker.instance) :=
  existingWorker <-
    (match Worker.cin workerData with
     | Some c => if negb (String.eqb c "") then Worker_findOne (Worker.ByCin c) else ret None
     | None => ret None
     end) ;;
  match existingWorker with
  | Some w => ret (Some w)
  | None =>
      match Worker.contact workerData with
      | Some t =>
          if negb (str_truthy (Worker.cin workerData)) && negb (String.eqb t "")
          then Worker_findOne
                 (Worker.ByNameContact (Worker.prenom workerData) (Worker.nom workerData) t)
          else ret None
      | None => ret None
      end
  end.

(** The body of the [try] block of the worker loop. *)
Definition upsert_worker (workerData : Worker.data) : M Store upserted :=
  existingWorker <- find_worker workerData ;;
  match existingWorker with
  | Some w =>
      _ <- Worker_update w (Worker.Patch (worker_patch workerData (snd w))) ;;
      ret Updated
  | None =>
      _ <- Worker_create workerData ;;
      ret Created
  end.

(** The prefix of the message pushed by the [catch] clause. *)
Definition worker_line (i : nat) (prenom nom : cell) : string :=
  "Ligne " ++ string_of_nat (i + 1) ++ " (" ++ String_ prenom ++ " " ++ String_ nom ++ "): ".

(** One iteration of the [for] loop of [importWorkersFromExcel]. *)
Definition worker_step (i : nat) (row : list cell) (st : WorkerScan.t) (s : Store)
    : WorkerScan.t * Store :=
  match site_banner row with
  | Some site => (WorkerScan.set_site site st, s)
  | None =>
      if is_worker_header row then
        (WorkerScan.mk (WorkerScan.currentSite st) (Some i)
           (WorkerScan.map_columns (rowStr_of row) 0 (WorkerScan.colMap st))
           (WorkerScan.stats st), s)
      else if after_header (WorkerScan.headerRowIndex st) i then
        match WorkerScan.prenom (WorkerScan.colMap st), WorkerScan.nom (WorkerScan.colMap st) with
        | Some jp, Some jn =>
            let prenom := at_ row jp in
            let nom := at_ row jn in
            if negb (truthy prenom) || negb (truthy nom) then (st, s)
            else
              match inner_site row with
              | Some site => (WorkerScan.set_site site st, s)
              | None =>
                  let '(o, s') := upsert_worker (workerData_of i st row prenom nom) s in
                  (WorkerScan.set_stats
                     (settle (count (WorkerScan.stats st)) (worker_line i prenom nom) o) st,
                   s')
              end
        | _, _ => (st, s)
        end
      else (st, s)
  end.

Fixpoint worker_loop (i : nat) (data : list (list cell)) (st : WorkerScan.t) (s : Store)
    : WorkerScan.t * Store :=
  match data with
  | [] => (st, s)
  | row :: rest =>
      let '(st', s') := worker_step i row st s in
      worker_loop (i + 1) rest st' s'
  end.

(** [importWorkersFromExcel], from the grid of the first sheet on. *)
Definition importWorkersFromExcel (data : list (list cell)) (s : Store) : Stats * Store :=
  let '(st, s') := worker_loop 0 data WorkerScan.init s in
  (WorkerScan.stats st, s').

End ImportService.

(** ** [ImportService], product import *)

Module ProductScan.
(** [colMap] of [importProductsFromExcel]; [None] stands for [-1]. *)
Record cols : Type := mkCols {
  code : option nat;
  nom : option nat;
  categorie : option nat;
  unite : option nat;
  seuil : option nat;
  description : option nat
}.

Record t : Type := mk {
  headerRowIndex : option nat;
  colMap : cols;
  stats : Stats
}.

Definition init : t :=
  mk None (mkCols None None None None None None) (mkStats 0 0 0 []).

Definition set_stats (s : Stats) (st : t) : t :=
  mk (headerRowIndex st) (colMap st) s.

Definition assign (colName : string) (idx : nat) (m : cols) : cols :=
  if includes "CODE" colName then
    mkCols (Some idx) (nom m) (categorie m) (unite m) (seuil m) (description m)
  else if includes "NOM" colName then
    mkCols (code m) (Some idx) (categorie m) (unite m) (seuil m) (description m)
  else if includes "CAT" colName then
    mkCols (code m) (nom m) (Some idx) (unite m) (seuil m) (description m)
  else if includes "UNIT" colName then
    mkCols (code m) (nom m) (categorie m) (Some idx) (seuil m) (description m)
  else if includes "SEUIL" colName then
    mkCols (code m) (nom m) (categorie m) (unite m) (Some idx) (description m)
  else if includes "DESC" colName then
    mkCols (code m) (nom m) (categorie m) (unite m) (seuil m) (Some idx)
  else m.

Fixpoint map_columns (rowStr : list string) (idx : nat) (m : cols) : cols :=
  match rowStr with
  | [] => m
  | colName :: rest => map_columns rest (S idx) (assign colName idx m)
  end.
End ProductScan.

(** The header test of the product loop. *)
Definition is_product_header (row : list cell) : bool :=
  arr_includes "NOM DU PRODUIT" (rowStr_of row)
  || (arr_includes "CODE" (rowStr_of row) && existsb (includes "CAT") (rowStr_of row)).

(** The object [productData], before the category is resolved. *)
Definition productData_of (colMap : ProductScan.cols) (row : list cell) (nom : cell)
    : Product.data :=
  {| Product.nom := trim (String_ nom);
     Product.description :=
       match ProductScan.description colMap with
       | Some j => Some (trim (String_ (at_ row j)))
       | None => None
       end;
     Product.unite :=
       match present (ProductScan.unite colMap) row with
       | Some c => trim (String_ c)
       | None => "Unité"
       end;
     Product.seuil_alerte :=
       match ProductScan.seuil colMap with
       | Some j =>
           match parseInt (String_ (at_ row j)) with
           | Some v => if (v =? 0)%Z then 5%Z else v
           | None => 5%Z
           end
       | None => 5%Z
       end;
     Product.statut := "OK";
     Product.quantite_actuelle := 0%Z;
     Product.code_produit :=
       option_map (fun c => trim (String_ c)) (present (ProductScan.code colMap) row);
     Product.category_id := None |}.

(** [productData.category_id = id] *)
Definition set_category (id : nat) (d : Product.data) : Product.data :=
  Product.mk (Product.nom d) (Product.description d) (Product.unite d)
    (Product.seuil_alerte d) (Product.statut d) (Product.quantite_actuelle d)
    (Product.code_produit d) (Some id).

Section ProductImport.
Context {Store : Type} `{!Models Store}.

(** The [Handle Category] block. *)
Definition resolve_category (colMap : ProductScan.cols) (row : list cell)
    (productData : Product.data) : M Store Product.data :=
  match present (ProductScan.categorie colMap) row with
  | Some c =>
      let catName := trim (String_ c) in
      found <- Category_findOne catName ;;
      category <-
        (match found with
         | Some k => ret k
         | None => Category_create (Category.mk catName "Importé via Excel")
         end) ;;
      ret (set_category (fst category) productData)
  | None => ret productData
  end.

(** Lookup by product code, else by name. *)
Definition find_product (productData : Product.data) : M Store (option Product.instance) :=
  existingProduct <-
    (match Product.code_produit productData with
     | Some c => if negb (String.eqb c "") then Product_findOne (Product.ByCode c) else ret None
     | None => ret None
     end) ;;
  match existingProduct with
  | Some p => ret (Some p)
  | None => Product_findOne (Product.ByNom (Product.nom productData))
  end.

Definition upsert_product (productData : Product.data) : M Store upserted :=
  existingProduct <- find_product productData ;;
  match existingProduct with
  | Some p =>
      _ <- Product_update p productData ;;
      ret Updated
  | None =>
      _ <- Product_create productData ;;
      ret Created
  end.

(** The body of the [try] block of the product loop. *)
Definition product_body (colMap : ProductScan.cols) (row : list cell) (nom : cell)
    : M Store upserted :=
  productData <- resolve_category colMap row (productData_of colMap row nom) ;;
  upsert_product productData.

Definition product_line (i : nat) (nom : cell) : string :=
  "Ligne " ++ string_of_nat (i + 1) ++ " (" ++ String_ nom ++ "): ".

(** One iteration of the [for] loop of [importProductsFromExcel]. *)
Definition product_step (i : nat) (row : list cell) (st : ProductScan.t) (s : Store)
    : ProductScan.t * Store :=
  if is_product_header row then
    (ProductScan.mk (Some i)
       (ProductScan.map_columns (rowStr_of row) 0 (ProductScan.colMap st))
       (ProductScan.stats st), s)
  else if after_header (ProductScan.headerRowIndex st) i then
    match ProductScan.nom (ProductScan.colMap st) with
    | Some jn =>
        let nom := at_ row jn in
        if negb (truthy nom) then (st, s)
        else
          let '(o, s') := product_body (ProductScan.colMap st) row nom s in
          (ProductScan.set_stats
             (settle (count (ProductScan.stats st)) (product_line i nom) o) st, s')
    | None => (st, s)
    end
  else (st, s).

Fixpoint product_loop (i : nat) (data : list (list cell)) (st : ProductScan.t) (s : Store)
    : ProductScan.t * Store :=
  match data with
  | [] => (st, s)
  | row :: rest =>
      let '(st', s') := product_step i row st s in
      product_loop (i + 1) rest st' s'
  end.

(** [importProductsFromExcel], from the grid of the first sheet on. *)
Definition importProductsFromExcel (data : list (list cell)) (s : Store) : Stats * Store :=
  let '(st, s') := product_loop 0 data ProductScan.init s in
  (ProductScan.stats st, s').

End ProductImport.

(** ** [importWorkers] of the worker controller *)

Module Json.
Definition dquote : ascii := ascii_of_nat 34.
Definition backslash : ascii := ascii_of_nat 92.

Definition hex_digit (n : nat) : ascii :=
  if n <? 10 then ascii_of_nat (48 + n) else ascii_of_nat (87 + n).

(** The escape of one character inside a JSON string. *)
Definition escape (a : ascii) : string :=
  let n := nat_of_ascii a in
  if n =? 34 then String backslash (String dquote "")
  else if n =? 92 then String backslash (String backslash "")
  else if n =? 8 then String backslash "b"
  else if n =? 12 then String backslash "f"
  else if n =? 10 then String backslash "n"
  else if n =? 13 then String backslash "r"
  else if n =? 9 then String backslash "t"
  else if n <? 32 then
    String backslash ("u00" ++ String (hex_digit (n / 16)) (String (hex_digit (n mod 16)) ""))
  else String a "".

Fixpoint quote_body (s : string) : string :=
  match s with
  | EmptyString => EmptyString
  | String a t => escape a ++ quote_body t
  end.

Definition stringify_cell (c : cell) : string :=
  match c with
  | CStr s => String dquote (quote_body s ++ String dquote "")
  | CNum n => string_of_Z n
  | CBool true => "true"
  | CBool false => "false"
  | CUndef => "null"
  end.

Fixpoint join (l : list string) : string :=
  match l with
  | [] => ""
  | [x] => x
  | x :: rest => x ++ "," ++ join rest
  end.

(** [JSON.stringify(row)] *)
Definition stringify (row : list cell) : string :=
  "[" ++ join (map stringify_cell row) ++ "]".
End Json.

Module ControllerScan.
(** [colMap] of the controller: plain indices with fixed defaults. *)
Record cols : Type := mkCols {
  prenom : nat;
  nom : nat;
  ni : nat;
  tel : nat;
  adresse : nat;
  salaire : nat;
  naissance : nat
}.

Record t : Type := mk {
  currentSite : string;
  successCount : nat;
  errors : list string;
  colMap : cols
}.

Definition init : t :=
  mk "SALIHATE CLEAN SERVICES" 0 [] (mkCols 1 2 3 4 5 6 7).

(** One call of the [forEach] callback: independent [if]s. *)
Definition assign (cell_ : cell) (index : nat) (m : cols) : cols :=
  let val := trim (toUpperCase (String_ cell_)) in
  let m1 := if includes "PRENOM" val
            then mkCols index (nom m) (ni m) (tel m) (adresse m) (salaire m) (naissance m)
            else m in
  let m2 := if includes "NOM" val && negb (includes "PRENOM" val)
            then mkCols (prenom m1) index (ni m1) (tel m1) (adresse m1) (salaire m1) (naissance m1)
            else m1 in
  let m3 := if includes "N.I" val || includes "CNI" val
            then mkCols (prenom m2) (nom m2) index (tel m2) (adresse m2) (salaire m2) (naissance m2)
            else m2 in
  let m4 := if includes "TELEPHONE" val
            then mkCols (prenom m3) (nom m3) (ni m3) index (adresse m3) (salaire m3) (naissance m3)
            else m3 in
  let m5 := if includes "ADRESSE" val
            then mkCols (prenom m4) (nom m4) (ni m4) (tel m4) index (salaire m4) (naissance m4)
            else m4 in
  let m6 := if includes "SALAIRE" val
            then mkCols (prenom m5) (nom m5) (ni m5) (tel m5) (adresse m5) index (naissance m5)
            else m5 in
  if includes "ON" val
  then mkCols (prenom m6) (nom m6) (ni m6) (tel m6) (adresse m6) (salaire m6) index
  else m6.

Fixpoint map_columns (row : list cell) (index : nat) (m : cols) : cols :=
  match row with
  | [] => m
  | c :: rest => map_columns rest (S index) (assign c index m)
  end.
End ControllerScan.

(** [row.filter(c => c !== null && c !== undefined && c !== '').length] *)
Definition rowContent_of (row : list cell) : nat :=
  List.length (List.filter
    (fun c => match c with CUndef => false | CStr s => negb (String.eqb s "") | _ => true end)
    row).

(** [row.find(c => typeof c === 'string' && c.trim().length > 2)] *)
Definition potentialName_of (row : list cell) : option string :=
  match List.find
          (fun c => match c with CStr s => 2 <? str_length (trim s) | _ => false end) row
  with
  | Some (CStr s) => Some s
  | _ => None
  end.

(** [s.replace(/PAT/i, '')] for a pattern of ASCII capitals and spaces:
    the first match is removed.  Without the [u] flag the expression
    ignores the case of ASCII letters only, since no other character is
    taken for an ASCII one. *)
Fixpoint remove_first_ci (pat s : string) : string :=
  if String.prefix pat (map_chars upper_char s)
  then String.substring (String.length pat) (String.length s - String.length pat) s
  else
    match s with
    | EmptyString => EmptyString
    | String a t => String a (remove_first_ci pat t)
    end.

(** The header test of the controller, on the upper-cased JSON text. *)
Definition is_controller_header (row : list cell) : bool :=
  let rowStr := toUpperCase (Json.stringify row) in
  includes "PRENOMS" rowStr && includes "NOMS" rowStr.

(** The salary coercion of the controller, with its [isNaN] guard. *)
Definition controller_salary (c : cell) : num :=
  let salaire_base :=
    if truthy c
    then parseFloat (replace_first "," "." (remove_spaces (String_ c)))
    else Fin 0 in
  match salaire_base with
  | NaN => Fin 0
  | x => x
  end.

(** The site detection of the controller: the new site, when the row is
    taken as a site row. *)
Definition controller_site (row : list cell) (rowStr : string) : option string :=
  if (rowContent_of row <=? 2) && negb (includes "PRENOMS" rowStr) && negb (includes "NOMS" rowStr)
  then
    match potentialName_of row with
    | Some potentialName =>
        if negb (arr_includes (toUpperCase potentialName) ["PRENOMS"; "NOMS"; "SALAIRES"])
        then
          let currentSite := trim potentialName in
          if includes "LES TECHNICIENS DE SURFACE DE" (toUpperCase currentSite)
          then Some (trim (remove_first_ci "LES TECHNICIENS DE SURFACE DE" currentSite))
          else Some currentSite
        else None
    | None => None
    end
  else None.

Section WorkerController.
Context {Store : Type} `{!Models Store}.
Variable Date_parse : string -> option Z.
Variable now : nat -> Z.
(** [req.user.id] *)
Variable user_id : Z.

(** The inline date parsing of the controller. *)
Definition controller_date (c : cell) : option Date :=
  if truthy c then
    match c with
    | CNum n => Some (Date_of_time (Math_round ((n - 25569) * 86400 * 1000)))
    | _ =>
        match split "/" (String_ c) with
        | [p0; p1; p2] => Some (Date_of_string Date_parse (p2 ++ "-" ++ p1 ++ "-" ++ p0))
        | _ =>
            match c with
            | CStr s => Some (Date_of_string Date_parse s)
            | _ => Some (Date_of_time 1)
            end
        end
    end
  else None.

(** [row[k] ? String(row[k]).trim() : null] *)
Definition trimmed_or_null (c : cell) : option string :=
  if truthy c then Some (trim (String_ c)) else None.

Definition controller_workerData (i : nat) (st : ControllerScan.t) (row : list cell)
    (nom prenom : cell) : Worker.data :=
  let colMap := ControllerScan.colMap st in
  {| Worker.prenom := trim (String_ prenom);
     Worker.nom := trim (String_ nom);
     Worker.poste := "Technicien de surface";
     Worker.site_affectation := ControllerScan.currentSite st;
     Worker.statut := "ACTIF";
     Worker.date_embauche := Date_of_time (now i);
     Worker.date_naissance := controller_date (at_ row (ControllerScan.naissance colMap));
     Worker.email := None;
     Worker.cin := trimmed_or_null (at_ row (ControllerScan.ni colMap));
     Worker.contact := trimmed_or_null (at_ row (ControllerScan.tel colMap));
     Worker.adresse := trimmed_or_null (at_ row (ControllerScan.adresse colMap));
     Worker.salaire_base := controller_salary (at_ row (ControllerScan.salaire colMap));
     Worker.created_by := Some user_id |}.

(** Lookup by national ID, else by name. *)
Definition controller_find (d : Worker.data) : M Store (option Worker.instance) :=
  worker <-
    (if str_truthy (Worker.cin d)
     then match Worker.cin d with
          | Some c => Worker_findOne (Worker.ByCin c)
          | None => ret None
          end
     else ret None) ;;
  match worker with
  | Some w => ret (Some w)
  | None => Worker_findOne (Worker.ByName (Worker.nom d) (Worker.prenom d))
  end.

Definition controller_upsert (d : Worker.data) : M Store unit :=
  worker <- controller_find d ;;
  match worker with
  | Some w => Worker_update w (Worker.Full d)
  | None => Worker_create d
  end.

(** One iteration of the [for] loop of the controller. *)
Definition controller_step (i : nat) (row : list cell) (st : ControllerScan.t) (s : Store)
    : ControllerScan.t * Store :=
  match row with
  | [] => (st, s)
  | _ =>
    if rowContent_of row =? 0 then (st, s)
    else
      let rowStr := toUpperCase (Json.stringify row) in
      if is_controller_header row then
        (ControllerScan.mk (ControllerScan.currentSite st) (ControllerScan.successCount st)
           (ControllerScan.errors st)
           (ControllerScan.map_columns row 0 (ControllerScan.colMap st)), s)
      else
        match controller_site row rowStr with
        | Some site =>
            (ControllerScan.mk site (ControllerScan.successCount st)
               (ControllerScan.errors st) (ControllerScan.colMap st), s)
        | None =>
            let nom := at_ row (ControllerScan.nom (ControllerScan.colMap st)) in
            let prenom := at_ row (ControllerScan.prenom (ControllerScan.colMap st)) in
            if negb (truthy nom) || negb (truthy prenom) then (st, s)
            else
              match controller_upsert (controller_workerData i st row nom prenom) s with
              | (Returned _, s') =>
                  (ControllerScan.mk (ControllerScan.currentSite st)
                     (S (ControllerScan.successCount st))
                     (ControllerScan.errors st) (ControllerScan.colMap st), s')
              | (Thrown msg, s') =>
                  (ControllerScan.mk (ControllerScan.currentSite st)
                     (ControllerScan.successCount st)
                     (ControllerScan.errors st
                        ++ ["Erreur ligne " ++ string_of_nat (i + 1) ++ ": " ++ msg])
                     (ControllerScan.colMap st), s')
              end
        end
  end.

Fixpoint controller_loop (i : nat) (rows : list (list cell)) (st : ControllerScan.t) (s : Store)
    : ControllerScan.t * Store :=
  match rows with
  | [] => (st, s)
  | row :: rest =>
      let '(st', s') := controller_step i row st s in
      controller_loop (i + 1) rest st' s'
  end.

(** [importWorkers]: the count and the errors of the response, and the
    store left behind. *)
Definition importWorkers (rows : list (list cell)) (s : Store) : nat * list string * Store :=
  let '(st, s') := controller_loop 0 rows ControllerScan.init s in
  (ControllerScan.successCount st, ControllerScan.errors st, s').

End WorkerController.

(** ** A reference store *)

Module RefStore.

(** Modelled from the spec: the models [Worker], [Product] and [Category]
    (the persistence layer, section 6: an entity store exposing
    [findOne(predicate)], [create(data)] and [update(data)] per entity
    type) are not among the sources.  Here each entity type is a table,
    the primary key of a record is its position, [findOne] returns the
    first record whose fields equal those of the [where] clause, [create]
    appends, [update] overwrites the keys it is given, and no call throws. *)
Record Tables : Type := mk {
  workers : list Worker.data;
  products : list Product.data;
  categories : list Category.data
}.

Definition empty : Tables := mk [] [] [].

Definition opt_is (o : option string) (x : string) : bool :=
  match o with
  | Some y => String.eqb y x
  | None => false
  end.

Definition worker_matches (w : Worker.where_) (d : Worker.data) : bool :=
  match w with
  | Worker.ByCin c => opt_is (Worker.cin d) c
  | Worker.ByNameContact p n t =>
      String.eqb (Worker.prenom d) p && String.eqb (Worker.nom d) n
      && opt_is (Worker.contact d) t
  | Worker.ByName n p =>
      String.eqb (Worker.nom d) n && String.eqb (Worker.prenom d) p
  end.

Definition product_matches (w : Product.where_) (d : Product.data) : bool :=
  match w with
  | Product.ByCode c => opt_is (Product.code_produit d) c
  | Product.ByNom n => String.eqb (Product.nom d) n
  end.

Definition find_where {A : Type} (p : A -> bool) (l : list A) : option (nat * A) :=
  list_find (fun x => p x = true) l.

(** The record after [update] with the given keys. *)
Definition apply_changes (ch : Worker.changes) (old : Worker.data) : Worker.data :=
  match ch with
  | Worker.Patch p =>
      {| Worker.prenom := Worker.prenom old;
         Worker.nom := Worker.nom old;
         Worker.poste := Worker.poste old;
         Worker.site_affectation := Worker.p_site_affectation p;
         Worker.statut := Worker.statut old;
         Worker.date_embauche := Worker.date_embauche old;
         Worker.date_naissance := Worker.p_date_naissance p;
         Worker.email := Worker.email old;
         Worker.cin := Worker.cin old;
         Worker.contact := Worker.p_contact p;
         Worker.adresse := Worker.p_adresse p;
         Worker.salaire_base := Worker.p_salaire_base p;
         Worker.created_by := Worker.created_by old |}
  | Worker.Full d =>
      {| Worker.prenom := Worker.prenom d;
         Worker.nom := Worker.nom d;
         Worker.poste := Worker.poste d;
         Worker.site_affectation := Worker.site_affectation d;
         Worker.statut := Worker.statut d;
         Worker.date_embauche := Worker.date_embauche d;
         Worker.date_naissance := Worker.date_naissance d;
         Worker.email := Worker.email old;
         Worker.cin := Worker.cin d;
         Worker.contact := Worker.contact d;
         Worker.adresse := Worker.adresse d;
         Worker.salaire_base := Worker.salaire_base d;
         Worker.created_by := Worker.created_by d |}
  end.

(** The product after [update(productData)]: every key of the object is
    written; [category_id] only when the object has it. *)
Definition apply_product (d old : Product.data) : Product.data :=
  {| Product.nom := Product.nom d;
     Product.description := Product.description d;
     Product.unite := Product.unite d;
     Product.seuil_alerte := Product.seuil_alerte d;
     Product.statut := Product.statut d;
     Product.quantite_actuelle := Product.quantite_actuelle d;
     Product.code_produit := Product.code_produit d;
     Product.category_id :=
       match Product.category_id d with
       | Some c => Some c
       | None => Product.category_id old
       end |}.

(** Modelled from the spec: the behaviour of [findOne], [create] and
    [update] on the three tables, as described for [Tables]. *)
#[global] Instance models : Models Tables := {|
  Worker_findOne w := fun s => (Returned (find_where (worker_matches w) (workers s)), s);
  Worker_create d := fun s =>
    (Returned tt, mk (workers s ++ [d]) (products s) (categories s));
  Worker_update w ch := fun s =>
    (Returned tt, mk (alter (apply_changes ch) (fst w) (workers s)) (products s) (categories s));
  Product_findOne w := fun s => (Returned (find_where (product_matches w) (products s)), s);
  Product_create d := fun s =>
    (Returned tt, mk (workers s) (products s ++ [d]) (categories s));
  Product_update p d := fun s =>
    (Returned tt, mk (workers s) (alter (apply_product d) (fst p) (products s)) (categories s));
  Category_findOne n := fun s =>
    (Returned (find_where (fun c => String.eqb (Category.nom c) n) (categories s)), s);
  Category_create d := fun s =>
    (Returned (List.length (categories s), d),
     mk (workers s) (products s) (categories s ++ [d]))
|}.

End RefStore.

(** ** Notions used in the statements *)

(** The text of a salary cell after [replace(/\s/g, '')] and
    [replace(',', '.')]. *)
Definition salary_text (c : cell) : string :=
  replace_first "," "." (remove_spaces (String_ c)).

(** An exponent part that spans the whole string. *)
Definition whole_exponent (s : string) : bool :=
  match s with
  | EmptyString => true
  | String c t =>
      (Ascii.eqb c "e" || Ascii.eqb c "E")
      && (let '(_, n, rest) := read_digits (snd (read_sign t)) 0%Z 0 in
          negb (n =? 0) && String.eqb rest "")
  end.

(** A text that is a decimal number from its first to its last character:
    an optional sign, then [Infinity], or digits with an optional fraction
    and exponent. *)
Definition numeric_text (s : string) : bool :=
  let s1 := snd (read_sign s) in
  String.eqb s1 "Infinity"
  || (let '(_, ni, s2) := read_digits s1 0%Z 0 in
      match s2 with
      | String a t =>
          if Ascii.eqb a "."
          then let '(_, nf, s3) := read_digits t 0%Z 0 in
               negb ((ni =? 0) && (nf =? 0)) && whole_exponent s3
          else negb (ni =? 0) && whole_exponent s2
      | EmptyString => negb (ni =? 0)
      end).

(** A numeric salary cell: a number, or text that is a decimal number once
    white space is stripped and the comma replaced. *)
Definition numeric_cell (c : cell) : bool :=
  match c with
  | CNum _ => true
  | CStr _ => numeric_text (salary_text c)
  | _ => false
  end.

(** A text whose head is a number: after an optional sign, a digit, a
    point followed by a digit, or [Infinity]. *)
Definition starts_with_number (s : string) : bool :=
  let s1 := snd (read_sign (trimStart s)) in
  String.prefix "Infinity" s1
  || match s1 with
     | String a t =>
         is_digit a
         || (Ascii.eqb a "."
             && match t with
                | String b _ => is_digit b
                | EmptyString => false
                end)
     | EmptyString => false
     end.

(** A text that goes on as a number would: a digit, a point or an exponent
    mark at its head. *)
Definition continues_number (s : string) : bool :=
  match s with
  | String a _ => is_digit a || Ascii.eqb a "." || Ascii.eqb a "e" || Ascii.eqb a "E"
  | EmptyString => false
  end.

(** ** The imports against the reference store *)

(** The outcome of [find_product] on the reference store. *)
Definition ref_find_product (d : Product.data) (s : RefStore.Tables)
    : option Product.instance :=
  match
    match Product.code_produit d with
    | Some c =>
        if negb (String.eqb c "")
        then RefStore.find_where (RefStore.product_matches (Product.ByCode c)) (RefStore.products s)
        else None
    | None => None
    end
  with
  | Some p => Some p
  | None =>
      RefStore.find_where (RefStore.product_matches (Product.ByNom (Product.nom d)))
        (RefStore.products s)
  end.

(** The outcome of [upsert_product] on the reference store. *)
Definition ref_upsert_product (d : Product.data) (s : RefStore.Tables)
    : upserted * RefStore.Tables :=
  match ref_find_product d s with
  | Some (k, _) =>
      (Updated,
       RefStore.mk (RefStore.workers s)
         (alter (RefStore.apply_product d) k (RefStore.products s)) (RefStore.categories s))
  | None =>
      (Created,
       RefStore.mk (RefStore.workers s) (RefStore.products s ++ [d]) (RefStore.categories s))
  end.

(** The outcome of [resolve_category] on the reference store. *)
Definition ref_resolve_category (colMap : ProductScan.cols) (row : list cell)
    (d : Product.data) (s : RefStore.Tables) : Product.data * RefStore.Tables :=
  match present (ProductScan.categorie colMap) row with
  | Some c =>
      let catName := trim (String_ c) in
      match RefStore.find_where (fun k => String.eqb (Category.nom k) catName)
              (RefStore.categories s) with
      | Some (k, _) => (set_category k d, s)
      | None =>
          (set_category (List.length (RefStore.categories s)) d,
           RefStore.mk (RefStore.workers s) (RefStore.products s)
             (RefStore.categories s ++ [Category.mk catName "Importé via Excel"]))
      end
  | None => (d, s)
  end.

(** The outcome of [find_worker] on the reference store. *)
Definition ref_find_worker (d : Worker.data) (s : RefStore.Tables)
    : option Worker.instance :=
  match
    match Worker.cin d with
    | Some c =>
        if negb (String.eqb c "")
        then RefStore.find_where (RefStore.worker_matches (Worker.ByCin c)) (RefStore.workers s)
        else None
    | None => None
    end
  with
  | Some w => Some w
  | None =>
      match Worker.contact d with
      | Some t =>
          if negb (str_truthy (Worker.cin d)) && negb (String.eqb t "")
          then RefStore.find_where
                 (RefStore.worker_matches
                    (Worker.ByNameContact (Worker.prenom d) (Worker.nom d) t))
                 (RefStore.workers s)
          else None
      | None => None
      end
  end.

(** The outcome of [upsert_worker] on the reference store. *)
Definition ref_upsert_worker (d : Worker.data) (s : RefStore.Tables)
    : upserted * RefStore.Tables :=
  match ref_find_worker d s with
  | Some (k, old) =>
      (Updated,
       RefStore.mk
         (alter (RefStore.apply_changes (Worker.Patch (worker_patch d old))) k
            (RefStore.workers s))
         (RefStore.products s) (RefStore.categories s))
  | None =>
      (Created,
       RefStore.mk (RefStore.workers s ++ [d]) (RefStore.products s) (RefStore.categories s))
  end.

(** ** The rows an import counts *)

(** The worker objects built by [importWorkersFromExcel], one for each row
    that reaches [stats.total++], in the order of the sheet. *)
Fixpoint worker_rows (Date_parse : string -> option Z) (now : nat -> Z)
    (i : nat) (data : list (list cell)) (st : WorkerScan.t) : list Worker.data :=
  match data with
  | [] => []
  | row :: rest =>
      match site_banner row with
      | Some site => worker_rows Date_parse now (i + 1) rest (WorkerScan.set_site site st)
      | None =>
          if is_worker_header row then
            worker_rows Date_parse now (i + 1) rest
              (WorkerScan.mk (WorkerScan.currentSite st) (Some i)
                 (WorkerScan.map_columns (rowStr_of row) 0 (WorkerScan.colMap st))
                 (WorkerScan.stats st))
          else if after_header (WorkerScan.headerRowIndex st) i then
            match WorkerScan.prenom (WorkerScan.colMap st),
                  WorkerScan.nom (WorkerScan.colMap st) with
            | Some jp, Some jn =>
                if negb (truthy (at_ row jp)) || negb (truthy (at_ row jn))
                then worker_rows Date_parse now (i + 1) rest st
                else
                  match inner_site row with
                  | Some site =>
                      worker_rows Date_parse now (i + 1) rest (WorkerScan.set_site site st)
                  | None =>
                      workerData_of Date_parse now i st row (at_ row jp) (at_ row jn)
                      :: worker_rows Date_parse now (i + 1) rest st
                  end
            | _, _ => worker_rows Date_parse now (i + 1) rest st
            end
          else worker_rows Date_parse now (i + 1) rest st
      end
  end.

(** The rows counted by [importProductsFromExcel]: the column map in
    force, the row and its name cell. *)
Fixpoint product_rows (i : nat) (data : list (list cell)) (st : ProductScan.t)
    : list (ProductScan.cols * list cell * cell) :=
  match data with
  | [] => []
  | row :: rest =>
      if is_product_header row then
        product_rows (i + 1) rest
          (ProductScan.mk (Some i)
             (ProductScan.map_columns (rowStr_of row) 0 (ProductScan.colMap st))
             (ProductScan.stats st))
      else if after_header (ProductScan.headerRowIndex st) i then
        match ProductScan.nom (ProductScan.colMap st) with
        | Some jn =>
            if negb (truthy (at_ row jn)) then product_rows (i + 1) rest st
            else (ProductScan.colMap st, row, at_ row jn) :: product_rows (i + 1) rest st
        | None => product_rows (i + 1) rest st
        end
      else product_rows (i + 1) rest st
  end.

(** The object of a counted row. *)
Definition object_of (r : ProductScan.cols * list cell * cell) : Product.data :=
  productData_of (fst (fst r)) (snd (fst r)) (snd r).

(** The product objects of the counted rows. *)
Definition product_objects (data : list (list cell)) : list Product.data :=
  map object_of (product_rows 0 data ProductScan.init).

(** A row carries an identifier: the national ID, or the product code, is
    a non-empty string. *)
Definition has_cin (d : Worker.data) : Prop := str_truthy (Worker.cin d) = true.
Definition has_code (d : Product.data) : Prop := str_truthy (Product.code_produit d) = true.

(** Product codes are stable within a sheet: two rows with the same code
    name the same product. *)
Definition same_code_same_name (G : list Product.data) : Prop :=
  forall d1 d2 c, In d1 G -> In d2 G -> c <> "" ->
    Product.code_produit d1 = Some c -> Product.code_produit d2 = Some c ->
    Product.nom d1 = Product.nom d2.

(** One counted worker row against the reference store. *)
Definition ref_worker (acc : Stats * RefStore.Tables) (d : Worker.data)
    : Stats * RefStore.Tables :=
  let '(u, s') := ref_upsert_worker d (snd acc) in
  (settle (count (fst acc)) "" (Returned u), s').

(** One counted product row against the reference store. *)
Definition ref_product (acc : Stats * RefStore.Tables)
    (r : ProductScan.cols * list cell * cell) : Stats * RefStore.Tables :=
  let '(cols, row, nom) := r in
  let '(d, s1) := ref_resolve_category cols row (productData_of cols row nom) (snd acc) in
  let '(u, s2) := ref_upsert_product d s1 in
  (settle (count (fst acc)) "" (Returned u), s2).

(** Some record bears the national ID [c]. *)
Definition cin_in (c : string) (s : RefStore.Tables) : Prop :=
  exists k w, RefStore.workers s !! k = Some w /\ Worker.cin w = Some c.

(** Some record bears the name [n] and was last written by a row of [G]. *)
Definition covers (G : list Product.data) (n : string) (s : RefStore.Tables) : Prop :=
  exists k p g, RefStore.products s !! k = Some p /\ Product.nom p = n
                /\ In g G /\ Product.code_produit p = Product.code_produit g
                /\ Product.nom g = n.

(** Every counted row is settled as created, updated or failed, and every
    message names a row between [lo] and [hi]. *)
Definition accounted (lo hi : nat) (st : Stats) : Prop :=
  List.length (errors st) + created st + updated st = total st
  /\ Forall (fun e => exists i, lo <= i < hi
                      /\ String.prefix ("Ligne " ++ string_of_nat (i + 1) ++ " (") e = true)
       (errors st).

(** ** [getWorkers] of the worker controller: the query it builds *)

Module GetWorkers.

(** [req.query]: each parameter is a string or missing. *)
Record query : Type := mkQuery {
  page : option string;
  limit : option string;
  statut : option string;
  site : option string;
  search : option string;
  poste : option string;
  month : option string;
  year : option string;
  paymentStatus : option string
}.

(** The object [where]: the keys that are set.  [or_] lists the
    [(field, pattern)] pairs of [Op.or], each an [iLike] test;
    [salaries_id_null] stands for the key [$salaries.id$] set to null. *)
Record where_ : Type := mkWhere {
  w_statut : option string;
  w_site_affectation : option string;
  w_poste : option string;
  w_or : list (string * string);
  w_salaries_id_null : bool
}.

(** The object [salaryWhere]: a key is [None] when absent; [mois] and
    [annee] hold the result of [parseInt], [None] being [NaN]. *)
Record salaryWhere_ : Type := mkSalaryWhere {
  mois : option (option Z);
  annee : option (option Z);
  sw_statut : option string
}.

(** A reference to the one object that [salaryInclude.where] can point to. *)
Inductive ref : Type := SalaryWhereObj.

(** The objects the handler mutates: [where], [salaryWhere], and the keys
    [required] and [where] of [salaryInclude]. *)
Record locals : Type := mkLocals {
  l_where : where_;
  l_salaryWhere : salaryWhere_;
  l_required : bool;
  l_include_where : option ref
}.

(** [salaryInclude] as [findAndCountAll] reads it. *)
Record salaryInclude_ : Type := mkInclude {
  required : bool;
  i_where : option salaryWhere_
}.

(** The argument of [Worker.findAndCountAll]. *)
Record options : Type := mkOptions {
  o_where : where_;
  o_limit : Z;
  o_offset : Z;
  o_salaries : salaryInclude_;
  o_order : list (string * string);
  o_distinct : bool
}.

(** [Object.keys(salaryWhere).length] *)
Definition keys (w : salaryWhere_) : nat :=
  match mois w with Some _ => 1 | None => 0 end
  + match annee w with Some _ => 1 | None => 0 end
  + match sw_statut w with Some _ => 1 | None => 0 end.

Definition pattern (s : string) : string := "%" ++ s ++ "%".

(** A query parameter that is present and not empty, as [if (x)] tests. *)
Definition given (o : option string) : option string :=
  match o with
  | Some s => if String.eqb s "" then None else Some s
  | None => None
  end.

(** The assignments to [where] before the salary filter. *)
Definition build_where (q : query) : where_ :=
  {| w_statut := given (statut q);
     w_site_affectation := option_map pattern (given (site q));
     w_poste := option_map pattern (given (poste q));
     w_or :=
       match given (search q) with
       | Some s => [("nom", pattern s); ("prenom", pattern s);
                    ("email", pattern s); ("cin", pattern s)]
       | None => []
       end;
     w_salaries_id_null := false |}.

(** [if (month) salaryWhere.mois = parseInt(month)] and the same for the
    year, on the empty object. *)
Definition build_salaryWhere (q : query) : salaryWhere_ :=
  {| mois := option_map parseInt (given (month q));
     annee := option_map parseInt (given (year q));
     sw_statut := None |}.

(** The statements up to the call, in order, on the mutable objects. *)
Definition run (q : query) : locals :=
  let l0 := mkLocals (build_where q) (build_salaryWhere q) false None in
  let l1 :=
    if 0 <? keys (l_salaryWhere l0)
    then mkLocals (l_where l0) (l_salaryWhere l0) (l_required l0) (Some SalaryWhereObj)
    else l0 in
  match given (paymentStatus q) with
  | Some ps =>
      if String.eqb ps "NOT_CREATED" then
        mkLocals
          (mkWhere (w_statut (l_where l1)) (w_site_affectation (l_where l1))
             (w_poste (l_where l1)) (w_or (l_where l1)) true)
          (l_salaryWhere l1) false (l_include_where l1)
      else
        mkLocals (l_where l1)
          (mkSalaryWhere (mois (l_salaryWhere l1)) (annee (l_salaryWhere l1)) (Some ps))
          true (l_include_where l1)
  | None => l1
  end.

(** The object a reference points to when the call is made. *)
Definition deref (l : locals) (r : ref) : salaryWhere_ :=
  match r with SalaryWhereObj => l_salaryWhere l end.

Section Handler.
(** [getPagination] of the utilities: limit, offset and page. *)
Variable getPagination : option string -> option string -> Z * Z * Z.

(** The argument [getWorkers] hands to [Worker.findAndCountAll]. *)
Definition getWorkers_options (q : query) : options :=
  let '(limitNum, offset, _) := getPagination (page q) (limit q) in
  let l := run q in
  {| o_where := l_where l;
     o_limit := limitNum;
     o_offset := offset;
     o_salaries := mkInclude (l_required l) (option_map (deref l) (l_include_where l));
     o_order := [("created_at", "DESC")];
     o_distinct := true |}.
End Handler.

End GetWorkers.

(** ** The stock screen ([StockManagement]) *)

Module Stock.

(** The digits of a literal in base 16, 8 or 2, from the first to the last
    character. *)
Fixpoint radix_value (base : Z) (s : string) (acc : Z) : option Z :=
  match s with
  | EmptyString => Some acc
  | String a t =>
      match hex_val a with
      | Some v => if (v <? base)%Z then radix_value base t (base * acc + v)%Z else None
      | None => None
      end
  end.

(** A literal [0x...], [0o...] or [0b...]. *)
Definition radix_literal (s : string) : option Z :=
  match s with
  | String z (String x (String a t)) =>
      if Ascii.eqb z "0" then
        if Ascii.eqb x "x" || Ascii.eqb x "X" then radix_value 16 (String a t) 0
        else if Ascii.eqb x "o" || Ascii.eqb x "O" then radix_value 8 (String a t) 0
        else if Ascii.eqb x "b" || Ascii.eqb x "B" then radix_value 2 (String a t) 0
        else None
      else None
  | _ => None
  end.

(** [Number(s)] on a string: blank text is 0, a numeric literal is its
    value, anything else is [NaN]. *)
Definition Number_ (s : string) : num :=
  let t := trim s in
  if String.eqb t "" then Fin 0
  else
    match radix_literal t with
    | Some v => to_double (inject_Z v)
    | None => if numeric_text t then parseFloat t else NaN
    end.

(** [x <= 0] *)
Definition num_le0 (x : num) : bool :=
  match x with
  | NaN => false
  | Infinity neg => neg
  | Fin q => Qle_bool q 0
  end.

(** The state [formData] of the entry and exit dialogs. *)
Record formData : Type := mkForm {
  product_id : string;
  quantite : string;
  source : string;
  destination : string;
  reference : string;
  notes : string
}.

(** The object passed to [productService.recordExit]. *)
Record exitRequest : Type := mkExit {
  e_product_id : string;
  e_quantite : num;
  e_destination : string;
  e_notes : string
}.

(** What one submission of the exit form does: the text of the alert it
    shows, the request it sends, and whether it closes the dialog and
    resets the form. *)
Record submission : Type := mkSubmission {
  alert : option string;
  sent : option exitRequest;
  closed : bool
}.

(** [handleStockExit].  [recordExit] is the service call: it returns, or
    throws with the message of the server (empty when there is none).
    [loadData], awaited after it, catches its own errors. *)
Definition handleStockExit (recordExit : exitRequest -> outcome unit) (f : formData)
    : submission :=
  if String.eqb (product_id f) "" then
    mkSubmission (Some "Veuillez sélectionner un produit") None false
  else if String.eqb (quantite f) "" || num_le0 (Number_ (quantite f)) then
    mkSubmission (Some "Veuillez entrer une quantité valide") None false
  else if String.eqb (destination f) "" || String.eqb (trim (destination f)) "" then
    mkSubmission (Some "La destination est obligatoire") None false
  else
    let request :=
      mkExit (product_id f) (Number_ (quantite f)) (trim (destination f)) (notes f) in
    match recordExit request with
    | (Returned _) => mkSubmission None (Some request) true
    | (Thrown msg) =>
        mkSubmission
          (Some (if String.eqb msg "" then "Erreur lors de la sortie de stock" else msg))
          (Some request) false
    end.

(** A product as the screen lists it: name, code, and the name of its
    category when it has one. *)
Record product : Type := mkProduct {
  nom : string;
  code_produit : option string;
  category_nom : option string
}.

(** [x || ''] on an optional text. *)
Definition or_empty (o : option string) : string :=
  match o with
  | Some s => s
  | None => ""
  end.

(** The predicate of [filteredProducts]. *)
Definition matches (searchTerm : string) (p : product) : bool :=
  includes (toLowerCase searchTerm) (toLowerCase (nom p))
  || includes (toLowerCase searchTerm) (toLowerCase (or_empty (code_produit p)))
  || includes (toLowerCase searchTerm) (toLowerCase (or_empty (category_nom p))).

(** [filteredProducts] *)
Definition filteredProducts (products : list product) (searchTerm : string) : list product :=
  List.filter (matches searchTerm) products.

End Stock.

(** ** Notions used in the further properties *)

(** Text of ASCII characters only. *)
Fixpoint ascii_text (s : string) : bool :=
  match s with
  | EmptyString => true
  | String a t => (nat_of_ascii a <? 128) && ascii_text t
  end.

(** The first-name and surname columns are known and differ. *)
Definition names_known (c : WorkerScan.cols) : Prop :=
  exists jp jn, WorkerScan.prenom c = Some jp /\ WorkerScan.nom c = Some jn /\ jp <> jn.

(** The controller has settled at most [hi] rows, and every message names
    one of the first [hi] lines. *)
Definition controller_accounted (hi : nat) (st : ControllerScan.t) : Prop :=
  ControllerScan.successCount st + List.length (ControllerScan.errors st) <= hi
  /\ Forall (fun e => exists i, i < hi
               /\ String.prefix ("Erreur ligne " ++ string_of_nat (i + 1) ++ ": ") e = true)
       (ControllerScan.errors st).

(** The fields of a worker record that the service import never writes on
    an existing record. *)
Definition same_identity (w w' : Worker.data) : Prop :=
  Worker.prenom w' = Worker.prenom w /\ Worker.nom w' = Worker.nom w
  /\ Worker.cin w' = Worker.cin w /\ Worker.poste w' = Worker.poste w
  /\ Worker.statut w' = Worker.statut w /\ Worker.email w' = Worker.email w
  /\ Worker.date_embauche w' = Worker.date_embauche w
  /\ Worker.created_by w' = Worker.created_by w.

(** Non-empty national IDs are borne by one record each. *)
Definition unique_cins (s : RefStore.Tables) : Prop :=
  forall i j wi wj c,
    RefStore.workers s !! i = Some wi -> RefStore.workers s !! j = Some wj ->
    Worker.cin wi = Some c -> Worker.cin wj = Some c -> c <> "" -> i = j.

(** Non-empty product codes are borne by one record each. *)
Definition unique_codes (s : RefStore.Tables) : Prop :=
  forall i j pi pj c,
    RefStore.products s !! i = Some pi -> RefStore.products s !! j = Some pj ->
    Product.code_produit pi = Some c -> Product.code_produit pj = Some c -> c <> "" -> i = j.

(** The text has no occurrence of the character. *)
Fixpoint lacks (sep : ascii) (s : string) : bool :=
  match s with
  | EmptyString => true
  | String a t => negb (Ascii.eqb a sep) && lacks sep t
  end.

(** * Properties *)

(** ** Date serials *)

Lemma parseExcelDate_number (Date_parse : string -> option Z) (n : Z) :
  parseExcelDate Date_parse (CNum n)
  = if (n =? 0)%Z then None else Some (Date_of_time ((n - 25569) * 86400 * 1000)).
Proof.
  unfold parseExcelDate, Math_round. simpl. destruct (n =? 0)%Z; reflexivity.
Qed.

(** C4, as stated: the serial 25569 would parse to 1900-01-01.  It does not:
    no date returned for it falls on that day. *)
Lemma serial_25569_is_not_1900 :
  ~ (exists d, parseExcelDate iso_Date_parse (CNum 25569) = Some d
               /\ utc_ymd d = Some (1900, 1, 1)%Z).
Proof.
  intros [d [Hd Hy]]. rewrite parseExcelDate_number in Hd. vm_compute in Hd.
  injection Hd as <-. vm_compute in Hy. discriminate Hy.
Qed.

(** C4, amended: whatever the engine's [Date.parse], a numeric serial [n]
    other than 0 parses to the date [(n - 25569) * 86400 * 1000]
    milliseconds after the Unix epoch, in the service and in the
    controller alike; so 25569 is 1970-01-01 and 44197 is 2021-01-01. *)
Theorem parseExcelDate_serials (Date_parse : string -> option Z) :
  (forall n : Z,
      parseExcelDate Date_parse (CNum n)
      = (if (n =? 0)%Z then None else Some (Date_of_time ((n - 25569) * 86400 * 1000)))
      /\ controller_date Date_parse (CNum n) = parseExcelDate Date_parse (CNum n))
  /\ parseExcelDate Date_parse (CNum 25569) = Some (ValidDate 0)
  /\ utc_ymd (ValidDate 0) = Some (1970, 1, 1)%Z
  /\ parseExcelDate Date_parse (CNum 44197) = Some (ValidDate 1609459200000)
  /\ utc_ymd (ValidDate 1609459200000) = Some (2021, 1, 1)%Z.
Proof.
  split; [|repeat split; reflexivity].
  intros n. split; [apply parseExcelDate_number|].
  rewrite parseExcelDate_number. unfold controller_date, Math_round. simpl.
  destruct (n =? 0)%Z; reflexivity.
Qed.

(** C7: slash-separated text in three parts is handed to [new Date] and the
    result is returned unchecked.  When the engine rejects the rearranged
    text the function returns the invalid date, not null; a serial too
    large for a time value does the same. *)
Theorem parseExcelDate_returns_invalid_date (Date_parse : string -> option Z) :
  Date_parse "cccc-bb-aa" = None ->
  parseExcelDate Date_parse (CStr "aa/bb/cccc") = Some InvalidDate
  /\ parseExcelDate Date_parse (CNum 1000000000000) = Some InvalidDate.
Proof.
  intros H. split.
  - unfold parseExcelDate, Date_of_string. simpl. rewrite H. reflexivity.
  - reflexivity.
Qed.

Lemma parseExcelDate_returns_invalid_date_witness :
  parseExcelDate iso_Date_parse (CStr "aa/bb/cccc") = Some InvalidDate
  /\ parseExcelDate iso_Date_parse (CNum 1000000000000) = Some InvalidDate.
Proof.
  apply (parseExcelDate_returns_invalid_date iso_Date_parse). reflexivity.
Defined.

(** ** Salary coercion *)

Lemma parseFloat_no_number (s : string) :
  starts_with_number s = false -> parseFloat s = NaN.
Proof.
  unfold starts_with_number, parseFloat.
  destruct (read_sign (trimStart s)) as [neg s1]. simpl.
  intros H. apply orb_false_iff in H as [Hinf H]. rewrite Hinf.
  destruct s1 as [|a t]; [reflexivity|].
  apply orb_false_iff in H as [Ha H]. simpl. rewrite Ha.
  destruct (Ascii.eqb a "."); [|reflexivity].
  simpl in H. destruct t as [|b u]; [reflexivity|].
  simpl. rewrite H. reflexivity.
Qed.

(** C6, as stated: every non-numeric salary cell would give base salary 0.
    The text [12abc] is not a number, and its base salary is 12. *)
Lemma non_numeric_salary_not_zero :
  ~ (forall c : cell, numeric_cell c = false -> salary_of (Some c) = Fin 0).
Proof.
  intros H. specialize (H (CStr "12abc") eq_refl). vm_compute in H. discriminate H.
Qed.

(** *** The reference store never throws *)

Lemma find_worker_ref (d : Worker.data) (s : RefStore.Tables) :
  find_worker d s = (Returned (ref_find_worker d s), s).
Proof.
  unfold find_worker, ref_find_worker, bind, ret. simpl.
  destruct (Worker.cin d) as [c|]; simpl.
  - destruct (negb (c =? "")%string); simpl.
    + destruct (RefStore.find_where _ _) as [w|]; [reflexivity|].
      destruct (Worker.contact d) as [t|]; reflexivity.
    + destruct (Worker.contact d) as [t|]; [|reflexivity]. simpl.
      destruct (negb (t =? "")%string); reflexivity.
  - destruct (Worker.contact d) as [t|]; [|reflexivity]. simpl.
    destruct (negb (t =? "")%string); reflexivity.
Qed.

Lemma ref_find_worker_lookup (d : Worker.data) (s : RefStore.Tables)
    (k : nat) (old : Worker.data) :
  ref_find_worker d s = Some (k, old) -> RefStore.workers s !! k = Some old.
Proof.
  unfold ref_find_worker. intros H.
  destruct (match Worker.cin d with Some c => _ | None => None end) as [w|] eqn:Hc.
  - injection H as ->.
    destruct (Worker.cin d) as [c|]; [|discriminate].
    destruct (negb (c =? "")%string); [|discriminate].
    apply list_find_Some in Hc. tauto.
  - destruct (Worker.contact d) as [t|]; [|discriminate].
    destruct (_ && _); [|discriminate].
    apply list_find_Some in H. tauto.
Qed.

Lemma upsert_worker_ref (d : Worker.data) (s : RefStore.Tables) :
  upsert_worker d s
  = (Returned (fst (ref_upsert_worker d s)), snd (ref_upsert_worker d s)).
Proof.
  unfold upsert_worker, ref_upsert_worker, bind. rewrite find_worker_ref.
  destruct (ref_find_worker d s) as [[k old]|]; reflexivity.
Qed.

Lemma ref_worker_step_errors (Date_parse : string -> option Z) (now : nat -> Z)
    (i : nat) (row : list cell) (st : WorkerScan.t) (s : RefStore.Tables) :
  errors (WorkerScan.stats (fst (worker_step Date_parse now i row st s)))
  = errors (WorkerScan.stats st).
Proof.
  unfold worker_step.
  destruct (site_banner row); [reflexivity|].
  destruct (is_worker_header row); [reflexivity|].
  destruct (after_header _ _); [|reflexivity].
  destruct (WorkerScan.prenom _); [|reflexivity].
  destruct (WorkerScan.nom _); [|reflexivity].
  destruct (_ || _); [reflexivity|].
  destruct (inner_site row); [reflexivity|].
  rewrite upsert_worker_ref. simpl.
  destruct (fst (ref_upsert_worker _ s)); reflexivity.
Qed.

Lemma trimStart_digit (a : ascii) (t : string) :
  is_digit a = true -> trimStart (String a t) = String a t.
Proof.
  destruct a as [[] [] [] [] [] [] [] []]; intros H;
    try (vm_compute in H; discriminate H); reflexivity.
Qed.

Lemma digit_head_plain (a : ascii) :
  is_digit a = true ->
  Ascii.eqb a "-" = false /\ Ascii.eqb a "+" = false /\ Ascii.eqb a "I" = false.
Proof.
  destruct a as [[] [] [] [] [] [] [] []]; intros H;
    try (vm_compute in H; discriminate H); repeat split.
Qed.

Lemma read_digits_count (s : string) (acc : Z) (n : nat) :
  n <= snd (fst (read_digits s acc n)).
Proof.
  revert acc n. induction s as [|a t IH]; intros acc n; simpl; [lia|].
  destruct (is_digit a); simpl; [|lia].
  specialize (IH (10 * acc + digit_val a)%Z (S n)). lia.
Qed.

Lemma read_digits_uint (d : Decimal.uint) (rest : string) (a n : nat) :
  match rest with String c _ => is_digit c = false | EmptyString => True end ->
  read_digits (NilEmpty.string_of_uint d ++ rest) (Z.of_nat a) n
  = (Z.of_nat (Nat.of_uint_acc d a), n + Decimal.nb_digits d, rest).
Proof.
  intros Hrest. revert a n.
  induction d as [|d IH|d IH|d IH|d IH|d IH|d IH|d IH|d IH|d IH|d IH]; intros a n;
    cbn [NilEmpty.string_of_uint append Nat.of_uint_acc Decimal.nb_digits read_digits];
    [ rewrite Nat.add_0_r; destruct rest as [|c u]; [reflexivity|];
      cbn [read_digits]; rewrite Hrest; reflexivity
    | match goal with
      | |- context [is_digit ?c] => change (is_digit c) with true; cbv beta iota
      end;
      match goal with
      | |- read_digits _ ?acc _ = (Z.of_nat (Nat.of_uint_acc _ ?a'), _, _) =>
          replace acc with (Z.of_nat a')
            by (match goal with
                | |- context [digit_val ?c] =>
                    let v := eval vm_compute in (digit_val c) in
                    change (digit_val c) with v
                end; rewrite Nat.tail_mul_spec; lia)
      end;
      rewrite IH; f_equal; f_equal; lia .. ].
Qed.

Lemma string_of_nat_read (n : nat) (rest : string) :
  continues_number rest = false ->
  exists a t k,
    (string_of_nat n ++ rest)%string = String a t /\ is_digit a = true
    /\ read_digits (string_of_nat n ++ rest) 0 0 = (Z.of_nat n, k, rest).
Proof.
  intros Hrest.
  assert (Hd : match rest with String c _ => is_digit c = false | EmptyString => True end).
  { destruct rest as [|c u]; [exact I|]. simpl in Hrest.
    destruct (is_digit c); [discriminate | reflexivity]. }
  unfold string_of_nat, NilZero.string_of_uint.
  pose proof (Unsigned.of_to n) as Hn. unfold Nat.of_uint in Hn.
  destruct (Nat.to_uint n) as [|d|d|d|d|d|d|d|d|d|d] eqn:E.
  1: { cbn in Hn. subst n.
       pose proof (read_digits_uint (Decimal.D0 Decimal.Nil) rest 0 0 Hd) as R.
       eexists _, _, _. split; [reflexivity|]. split; [reflexivity | exact R]. }
  all: match goal with
       | |- context [NilEmpty.string_of_uint ?x] =>
           pose proof (read_digits_uint x rest 0 0 Hd) as R
       end;
       rewrite Hn in R;
       eexists _, _, _; split; [reflexivity|]; split; [reflexivity | exact R].
Qed.

Lemma to_double_of_Z (v : Z) :
  to_double (inject_Z (v * 10 ^ Z.of_nat 0 + 0) * Qpower (10 # 1) (0 - Z.of_nat 0))
  = to_double (inject_Z v).
Proof.
  change (10 ^ Z.of_nat 0)%Z with 1%Z. change (0 - Z.of_nat 0)%Z with 0%Z.
  rewrite Z.mul_1_r, Z.add_0_r. cbn [Qpower]. unfold Qmult, inject_Z. cbn [Qnum Qden].
  rewrite Z.mul_1_r. reflexivity.
Qed.

(** [parseFloat] reads the whole number at the head of a text and ignores
    what follows it. *)
Lemma parseFloat_leading (a : ascii) (t rest : string) (v : Z) (k : nat) :
  is_digit a = true ->
  read_digits (String a t) 0 0 = (v, k, rest) ->
  continues_number rest = false ->
  parseFloat (String a t) = to_double (inject_Z v).
Proof.
  intros Ha Hr Hrest. unfold parseFloat.
  rewrite (trimStart_digit a t Ha).
  destruct (digit_head_plain a Ha) as (Hm & Hp & HI).
  cbn [read_sign]. rewrite Hm, Hp.
  cbn [String.prefix]. 
  assert (Hpre : (if ascii_dec "I" a then String.prefix "nfinity" t else false) = false).
  { destruct (ascii_dec "I" a) as [<-|]; [discriminate HI | reflexivity]. }
  rewrite Hpre, Hr.
  assert (Hk : (k =? 0) = false).
  { apply Nat.eqb_neq. pose proof (read_digits_count t (10 * 0 + digit_val a)%Z 1) as Hc.
    cbn [read_digits] in Hr. rewrite Ha in Hr. rewrite Hr in Hc. simpl in Hc. lia. }
  destruct rest as [|c u].
  - rewrite Hk. cbn [andb read_exponent]. apply to_double_of_Z.
  - cbn [continues_number] in Hrest.
    apply orb_false_iff in Hrest as [Hrest HE].
    apply orb_false_iff in Hrest as [Hrest He].
    apply orb_false_iff in Hrest as [_ Hdot].
    rewrite Hdot, Hk. cbn [andb read_exponent]. rewrite He, HE. cbn [orb].
    apply to_double_of_Z.
Qed.

Lemma or_zero_to_double (q : Q) : or_zero (to_double q) = to_double q.
Proof.
  unfold to_double.
  destruct (Qle_bool max_bound q); [reflexivity|].
  destruct (Qle_bool q (- max_bound)); [reflexivity|].
  destruct (Qle_bool (- min_bound) q && Qle_bool q min_bound) eqn:Hz; [reflexivity|].
  unfold or_zero, num_truthy.
  destruct (Qeq_bool (Qred q) 0) eqn:He; [|reflexivity].
  exfalso. apply Qeq_bool_iff in He. rewrite Qred_correct in He.
  assert (Ht : Qle_bool (- min_bound) q && Qle_bool q min_bound = true).
  { apply andb_true_iff. split; apply Qle_bool_iff; rewrite He; vm_compute; discriminate. }
  congruence.
Qed.

Lemma to_double_not_NaN (q : Q) : to_double q <> NaN.
Proof.
  unfold to_double.
  destruct (Qle_bool max_bound q); [discriminate|].
  destruct (Qle_bool q (- max_bound)); [discriminate|].
  destruct (_ && _); discriminate.
Qed.

(** C6, amended: the cell [3 500,50] parses to 3500.50 (the rational
    7001/2).  A salary cell whose text, once white space is stripped and the
    first comma replaced by a point, does not start with a number gives base
    salary 0, in the service and in the controller.  A cell whose text
    starts with a whole number [n] and goes on with anything that does not
    continue the number parses to [n], whatever follows: [12abc] gives 12.
    Against a store that does not throw, no row adds an error. *)
Theorem salary_coercion :
  salary_of (Some (CStr "3 500,50")) = Fin (7001 # 2)
  /\ (forall c : cell,
        starts_with_number (salary_text c) = false ->
        salary_of (Some c) = Fin 0 /\ controller_salary c = Fin 0)
  /\ (forall (c : cell) (n : nat) (rest : string),
        salary_text c = (string_of_nat n ++ rest)%string ->
        continues_number rest = false ->
        salary_of (Some c) = to_double (inject_Z (Z.of_nat n))
        /\ controller_salary c = to_double (inject_Z (Z.of_nat n)))
  /\ (salary_of (Some (CStr "12abc")) = Fin 12 /\ controller_salary (CStr "12abc") = Fin 12)
  /\ (forall Date_parse now i row st (s : RefStore.Tables),
        errors (WorkerScan.stats (fst (worker_step Date_parse now i row st s)))
        = errors (WorkerScan.stats st)).
Proof.
  split; [reflexivity|]. split; [|split; [|split; [split; reflexivity|]]].
  - intros c H. unfold salary_of, controller_salary. fold (salary_text c).
    rewrite (parseFloat_no_number _ H). split; [reflexivity|].
    destruct (truthy c); reflexivity.
  - intros c n rest Hs Hrest.
    destruct (string_of_nat_read n rest Hrest) as (a & t & k & Hst & Ha & Hr).
    rewrite <- Hs in Hst, Hr.
    assert (Hp : parseFloat (salary_text c) = to_double (inject_Z (Z.of_nat n))).
    { rewrite Hst. rewrite Hst in Hr. exact (parseFloat_leading a t rest _ k Ha Hr Hrest). }
    split.
    + unfold salary_of. fold (salary_text c). rewrite Hp. apply or_zero_to_double.
    + unfold controller_salary. fold (salary_text c).
      destruct (truthy c) eqn:Htr.
      * rewrite Hp. pose proof (to_double_not_NaN (inject_Z (Z.of_nat n))) as Hnan.
        destruct (to_double _); [contradiction | reflexivity | reflexivity].
      * destruct c as [x|z|[|]|]; cbn [truthy] in Htr; try discriminate Htr.
        -- destruct x; [|discriminate Htr]. vm_compute in Hst. discriminate Hst.
        -- apply negb_false_iff, Z.eqb_eq in Htr. subst z.
           vm_compute in Hr. injection Hr as Hn _ _.
           destruct n; [reflexivity | discriminate Hn].
        -- vm_compute in Hst. injection Hst as <- _. discriminate Ha.
        -- vm_compute in Hst. injection Hst as <- _. discriminate Ha.
  - intros. apply ref_worker_step_errors.
Qed.

Lemma salary_coercion_witness :
  (salary_of (Some (CStr "n/a")) = Fin 0 /\ controller_salary (CStr "n/a") = Fin 0)
  /\ (salary_of (Some (CStr "1 250 FCFA")) = Fin 1250
      /\ controller_salary (CStr "1 250 FCFA") = Fin 1250).
Proof.
  split.
  - apply (proj1 (proj2 salary_coercion) (CStr "n/a")). reflexivity.
  - apply (proj1 (proj2 (proj2 salary_coercion)) (CStr "1 250 FCFA") 1250 "FCFA");
      reflexivity.
Defined.

(** ** Rows that are skipped *)

(** C9: a data row (neither a site banner nor a header) whose first name or
    surname cell is empty, and a product row whose name cell is empty, leave
    the loop state, the statistics and the store as they were: nothing is
    created, updated, counted or reported.  Empty means falsy, as the code
    tests it: the empty string of a blank cell, a missing cell, zero or
    false. *)
Theorem empty_required_cell_skips {Store : Type} `{!Models Store}
    (Date_parse : string -> option Z) (now : nat -> Z) (i : nat) (row : list cell) :
  (forall (st : WorkerScan.t) (s : Store) (jp jn : nat),
      WorkerScan.prenom (WorkerScan.colMap st) = Some jp ->
      WorkerScan.nom (WorkerScan.colMap st) = Some jn ->
      site_banner row = None ->
      is_worker_header row = false ->
      truthy (at_ row jp) = false \/ truthy (at_ row jn) = false ->
      worker_step Date_parse now i row st s = (st, s))
  /\ (forall (st : ProductScan.t) (s : Store) (jn : nat),
      ProductScan.nom (ProductScan.colMap st) = Some jn ->
      is_product_header row = false ->
      truthy (at_ row jn) = false ->
      product_step i row st s = (st, s)).
Proof.
  split.
  - intros st s jp jn Hp Hn Hb Hh He. unfold worker_step.
    rewrite Hb, Hh, Hp, Hn.
    destruct (after_header _ _); [|reflexivity].
    destruct He as [He|He]; rewrite He; simpl; [reflexivity|].
    rewrite orb_true_r. reflexivity.
  - intros st s jn Hn Hh He. unfold product_step.
    rewrite Hh, Hn, He. simpl.
    destruct (after_header _ _); reflexivity.
Qed.

Lemma empty_required_cell_skips_witness :
  let st := WorkerScan.mk "SIEGE" (Some 0)
              (WorkerScan.mkCols (Some 0) (Some 1) (Some 2) None None None None)
              (mkStats 0 0 0 []) in
  let pst := ProductScan.mk (Some 0)
               (ProductScan.mkCols (Some 0) (Some 1) None None None None)
               (mkStats 0 0 0 []) in
  worker_step iso_Date_parse (fun _ => 0%Z) 1 [CStr ""; CStr "Diop"; CStr "A1"] st RefStore.empty
  = (st, RefStore.empty)
  /\ product_step 1 [CStr "C1"; CStr ""] pst RefStore.empty = (pst, RefStore.empty).
Proof.
  split.
  - apply (proj1 (empty_required_cell_skips iso_Date_parse (fun _ => 0%Z) 1
                    [CStr ""; CStr "Diop"; CStr "A1"])) with (jp := 0) (jn := 1);
      [reflexivity | reflexivity | reflexivity | reflexivity | left; reflexivity].
  - apply (proj2 (empty_required_cell_skips (Store := RefStore.Tables)
                    iso_Date_parse (fun _ => 0%Z) 1 [CStr "C1"; CStr ""])) with (jn := 1);
      reflexivity.
Defined.

(** ** Site banners *)

(** A cell whose upper-cased trimmed text is a given keyword is one of the
    non-empty cells of its row. *)
Lemma keyword_cell_nonempty (row : list cell) (x : cell) (k : string) :
  In x row ->
  toUpperCase (trim (String_ x)) = k ->
  k <> "" -> k <> "0" -> k <> "FALSE" -> k <> "UNDEFINED" ->
  In x (nonEmptyCells_of row).
Proof.
  intros Hin Hk H1 H2 H3 H4. apply filter_In. split; [exact Hin|].
  apply andb_true_iff. split.
  - destruct x as [s|n|b|]; simpl.
    + destruct s; [exfalso; apply H1; rewrite <- Hk; reflexivity | reflexivity].
    + destruct (n =? 0)%Z eqn:Hn; [|reflexivity].
      apply Z.eqb_eq in Hn. subst n. exfalso. apply H2. rewrite <- Hk. reflexivity.
    + destruct b; [reflexivity|]. exfalso. apply H3. rewrite <- Hk. reflexivity.
    + exfalso. apply H4. rewrite <- Hk. reflexivity.
  - destruct (trim (String_ x)) eqn:Ht; [|reflexivity].
    exfalso. apply H1. rewrite <- Hk. reflexivity.
Qed.

Lemma arr_includes_rowStr (k : string) (row : list cell) :
  arr_includes k (rowStr_of row) = true ->
  exists x, In x row /\ toUpperCase (trim (String_ x)) = k.
Proof.
  unfold arr_includes, rowStr_of. intros H.
  apply existsb_exists in H as [y [Hy Heq]].
  apply in_map_iff in Hy as [x [Hx Hin]].
  apply String.eqb_eq in Heq. subst. eauto.
Qed.

(** A row with a single non-empty cell is no header. *)
Lemma single_cell_not_header (row : list cell) (c : cell) :
  nonEmptyCells_of row = [c] -> is_worker_header row = false.
Proof.
  intros Hne. unfold is_worker_header.
  destruct (arr_includes "PRENOMS" _) eqn:Hp; [|reflexivity].
  destruct (arr_includes "NOMS" _) eqn:Hn; [|reflexivity].
  exfalso.
  apply arr_includes_rowStr in Hp as [x [Hx Hxk]].
  apply arr_includes_rowStr in Hn as [y [Hy Hyk]].
  apply keyword_cell_nonempty with (k := "PRENOMS") in Hx; try discriminate; [|exact Hxk].
  apply keyword_cell_nonempty with (k := "NOMS") in Hy; try discriminate; [|exact Hyk].
  rewrite Hne in Hx, Hy. simpl in Hx, Hy.
  destruct Hx as [<-|[]]. destruct Hy as [<-|[]].
  rewrite Hxk in Hyk. discriminate.
Qed.

(** C8, as stated: every row after a header with a single non-empty text
    cell longer than three characters would switch the site.  A banner
    that contains [TECHNICIENS DE SURFACE] does not: the worker of the next
    row is attributed to the default site. *)
Lemma banner_with_technicien_is_no_site_switch :
  let banner := [CStr "LES TECHNICIENS DE SURFACE DE THIES"; CStr ""] in
  let data := [[CStr "PRENOMS"; CStr "NOMS"]; banner; [CStr "Awa"; CStr "Diop"]] in
  nonEmptyCells_of banner = [CStr "LES TECHNICIENS DE SURFACE DE THIES"]
  /\ 3 < str_length (trim "LES TECHNICIENS DE SURFACE DE THIES")
  /\ map Worker.site_affectation
       (RefStore.workers
          (snd (importWorkersFromExcel iso_Date_parse (fun _ => 0%Z) data RefStore.empty)))
     = ["SIEGE"].
Proof.
  vm_compute. repeat split. lia.
Qed.

(** A row that is no site row leaves the current site as it is. *)
Lemma worker_step_keeps_site {Store : Type} `{!Models Store}
    (Date_parse : string -> option Z) (now : nat -> Z)
    (i : nat) (row : list cell) (st : WorkerScan.t) (s : Store) :
  site_banner row = None -> inner_site row = None ->
  WorkerScan.currentSite (fst (worker_step Date_parse now i row st s))
  = WorkerScan.currentSite st.
Proof.
  intros Hb Hi. unfold worker_step. rewrite Hb.
  destruct (is_worker_header row); [reflexivity|].
  destruct (after_header _ _); [|reflexivity].
  destruct (WorkerScan.prenom _); [|reflexivity].
  destruct (WorkerScan.nom _); [|reflexivity].
  destruct (_ || _); [reflexivity|].
  rewrite Hi. destruct (upsert_worker _ s) as [o s']. reflexivity.
Qed.

Lemma worker_loop_keeps_site {Store : Type} `{!Models Store}
    (Date_parse : string -> option Z) (now : nat -> Z)
    (rest : list (list cell)) (i : nat) (st : WorkerScan.t) (s : Store) :
  Forall (fun r => site_banner r = None /\ inner_site r = None) rest ->
  WorkerScan.currentSite (fst (worker_loop Date_parse now i rest st s))
  = WorkerScan.currentSite st.
Proof.
  intros H. revert i st s.
  induction H as [|row rest [Hb Hi] _ IH]; intros i st s; simpl; [reflexivity|].
  pose proof (worker_step_keeps_site Date_parse now i row st s Hb Hi) as Hstep.
  destruct (worker_step Date_parse now i row st s) as [st1 s1].
  rewrite IH. exact Hstep.
Qed.

(** Against the reference store, a row that is no site row leaves each
    record as it was or writes the current site into it. *)
Lemma ref_worker_step_attributes (Date_parse : string -> option Z) (now : nat -> Z)
    (i : nat) (row : list cell) (st : WorkerScan.t) (s : RefStore.Tables)
    (k : nat) (w : Worker.data) :
  site_banner row = None -> inner_site row = None ->
  RefStore.workers (snd (worker_step Date_parse now i row st s)) !! k = Some w ->
  RefStore.workers s !! k = Some w
  \/ Worker.site_affectation w = WorkerScan.currentSite st.
Proof.
  intros Hb Hi. unfold worker_step. rewrite Hb.
  destruct (is_worker_header row); [left; assumption|].
  destruct (after_header _ _); [|left; assumption].
  destruct (WorkerScan.prenom _) as [jp|]; [|left; assumption].
  destruct (WorkerScan.nom _) as [jn|]; [|left; assumption].
  destruct (_ || _); [left; assumption|].
  rewrite Hi, upsert_worker_ref. cbv beta iota zeta. cbn [snd].
  unfold ref_upsert_worker.
  destruct (ref_find_worker _ s) as [[k0 old]|]; cbn [snd RefStore.workers]; intros H.
  - destruct (decide (k0 = k)) as [->|Hne].
    + rewrite list_lookup_alter_eq in H.
      destruct (RefStore.workers s !! k) as [y|]; [|discriminate].
      injection H as <-. right. reflexivity.
    + rewrite list_lookup_alter_ne in H by assumption. left. exact H.
  - destruct (Nat.lt_ge_cases k (List.length (RefStore.workers s))) as [Hlt|Hge].
    + rewrite lookup_app_l in H by exact Hlt. left. exact H.
    + rewrite lookup_app_r in H by exact Hge.
      destruct (k - List.length (RefStore.workers s)) as [|n]; [|destruct n; discriminate].
      injection H as <-. right. reflexivity.
Qed.

Lemma ref_worker_loop_attributes (Date_parse : string -> option Z) (now : nat -> Z)
    (rest : list (list cell)) (i : nat) (st : WorkerScan.t) (s : RefStore.Tables)
    (k : nat) (w : Worker.data) :
  Forall (fun r => site_banner r = None /\ inner_site r = None) rest ->
  RefStore.workers (snd (worker_loop Date_parse now i rest st s)) !! k = Some w ->
  RefStore.workers s !! k = Some w
  \/ Worker.site_affectation w = WorkerScan.currentSite st.
Proof.
  intros H. revert i st s.
  induction H as [|row rest [Hb Hi] _ IH]; intros i st s; simpl; [left; assumption|].
  pose proof (worker_step_keeps_site Date_parse now i row st s Hb Hi) as Hsite.
  pose proof (ref_worker_step_attributes Date_parse now i row st s k w Hb Hi) as Hstep.
  destruct (worker_step Date_parse now i row st s) as [st1 s1].
  intros Hk. destruct (IH _ _ _ Hk) as [Hs1|Hw].
  - apply Hstep. exact Hs1.
  - right. rewrite Hw. exact Hsite.
Qed.

(** C8, amended: a row with a single non-empty cell whose trimmed text is
    longer than three characters is never processed as worker data: the
    store and the statistics are unchanged.  When moreover no cell of the
    row reads [PRENOMS] and the text does not contain
    [TECHNICIENS DE SURFACE], the row switches the site: [currentSite]
    becomes the trimmed text and nothing else changes.  The rows that
    follow, as long as none of them is a site row, are attributed to it:
    the loop still holds that site after them, whatever the store does,
    and against the reference store every worker record is then either as
    it was before the banner or bears that site. *)
Theorem single_cell_row_is_site_switch {Store : Type} `{!Models Store}
    (Date_parse : string -> option Z) (now : nat -> Z)
    (i : nat) (row : list cell) (c : cell) (st : WorkerScan.t) (s : Store) :
  nonEmptyCells_of row = [c] ->
  3 < str_length (trim (String_ c)) ->
  (snd (worker_step Date_parse now i row st s) = s
   /\ WorkerScan.stats (fst (worker_step Date_parse now i row st s)) = WorkerScan.stats st)
  /\ (arr_includes "PRENOMS" (rowStr_of row) = false ->
      includes "TECHNICIENS DE SURFACE" (trim (String_ c)) = false ->
      worker_step Date_parse now i row st s
      = (WorkerScan.set_site (trim (String_ c)) st, s)
      /\ forall rest : list (list cell),
           Forall (fun r => site_banner r = None /\ inner_site r = None) rest ->
           (forall s' : Store,
              WorkerScan.currentSite
                (fst (worker_loop Date_parse now i (row :: rest) st s'))
              = trim (String_ c))
           /\ (forall (r : RefStore.Tables) (k : nat) (w : Worker.data),
                 RefStore.workers
                   (snd (worker_loop Date_parse now i (row :: rest) st r)) !! k = Some w ->
                 RefStore.workers r !! k = Some w
                 \/ Worker.site_affectation w = trim (String_ c))).
Proof.
  intros Hne Hlen.
  assert (Hlt : (3 <? str_length (trim (String_ c))) = true)
    by (apply Nat.ltb_lt; exact Hlen).
  split.
  - unfold worker_step.
    destruct (site_banner row); [split; reflexivity|].
    rewrite (single_cell_not_header row c Hne).
    destruct (after_header _ _); [|split; reflexivity].
    destruct (WorkerScan.prenom _); [|split; reflexivity].
    destruct (WorkerScan.nom _); [|split; reflexivity].
    destruct (_ || _); [split; reflexivity|].
    unfold inner_site. rewrite Hne, Hlt. split; reflexivity.
  - intros Hp Ht.
    assert (Hstep : forall (T : Type) (MT : Models T) (x : T),
               @worker_step T MT Date_parse now i row st x
               = (WorkerScan.set_site (trim (String_ c)) st, x)).
    { intros T MT x. unfold worker_step, site_banner. rewrite Hne, Hlt, Hp, Ht. reflexivity. }
    split; [apply Hstep|].
    intros rest Hrest. split.
    + intros s'. cbn [worker_loop]. rewrite Hstep.
      rewrite (worker_loop_keeps_site Date_parse now rest (i + 1) _ s' Hrest). reflexivity.
    + intros r k w. cbn [worker_loop]. rewrite Hstep. intros Hk.
      apply (ref_worker_loop_attributes Date_parse now rest (i + 1) _ r k w Hrest Hk).
Qed.

Lemma single_cell_row_is_site_switch_witness :
  let st := WorkerScan.mk "SIEGE" (Some 0)
              (WorkerScan.mkCols (Some 0) (Some 1) None None None None None)
              (mkStats 0 0 0 []) in
  let banner := [CStr " CHANTIER NORD "; CStr ""] in
  let rest := [[CStr "Awa"; CStr "Diop"]; [CStr "Binta"; CStr "Fall"]] in
  worker_step iso_Date_parse (fun _ => 0%Z) 1 banner st RefStore.empty
  = (WorkerScan.set_site "CHANTIER NORD" st, RefStore.empty)
  /\ WorkerScan.currentSite
       (fst (worker_loop iso_Date_parse (fun _ => 0%Z) 1 (banner :: rest) st RefStore.empty))
     = "CHANTIER NORD".
Proof.
  intros st banner rest.
  destruct (proj2 (single_cell_row_is_site_switch iso_Date_parse (fun _ => 0%Z) 1
                     banner (CStr " CHANTIER NORD ") st RefStore.empty eq_refl
                     ltac:(vm_compute; lia)) eq_refl eq_refl) as [Hstep Hrest].
  split; [exact Hstep|].
  apply (proj1 (Hrest rest ltac:(repeat constructor))).
Defined.

(** ** Header gating *)

Lemma worker_loop_app {Store : Type} `{!Models Store}
    (Date_parse : string -> option Z) (now : nat -> Z)
    (pre post : list (list cell)) (i : nat) (st : WorkerScan.t) (s : Store) :
  worker_loop Date_parse now i (pre ++ post) st s
  = let '(st', s') := worker_loop Date_parse now i pre st s in
    worker_loop Date_parse now (i + List.length pre) post st' s'.
Proof.
  revert i st s. induction pre as [|row pre IH]; intros i st s; simpl.
  - rewrite Nat.add_0_r. reflexivity.
  - destruct (worker_step Date_parse now i row st s) as [st1 s1].
    rewrite IH. replace (i + 1 + List.length pre) with (i + S (List.length pre)) by lia.
    reflexivity.
Qed.

Lemma product_loop_app {Store : Type} `{!Models Store}
    (pre post : list (list cell)) (i : nat) (st : ProductScan.t) (s : Store) :
  product_loop i (pre ++ post) st s
  = let '(st', s') := product_loop i pre st s in
    product_loop (i + List.length pre) post st' s'.
Proof.
  revert i st s. induction pre as [|row pre IH]; intros i st s; simpl.
  - rewrite Nat.add_0_r. reflexivity.
  - destruct (product_step i row st s) as [st1 s1].
    rewrite IH. replace (i + 1 + List.length pre) with (i + S (List.length pre)) by lia.
    reflexivity.
Qed.

(** Before any header the worker loop can only change the site. *)
Lemma worker_loop_no_header {Store : Type} `{!Models Store}
    (Date_parse : string -> option Z) (now : nat -> Z)
    (pre : list (list cell)) (i : nat) (site : string) (cols : WorkerScan.cols)
    (stats : Stats) (s : Store) :
  Forall (fun r => is_worker_header r = false) pre ->
  exists site',
    worker_loop Date_parse now i pre (WorkerScan.mk site None cols stats) s
    = (WorkerScan.mk site' None cols stats, s).
Proof.
  intros H. revert i site. induction H as [|row pre Hrow _ IH]; intros i site; simpl.
  - eauto.
  - unfold worker_step. rewrite Hrow.
    destruct (site_banner row) as [site1|]; simpl; apply IH.
Qed.

Lemma product_loop_no_header {Store : Type} `{!Models Store}
    (pre : list (list cell)) (i : nat) (st : ProductScan.t) (s : Store) :
  ProductScan.headerRowIndex st = None ->
  Forall (fun r => is_product_header r = false) pre ->
  product_loop i pre st s = (st, s).
Proof.
  intros Hst H. revert i. induction H as [|row pre Hrow _ IH]; intros i; simpl.
  - reflexivity.
  - unfold product_step. rewrite Hrow, Hst. simpl. apply IH.
Qed.

(** C1, as stated: the gating would hold for the controller's import as
    well.  On a sheet without any header row the controller creates a
    worker from its default column indices. *)
Lemma controller_creates_without_header :
  let rows := [[CNum 1; CStr "Awa"; CStr "Diop"; CStr "A1"]] in
  forallb (fun r => negb (is_controller_header r) && negb (is_worker_header r)) rows = true
  /\ map Worker.nom
       (RefStore.workers
          (snd (importWorkers iso_Date_parse (fun _ => 0%Z) 1%Z rows RefStore.empty)))
     = ["Diop"].
Proof.
  vm_compute. split; reflexivity.
Qed.

(** C1, amended: in [importWorkersFromExcel] and [importProductsFromExcel],
    whatever the store does, the rows that precede the first header row
    leave the store and the statistics untouched (the worker loop may only
    have switched the site), so the import of the whole grid is the loop
    over the remaining rows, started from the unchanged store.  The
    controller's [importWorkers] has no such gate. *)
Theorem no_entity_before_first_header {Store : Type} `{!Models Store}
    (Date_parse : string -> option Z) (now : nat -> Z)
    (pre post : list (list cell)) (s : Store) :
  (Forall (fun r => is_worker_header r = false) pre ->
   exists site,
     worker_loop Date_parse now 0 pre WorkerScan.init s
     = (WorkerScan.set_site site WorkerScan.init, s)
     /\ importWorkersFromExcel Date_parse now (pre ++ post) s
        = (let '(st, s') :=
             worker_loop Date_parse now (List.length pre) post
               (WorkerScan.set_site site WorkerScan.init) s in
           (WorkerScan.stats st, s')))
  /\ (Forall (fun r => is_product_header r = false) pre ->
      product_loop 0 pre ProductScan.init s = (ProductScan.init, s)
      /\ importProductsFromExcel (pre ++ post) s
         = (let '(st, s') := product_loop (List.length pre) post ProductScan.init s in
            (ProductScan.stats st, s'))).
Proof.
  split.
  - intros H.
    destruct (worker_loop_no_header Date_parse now pre 0 "SIEGE"
                (WorkerScan.mkCols None None None None None None None)
                (mkStats 0 0 0 []) s H) as [site Hs].
    exists site. fold WorkerScan.init in Hs. split; [exact Hs|].
    unfold importWorkersFromExcel. rewrite worker_loop_app, Hs. reflexivity.
  - intros H.
    pose proof (product_loop_no_header pre 0 ProductScan.init s eq_refl H) as Hs.
    split; [exact Hs|].
    unfold importProductsFromExcel. rewrite product_loop_app, Hs. reflexivity.
Qed.

Lemma no_entity_before_first_header_witness :
  worker_loop iso_Date_parse (fun _ => 0%Z) 0
    [[CStr "Awa"; CStr "Diop"; CStr "A1"]; [CStr "DAKAR"; CStr ""; CStr ""]]
    WorkerScan.init RefStore.empty
  = (WorkerScan.set_site "DAKAR" WorkerScan.init, RefStore.empty)
  /\ product_loop 0 [[CStr "C1"; CStr "Savon"]] ProductScan.init RefStore.empty
     = (ProductScan.init, RefStore.empty).
Proof.
  split.
  - destruct (proj1 (no_entity_before_first_header iso_Date_parse (fun _ => 0%Z)
                       [[CStr "Awa"; CStr "Diop"; CStr "A1"]; [CStr "DAKAR"; CStr ""; CStr ""]]
                       [] RefStore.empty)) as [site [H _]].
    + repeat constructor.
    + rewrite H. vm_compute in H. injection H as <-. reflexivity.
  - apply (proj2 (no_entity_before_first_header iso_Date_parse (fun _ => 0%Z)
                    [[CStr "C1"; CStr "Savon"]] [] RefStore.empty)).
    repeat constructor.
Defined.

(** ** Statistics *)


Lemma prefix_append (a b : string) : String.prefix a (a ++ b) = true.
Proof.
  induction a as [|x a IH]; simpl.
  - destruct b; reflexivity.
  - rewrite IH. destruct (ascii_dec x x); [reflexivity | contradiction].
Qed.

Lemma append_assoc (a b c : string) : ((a ++ b) ++ c = a ++ (b ++ c))%string.
Proof.
  induction a as [|x a IH]; simpl; [reflexivity | rewrite IH; reflexivity].
Qed.

Lemma line_prefix (i : nat) (rest msg : string) :
  String.prefix ("Ligne " ++ string_of_nat (i + 1) ++ " (")
    (("Ligne " ++ string_of_nat (i + 1) ++ " (" ++ rest) ++ msg) = true.
Proof.
  replace (("Ligne " ++ string_of_nat (i + 1) ++ " (" ++ rest) ++ msg)%string
    with (("Ligne " ++ string_of_nat (i + 1) ++ " (") ++ (rest ++ msg))%string.
  - apply prefix_append.
  - rewrite !append_assoc. reflexivity.
Qed.

Lemma accounted_weaken (lo hi hi' : nat) (st : Stats) :
  hi <= hi' -> accounted lo hi st -> accounted lo hi' st.
Proof.
  intros Hle [Hsum Herr]. split; [exact Hsum|].
  eapply Forall_impl; [exact Herr|].
  intros e [i [Hi Hp]]. exists i. split; [lia | exact Hp].
Qed.

Lemma accounted_settle (lo i : nat) (st : Stats) (rest : string) (o : outcome upserted) :
  lo <= i ->
  accounted lo i st ->
  accounted lo (i + 1)
    (settle (count st) ("Ligne " ++ string_of_nat (i + 1) ++ " (" ++ rest) o).
Proof.
  intros Hlo [Hsum Herr].
  assert (Hold : Forall (fun e => exists j, lo <= j < i + 1
                   /\ String.prefix ("Ligne " ++ string_of_nat (j + 1) ++ " (") e = true)
                   (errors st)).
  { eapply Forall_impl; [exact Herr|].
    intros e [j [Hj Hp]]. exists j. split; [lia | exact Hp]. }
  destruct o as [[|]|msg]; unfold accounted; simpl; split; try lia; try exact Hold.
  - rewrite List.length_app. simpl. lia.
  - apply Forall_app. split; [exact Hold|]. constructor; [|constructor].
    exists i. split; [lia | apply line_prefix].
Qed.

Lemma worker_step_accounted {Store : Type} `{!Models Store}
    (Date_parse : string -> option Z) (now : nat -> Z)
    (lo i : nat) (row : list cell) (st : WorkerScan.t) (s : Store) :
  lo <= i ->
  accounted lo i (WorkerScan.stats st) ->
  accounted lo (i + 1) (WorkerScan.stats (fst (worker_step Date_parse now i row st s))).
Proof.
  intros Hlo Hacc.
  assert (Hweak : accounted lo (i + 1) (WorkerScan.stats st))
    by (eapply accounted_weaken; [|exact Hacc]; lia).
  unfold worker_step.
  destruct (site_banner row); [exact Hweak|].
  destruct (is_worker_header row); [exact Hweak|].
  destruct (after_header _ _); [|exact Hweak].
  destruct (WorkerScan.prenom _) as [jp|]; [|exact Hweak].
  destruct (WorkerScan.nom _) as [jn|]; [|exact Hweak].
  destruct (_ || _); [exact Hweak|].
  destruct (inner_site row); [exact Hweak|].
  destruct (upsert_worker _ s) as [o s']. simpl.
  unfold worker_line. apply accounted_settle; assumption.
Qed.

Lemma worker_loop_accounted {Store : Type} `{!Models Store}
    (Date_parse : string -> option Z) (now : nat -> Z)
    (lo : nat) (data : list (list cell)) (i : nat) (st : WorkerScan.t) (s : Store) :
  lo <= i ->
  accounted lo i (WorkerScan.stats st) ->
  accounted lo (i + List.length data)
    (WorkerScan.stats (fst (worker_loop Date_parse now i data st s))).
Proof.
  revert i st s. induction data as [|row data IH]; intros i st s Hlo Hacc; simpl.
  - rewrite Nat.add_0_r. exact Hacc.
  - pose proof (worker_step_accounted Date_parse now lo i row st s Hlo Hacc) as Hstep.
    destruct (worker_step Date_parse now i row st s) as [st1 s1]. simpl in Hstep.
    replace (i + S (List.length data)) with (i + 1 + List.length data) by lia.
    apply IH; [lia | exact Hstep].
Qed.

Lemma product_step_accounted {Store : Type} `{!Models Store}
    (lo i : nat) (row : list cell) (st : ProductScan.t) (s : Store) :
  lo <= i ->
  accounted lo i (ProductScan.stats st) ->
  accounted lo (i + 1) (ProductScan.stats (fst (product_step i row st s))).
Proof.
  intros Hlo Hacc.
  assert (Hweak : accounted lo (i + 1) (ProductScan.stats st))
    by (eapply accounted_weaken; [|exact Hacc]; lia).
  unfold product_step.
  destruct (is_product_header row); [exact Hweak|].
  destruct (after_header _ _); [|exact Hweak].
  destruct (ProductScan.nom _) as [jn|]; [|exact Hweak].
  destruct (negb _); [exact Hweak|].
  destruct (product_body _ _ _ s) as [o s']. simpl.
  unfold product_line. apply accounted_settle; assumption.
Qed.

Lemma product_loop_accounted {Store : Type} `{!Models Store}
    (lo : nat) (data : list (list cell)) (i : nat) (st : ProductScan.t) (s : Store) :
  lo <= i ->
  accounted lo i (ProductScan.stats st) ->
  accounted lo (i + List.length data)
    (ProductScan.stats (fst (product_loop i data st s))).
Proof.
  revert i st s. induction data as [|row data IH]; intros i st s Hlo Hacc; simpl.
  - rewrite Nat.add_0_r. exact Hacc.
  - pose proof (product_step_accounted lo i row st s Hlo Hacc) as Hstep.
    destruct (product_step i row st s) as [st1 s1]. simpl in Hstep.
    replace (i + S (List.length data)) with (i + 1 + List.length data) by lia.
    apply IH; [lia | exact Hstep].
Qed.




(** ** The category of a product row *)

Lemma find_product_ref (d : Product.data) (s : RefStore.Tables) :
  find_product d s = (Returned (ref_find_product d s), s).
Proof.
  unfold find_product, ref_find_product, bind, ret. simpl.
  destruct (Product.code_produit d) as [c|]; simpl; [|reflexivity].
  destruct (negb (c =? "")%string); simpl; [|reflexivity].
  destruct (RefStore.find_where _ _) as [p|]; reflexivity.
Qed.

Lemma upsert_product_ref (d : Product.data) (s : RefStore.Tables) :
  upsert_product d s
  = (Returned (fst (ref_upsert_product d s)), snd (ref_upsert_product d s)).
Proof.
  unfold upsert_product, ref_upsert_product, bind. rewrite find_product_ref.
  destruct (ref_find_product d s) as [[k old]|]; reflexivity.
Qed.

Lemma resolve_category_ref (colMap : ProductScan.cols) (row : list cell)
    (d : Product.data) (s : RefStore.Tables) :
  resolve_category colMap row d s
  = (Returned (fst (ref_resolve_category colMap row d s)),
     snd (ref_resolve_category colMap row d s)).
Proof.
  unfold resolve_category, ref_resolve_category, bind, ret.
  destruct (present _ row) as [c|]; [|reflexivity]. simpl.
  destruct (RefStore.find_where _ _) as [[k old]|]; reflexivity.
Qed.

Lemma product_body_ref (colMap : ProductScan.cols) (row : list cell) (nom : cell)
    (s : RefStore.Tables) :
  product_body colMap row nom s
  = let '(d, s1) := ref_resolve_category colMap row (productData_of colMap row nom) s in
    (Returned (fst (ref_upsert_product d s1)), snd (ref_upsert_product d s1)).
Proof.
  unfold product_body, bind. rewrite resolve_category_ref.
  destruct (ref_resolve_category _ _ _ _) as [d s1]. simpl.
  apply upsert_product_ref.
Qed.

Lemma ref_find_product_lookup (d : Product.data) (s : RefStore.Tables)
    (k : nat) (old : Product.data) :
  ref_find_product d s = Some (k, old) -> RefStore.products s !! k = Some old.
Proof.
  unfold ref_find_product. intros H.
  destruct (Product.code_produit d) as [c|].
  - destruct (negb (c =? "")%string).
    + destruct (RefStore.find_where (RefStore.product_matches (Product.ByCode c)) _)
        as [p|] eqn:Hc.
      * injection H as ->. apply list_find_Some in Hc. tauto.
      * apply list_find_Some in H. tauto.
    + apply list_find_Some in H. tauto.
  - apply list_find_Some in H. tauto.
Qed.





(** ** What an update writes *)

(** The worker upsert, for comparison: when the row resolves to an existing
    record, the update sets the site to the current one and takes salary,
    address, contact and birth date from the row only where the row has
    them; all other fields and all other records stay as they were. *)
Lemma worker_update_keeps_absent_fields (Date_parse : string -> option Z) (now : nat -> Z)
    (i : nat) (st : WorkerScan.t) (row : list cell) (prenom nom : cell)
    (s : RefStore.Tables) (k : nat) (old : Worker.data) :
  let d := workerData_of Date_parse now i st row prenom nom in
  find_worker d s = (Returned (Some (k, old)), s) ->
  exists new s',
    upsert_worker d s = (Returned Updated, s')
    /\ RefStore.workers s' !! k = Some new
    /\ (forall j, j <> k -> RefStore.workers s' !! j = RefStore.workers s !! j)
    /\ RefStore.products s' = RefStore.products s
    /\ RefStore.categories s' = RefStore.categories s
    /\ Worker.prenom new = Worker.prenom old /\ Worker.nom new = Worker.nom old
    /\ Worker.cin new = Worker.cin old /\ Worker.poste new = Worker.poste old
    /\ Worker.statut new = Worker.statut old /\ Worker.email new = Worker.email old
    /\ Worker.date_embauche new = Worker.date_embauche old
    /\ Worker.created_by new = Worker.created_by old
    /\ Worker.site_affectation new = WorkerScan.currentSite st
    /\ (present (WorkerScan.salaire (WorkerScan.colMap st)) row = None ->
        Worker.salaire_base new = Worker.salaire_base old)
    /\ (present (WorkerScan.adresse (WorkerScan.colMap st)) row = None ->
        Worker.adresse new = Worker.adresse old)
    /\ (present (WorkerScan.telephone (WorkerScan.colMap st)) row = None ->
        Worker.contact new = Worker.contact old)
    /\ (Worker.date_naissance d = None ->
        Worker.date_naissance new = Worker.date_naissance old).
Proof.
  intros d Hf.
  assert (Hlook : RefStore.workers s !! k = Some old).
  { apply (ref_find_worker_lookup d). rewrite find_worker_ref in Hf. congruence. }
  exists (RefStore.apply_changes (Worker.Patch (worker_patch d old)) old).
  eexists. unfold upsert_worker, bind. rewrite Hf. simpl.
  split; [reflexivity|]. simpl.
  split; [rewrite list_lookup_alter_eq, Hlook; reflexivity|].
  split; [intros j Hj; apply list_lookup_alter_ne; congruence|].
  repeat (split; [reflexivity|]).
  split; [|split; [|split]].
  - intros Hp. unfold d, workerData_of. simpl. rewrite Hp. reflexivity.
  - intros Hp. unfold d, workerData_of. simpl. rewrite Hp. reflexivity.
  - intros Hp. unfold d, workerData_of. simpl. rewrite Hp. reflexivity.
  - intros Hp. rewrite Hp. reflexivity.
Qed.

(** C3: the product upsert hands the whole [productData] object to
    [update].  A row that carries nothing but the name of a stored product
    resets its quantity to 0 and its status to [OK], and overwrites
    description, unit, alert threshold and code with the defaults. *)
Theorem product_update_resets_stock :
  let stored :=
    Product.mk "Savon" (Some "Savon de Marseille") "Carton" 10 "ALERTE" 12 (Some "P1") (Some 0) in
  let data := [[CStr "NOM DU PRODUIT"]; [CStr "Savon"]] in
  let s0 := RefStore.mk [] [stored] [Category.mk "Hygiene" "Produits"] in
  importProductsFromExcel data s0
  = (mkStats 1 0 1 [],
     RefStore.mk []
       [Product.mk "Savon" None "Unité" 5 "OK" 0 None (Some 0)]
       [Category.mk "Hygiene" "Produits"]).
Proof.
  reflexivity.
Qed.

(** ** Importing the same sheet twice *)

(** *** The worker loop as a fold over its counted rows *)

Lemma worker_rows_stats (Date_parse : string -> option Z) (now : nat -> Z)
    (data : list (list cell)) (i : nat) (st : WorkerScan.t) (x : Stats) :
  worker_rows Date_parse now i data (WorkerScan.set_stats x st)
  = worker_rows Date_parse now i data st.
Proof.
  revert i st. induction data as [|row data IH]; intros i st; simpl; [reflexivity|].
  destruct (site_banner row) as [site|].
  { apply (IH (i + 1) (WorkerScan.set_site site st)). }
  destruct (is_worker_header row).
  { apply (IH (i + 1) (WorkerScan.mk (WorkerScan.currentSite st) (Some i)
                         (WorkerScan.map_columns (rowStr_of row) 0 (WorkerScan.colMap st))
                         (WorkerScan.stats st))). }
  destruct (after_header _ _); [|apply IH].
  destruct (WorkerScan.prenom _) as [jp|]; [|apply IH].
  destruct (WorkerScan.nom _) as [jn|]; [|apply IH].
  destruct (_ || _); [apply IH|].
  destruct (inner_site row) as [site|].
  { apply (IH (i + 1) (WorkerScan.set_site site st)). }
  f_equal. apply IH.
Qed.

Lemma worker_loop_fold (Date_parse : string -> option Z) (now : nat -> Z)
    (data : list (list cell)) (i : nat) (st : WorkerScan.t) (s : RefStore.Tables) :
  (WorkerScan.stats (fst (worker_loop Date_parse now i data st s)),
   snd (worker_loop Date_parse now i data st s))
  = fold_left ref_worker (worker_rows Date_parse now i data st) (WorkerScan.stats st, s).
Proof.
  revert i st s. induction data as [|row data IH]; intros i st s; simpl; [reflexivity|].
  unfold worker_step.
  destruct (site_banner row) as [site|].
  { exact (IH (i + 1) (WorkerScan.set_site site st) s). }
  destruct (is_worker_header row).
  { exact (IH (i + 1) (WorkerScan.mk (WorkerScan.currentSite st) (Some i)
                         (WorkerScan.map_columns (rowStr_of row) 0 (WorkerScan.colMap st))
                         (WorkerScan.stats st)) s). }
  destruct (after_header _ _); [|apply IH].
  destruct (WorkerScan.prenom _) as [jp|]; [|apply IH].
  destruct (WorkerScan.nom _) as [jn|]; [|apply IH].
  destruct (_ || _); [apply IH|].
  destruct (inner_site row) as [site|].
  { exact (IH (i + 1) (WorkerScan.set_site site st) s). }
  rewrite upsert_worker_ref. cbv beta iota zeta.
  rewrite IH, worker_rows_stats. cbn [fold_left]. f_equal.
  unfold ref_worker. cbn [fst snd WorkerScan.stats WorkerScan.set_stats].
  destruct (ref_upsert_worker _ s) as [u s']. destruct u; reflexivity.
Qed.

(** The national IDs of the counted rows do not depend on the clock. *)
Lemma worker_rows_cin (Date_parse : string -> option Z) (now now' : nat -> Z)
    (data : list (list cell)) (i : nat) (st : WorkerScan.t) :
  map Worker.cin (worker_rows Date_parse now i data st)
  = map Worker.cin (worker_rows Date_parse now' i data st).
Proof.
  revert i st. induction data as [|row data IH]; intros i st; simpl; [reflexivity|].
  destruct (site_banner row) as [site|]; [apply IH|].
  destruct (is_worker_header row); [apply IH|].
  destruct (after_header _ _); [|apply IH].
  destruct (WorkerScan.prenom _) as [jp|]; [|apply IH].
  destruct (WorkerScan.nom _) as [jn|]; [|apply IH].
  destruct (_ || _); [apply IH|].
  destruct (inner_site row) as [site|]; [apply IH|].
  simpl. f_equal. apply IH.
Qed.

(** *** National IDs persist *)

Lemma ref_upsert_worker_keeps_cin (d : Worker.data) (s : RefStore.Tables) (c : string) :
  cin_in c s -> cin_in c (snd (ref_upsert_worker d s)).
Proof.
  intros [k [w [Hk Hc]]]. unfold ref_upsert_worker.
  destruct (ref_find_worker d s) as [[j old]|]; simpl.
  - destruct (decide (j = k)) as [->|Hne].
    + exists k, (RefStore.apply_changes (Worker.Patch (worker_patch d old)) w).
      simpl. split; [rewrite list_lookup_alter_eq, Hk; reflexivity | exact Hc].
    + exists k, w. simpl. split; [rewrite list_lookup_alter_ne; assumption | exact Hc].
  - exists k, w. simpl. split; [apply lookup_app_l_Some; exact Hk | exact Hc].
Qed.

Lemma cin_in_found (d : Worker.data) (s : RefStore.Tables) (c : string) :
  Worker.cin d = Some c -> c <> "" -> cin_in c s ->
  exists k old, ref_find_worker d s = Some (k, old).
Proof.
  intros Hd Hne [k [w [Hk Hc]]]. unfold ref_find_worker. rewrite Hd.
  destruct (negb (c =? "")%string) eqn:Hb.
  - destruct (list_find_elem_of
                (fun x => RefStore.worker_matches (Worker.ByCin c) x = true)
                (RefStore.workers s) w) as [[j old] Hf].
    + apply list_elem_of_lookup. eauto.
    + simpl. unfold RefStore.opt_is. rewrite Hc. apply String.eqb_refl.
    + unfold RefStore.find_where. rewrite Hf. eauto.
  - apply negb_false_iff, String.eqb_eq in Hb. contradiction.
Qed.

Lemma ref_upsert_worker_adds_cin (d : Worker.data) (s : RefStore.Tables) (c : string) :
  Worker.cin d = Some c -> c <> "" -> cin_in c (snd (ref_upsert_worker d s)).
Proof.
  intros Hd Hne. unfold ref_upsert_worker.
  destruct (ref_find_worker d s) as [[j old]|] eqn:Hf; simpl.
  - assert (Hin : cin_in c s).
    { pose proof (ref_find_worker_lookup d s j old Hf) as Hj.
      unfold ref_find_worker in Hf. rewrite Hd in Hf.
      destruct (negb (c =? "")%string) eqn:Hb.
      - destruct (RefStore.find_where (RefStore.worker_matches (Worker.ByCin c)) _)
          as [w|] eqn:Hc.
        + injection Hf as ->. apply list_find_Some in Hc as [_ [Hm _]].
          simpl in Hm. unfold RefStore.opt_is in Hm.
          destruct (Worker.cin old) as [y|] eqn:Hy; [|discriminate].
          apply String.eqb_eq in Hm. subst y. exists j, old. split; assumption.
        + unfold str_truthy in Hf. rewrite Hb in Hf. simpl in Hf.
          destruct (Worker.contact d); discriminate.
      - apply negb_false_iff, String.eqb_eq in Hb. contradiction. }
    pose proof (ref_upsert_worker_keeps_cin d s c Hin) as H.
    unfold ref_upsert_worker in H. rewrite Hf in H. exact H.
  - exists (List.length (RefStore.workers s)), d. simpl. split; [|exact Hd].
    rewrite lookup_app_r by lia. rewrite Nat.sub_diag. reflexivity.
Qed.

Lemma has_cin_inv (d : Worker.data) :
  has_cin d -> exists c, Worker.cin d = Some c /\ c <> "".
Proof.
  unfold has_cin, str_truthy. destruct (Worker.cin d) as [c|]; [|discriminate].
  intros H. exists c. split; [reflexivity|]. intros ->. discriminate.
Qed.

Lemma fold_ref_worker_keeps_cin (rows : list Worker.data)
    (acc : Stats * RefStore.Tables) (c : string) :
  cin_in c (snd acc) -> cin_in c (snd (fold_left ref_worker rows acc)).
Proof.
  revert acc. induction rows as [|d rows IH]; intros acc H; simpl; [exact H|].
  apply IH. unfold ref_worker.
  pose proof (ref_upsert_worker_keeps_cin d (snd acc) c H) as H'.
  destruct (ref_upsert_worker d (snd acc)) as [u s']. exact H'.
Qed.

(** After a run, every national ID of the sheet is in the store. *)
Lemma fold_ref_worker_adds_cin (rows : list Worker.data)
    (acc : Stats * RefStore.Tables) (d : Worker.data) (c : string) :
  In d rows -> Worker.cin d = Some c -> c <> "" ->
  cin_in c (snd (fold_left ref_worker rows acc)).
Proof.
  revert acc. induction rows as [|d0 rows IH]; intros acc Hin Hd Hne; [destruct Hin|].
  simpl. destruct Hin as [->|Hin].
  - apply fold_ref_worker_keeps_cin. unfold ref_worker.
    pose proof (ref_upsert_worker_adds_cin d (snd acc) c Hd Hne) as H'.
    destruct (ref_upsert_worker d (snd acc)) as [u s']. exact H'.
  - apply IH; assumption.
Qed.

(** A run over rows whose national IDs are all in the store only updates. *)
Lemma fold_ref_worker_updates (rows : list Worker.data) (acc : Stats * RefStore.Tables) :
  (forall d, In d rows ->
     exists c, Worker.cin d = Some c /\ c <> "" /\ cin_in c (snd acc)) ->
  created (fst (fold_left ref_worker rows acc)) = created (fst acc)
  /\ updated (fst (fold_left ref_worker rows acc)) + total (fst acc)
     = updated (fst acc) + total (fst (fold_left ref_worker rows acc)).
Proof.
  revert acc. induction rows as [|d rows IH]; intros acc H; simpl; [split; reflexivity|].
  destruct (H d (or_introl eq_refl)) as [c [Hd [Hne Hin]]].
  destruct (cin_in_found d (snd acc) c Hd Hne Hin) as [k [old Hf]].
  assert (Hstep : fst (ref_worker acc d) = settle (count (fst acc)) "" (Returned Updated)
                  /\ snd (ref_worker acc d) = snd (ref_upsert_worker d (snd acc))).
  { unfold ref_worker, ref_upsert_worker. rewrite Hf. split; reflexivity. }
  destruct Hstep as [Hst Hsn].
  destruct (IH (ref_worker acc d)) as [Hc Hu].
  - intros d' Hd'. destruct (H d' (or_intror Hd')) as [c' [Hd'c [Hne' Hin']]].
    exists c'. repeat split; try assumption.
    rewrite Hsn. apply ref_upsert_worker_keeps_cin. exact Hin'.
  - rewrite Hc, Hst. rewrite Hst in Hu. simpl in *. split; [reflexivity | lia].
Qed.

(** *** The product loop as a fold over its counted rows *)

Lemma product_rows_stats (data : list (list cell)) (i : nat) (st : ProductScan.t)
    (x : Stats) :
  product_rows i data (ProductScan.set_stats x st) = product_rows i data st.
Proof.
  revert i st. induction data as [|row data IH]; intros i st; simpl; [reflexivity|].
  destruct (is_product_header row).
  { apply (IH (i + 1) (ProductScan.mk (Some i)
                         (ProductScan.map_columns (rowStr_of row) 0 (ProductScan.colMap st))
                         (ProductScan.stats st))). }
  destruct (after_header _ _); [|apply IH].
  destruct (ProductScan.nom _) as [jn|]; [|apply IH].
  destruct (negb _); [apply IH|].
  f_equal. apply IH.
Qed.

Lemma product_loop_fold (data : list (list cell)) (i : nat) (st : ProductScan.t)
    (s : RefStore.Tables) :
  (ProductScan.stats (fst (product_loop i data st s)), snd (product_loop i data st s))
  = fold_left ref_product (product_rows i data st) (ProductScan.stats st, s).
Proof.
  revert i st s. induction data as [|row data IH]; intros i st s; simpl; [reflexivity|].
  unfold product_step.
  destruct (is_product_header row).
  { exact (IH (i + 1) (ProductScan.mk (Some i)
                         (ProductScan.map_columns (rowStr_of row) 0 (ProductScan.colMap st))
                         (ProductScan.stats st)) s). }
  destruct (after_header _ _); [|apply IH].
  destruct (ProductScan.nom _) as [jn|]; [|apply IH].
  destruct (negb _); [apply IH|].
  rewrite product_body_ref. cbn [fold_left]. unfold ref_product at 2.
  cbn [fst snd].
  destruct (ref_resolve_category _ _ _ s) as [d s1].
  cbv beta iota zeta.
  rewrite IH, product_rows_stats. f_equal.
  cbn [fst snd ProductScan.stats ProductScan.set_stats].
  destruct (ref_upsert_product d s1) as [u s2]. destruct u; reflexivity.
Qed.

(** *** Names persist when codes are stable *)

Lemma ref_resolve_category_same (colMap : ProductScan.cols) (row : list cell)
    (d : Product.data) (s : RefStore.Tables) :
  RefStore.products (snd (ref_resolve_category colMap row d s)) = RefStore.products s
  /\ Product.code_produit (fst (ref_resolve_category colMap row d s)) = Product.code_produit d
  /\ Product.nom (fst (ref_resolve_category colMap row d s)) = Product.nom d.
Proof.
  unfold ref_resolve_category.
  destruct (present _ row) as [c|]; [|repeat split].
  destruct (RefStore.find_where _ _) as [[k old]|]; repeat split.
Qed.

Lemma ref_find_product_how (d : Product.data) (s : RefStore.Tables)
    (k : nat) (old : Product.data) :
  ref_find_product d s = Some (k, old) ->
  (exists c, c <> "" /\ Product.code_produit d = Some c /\ Product.code_produit old = Some c)
  \/ Product.nom old = Product.nom d.
Proof.
  unfold ref_find_product. intros H.
  assert (Hnom : RefStore.find_where
                   (RefStore.product_matches (Product.ByNom (Product.nom d)))
                   (RefStore.products s) = Some (k, old) ->
                 Product.nom old = Product.nom d).
  { intros Hf. apply list_find_Some in Hf as [_ [Hm _]]. simpl in Hm.
    apply String.eqb_eq in Hm. exact Hm. }
  destruct (Product.code_produit d) as [c|]; [|right; auto].
  destruct (negb (c =? "")%string) eqn:Hb; [|right; auto].
  destruct (RefStore.find_where (RefStore.product_matches (Product.ByCode c)) _)
    as [p|] eqn:Hc; [|right; auto].
  injection H as ->. left. exists c.
  apply list_find_Some in Hc as [_ [Hm _]]. simpl in Hm. unfold RefStore.opt_is in Hm.
  destruct (Product.code_produit old) as [y|]; [|discriminate].
  apply String.eqb_eq in Hm. subst y.
  repeat split. intros ->. discriminate.
Qed.

Lemma ref_upsert_product_keeps_cover (G : list Product.data) (d g0 : Product.data)
    (s : RefStore.Tables) (n : string) :
  same_code_same_name G ->
  In g0 G ->
  Product.code_produit d = Product.code_produit g0 ->
  Product.nom d = Product.nom g0 ->
  covers G n s -> covers G n (snd (ref_upsert_product d s)).
Proof.
  intros HP Hg0 Hcode Hnom [k [p [g [Hk [Hn [Hg [Hpc Hgn]]]]]]].
  unfold ref_upsert_product.
  destruct (ref_find_product d s) as [[j old]|] eqn:Hf; simpl.
  - destruct (decide (j = k)) as [->|Hne].
    + pose proof (ref_find_product_lookup d s k old Hf) as Hold.
      rewrite Hk in Hold. injection Hold as <-.
      assert (Hdn : Product.nom d = n).
      { destruct (ref_find_product_how d s k p Hf) as [[c [Hc [Hdc Hoc]]]|Hpn].
        - rewrite Hnom, <- Hgn. symmetry.
          apply (HP g g0 c); try assumption; congruence.
        - congruence. }
      exists k, (RefStore.apply_product d p), g0. simpl.
      split; [rewrite list_lookup_alter_eq, Hk; reflexivity|].
      repeat split; try assumption; congruence.
    + exists k, p, g. simpl.
      split; [rewrite list_lookup_alter_ne; assumption|]. repeat split; assumption.
  - exists k, p, g. simpl.
    split; [apply lookup_app_l_Some; exact Hk|]. repeat split; assumption.
Qed.

Lemma ref_upsert_product_adds_cover (G : list Product.data) (d g0 : Product.data)
    (s : RefStore.Tables) :
  In g0 G ->
  Product.code_produit d = Product.code_produit g0 ->
  Product.nom d = Product.nom g0 ->
  covers G (Product.nom g0) (snd (ref_upsert_product d s)).
Proof.
  intros Hg0 Hcode Hnom. unfold ref_upsert_product.
  destruct (ref_find_product d s) as [[j old]|] eqn:Hf; simpl.
  - pose proof (ref_find_product_lookup d s j old Hf) as Hold.
    exists j, (RefStore.apply_product d old), g0. simpl.
    split; [rewrite list_lookup_alter_eq, Hold; reflexivity|].
    repeat split; assumption.
  - exists (List.length (RefStore.products s)), d, g0. simpl.
    split; [rewrite lookup_app_r by lia; rewrite Nat.sub_diag; reflexivity|].
    repeat split; assumption.
Qed.

Lemma covers_found (G : list Product.data) (d : Product.data) (s : RefStore.Tables) :
  covers G (Product.nom d) s -> exists k old, ref_find_product d s = Some (k, old).
Proof.
  intros [k [p [g [Hk [Hn _]]]]]. unfold ref_find_product.
  destruct (match Product.code_produit d with Some c => _ | None => None end) as [[j old]|];
    [eauto|].
  destruct (list_find_elem_of
              (fun x => RefStore.product_matches (Product.ByNom (Product.nom d)) x = true)
              (RefStore.products s) p) as [[j old] Hf].
  - apply list_elem_of_lookup. eauto.
  - simpl. rewrite Hn. apply String.eqb_refl.
  - unfold RefStore.find_where. rewrite Hf. eauto.
Qed.

Lemma covers_products (G : list Product.data) (n : string) (s s' : RefStore.Tables) :
  RefStore.products s' = RefStore.products s -> covers G n s -> covers G n s'.
Proof.
  intros He [k [p [g H]]]. exists k, p, g. rewrite He. exact H.
Qed.

Lemma ref_product_keeps_cover (G : list Product.data)
    (r : ProductScan.cols * list cell * cell) (acc : Stats * RefStore.Tables) (n : string) :
  same_code_same_name G -> In (object_of r) G ->
  covers G n (snd acc) -> covers G n (snd (ref_product acc r)).
Proof.
  intros HP Hin Hc. destruct r as [[cols row] nom]. unfold ref_product.
  destruct (ref_resolve_category_same cols row (productData_of cols row nom) (snd acc))
    as [Hp [Hcode Hnom]].
  destruct (ref_resolve_category _ _ _ _) as [d s1]. simpl in *.
  pose proof (ref_upsert_product_keeps_cover G d _ s1 n HP Hin Hcode Hnom
                (covers_products G n (snd acc) s1 Hp Hc)) as H.
  destruct (ref_upsert_product d s1) as [u s2]. exact H.
Qed.

Lemma ref_product_adds_cover (G : list Product.data)
    (r : ProductScan.cols * list cell * cell) (acc : Stats * RefStore.Tables) :
  In (object_of r) G ->
  covers G (Product.nom (object_of r)) (snd (ref_product acc r)).
Proof.
  intros Hin. destruct r as [[cols row] nom]. unfold ref_product.
  destruct (ref_resolve_category_same cols row (productData_of cols row nom) (snd acc))
    as [Hp [Hcode Hnom]].
  destruct (ref_resolve_category _ _ _ _) as [d s1]. simpl in *.
  pose proof (ref_upsert_product_adds_cover G d _ s1 Hin Hcode Hnom) as H.
  destruct (ref_upsert_product d s1) as [u s2]. exact H.
Qed.

Lemma fold_ref_product_keeps_cover (G : list Product.data)
    (rows : list (ProductScan.cols * list cell * cell))
    (acc : Stats * RefStore.Tables) (n : string) :
  same_code_same_name G ->
  (forall r, In r rows -> In (object_of r) G) ->
  covers G n (snd acc) -> covers G n (snd (fold_left ref_product rows acc)).
Proof.
  intros HP. revert acc. induction rows as [|r rows IH]; intros acc Hin Hc; simpl;
    [exact Hc|].
  apply IH; [intros r' Hr'; apply Hin; right; exact Hr'|].
  apply ref_product_keeps_cover; [exact HP | apply Hin; left; reflexivity | exact Hc].
Qed.

(** After a run, every name of the sheet is borne by a record. *)
Lemma fold_ref_product_adds_cover (G : list Product.data)
    (rows : list (ProductScan.cols * list cell * cell))
    (acc : Stats * RefStore.Tables) (r : ProductScan.cols * list cell * cell) :
  same_code_same_name G ->
  (forall r', In r' rows -> In (object_of r') G) ->
  In r rows ->
  covers G (Product.nom (object_of r)) (snd (fold_left ref_product rows acc)).
Proof.
  intros HP. revert acc. induction rows as [|r0 rows IH]; intros acc Hin Hr; [destruct Hr|].
  simpl. destruct Hr as [->|Hr].
  - apply fold_ref_product_keeps_cover;
      [exact HP | intros r' Hr'; apply Hin; right; exact Hr'|].
    apply ref_product_adds_cover. apply Hin. left. reflexivity.
  - apply IH; [intros r' Hr'; apply Hin; right; exact Hr' | exact Hr].
Qed.

(** A run over rows whose names are all covered only updates. *)
Lemma fold_ref_product_updates (G : list Product.data)
    (rows : list (ProductScan.cols * list cell * cell)) (acc : Stats * RefStore.Tables) :
  same_code_same_name G ->
  (forall r, In r rows -> In (object_of r) G) ->
  (forall r, In r rows -> covers G (Product.nom (object_of r)) (snd acc)) ->
  created (fst (fold_left ref_product rows acc)) = created (fst acc)
  /\ updated (fst (fold_left ref_product rows acc)) + total (fst acc)
     = updated (fst acc) + total (fst (fold_left ref_product rows acc)).
Proof.
  intros HP. revert acc. induction rows as [|r rows IH]; intros acc Hin Hcov; simpl;
    [split; reflexivity|].
  assert (Hst : fst (ref_product acc r) = settle (count (fst acc)) "" (Returned Updated)).
  { pose proof (Hcov r (or_introl eq_refl)) as Hc.
    destruct r as [[cols row] nom]. unfold ref_product. unfold object_of in Hc. simpl in Hc.
    destruct (ref_resolve_category_same cols row (productData_of cols row nom) (snd acc))
      as [Hp [_ Hnom]].
    destruct (ref_resolve_category _ _ _ _) as [d s1]. simpl in *.
    rewrite <- Hnom in Hc.
    destruct (covers_found G d s1 (covers_products G _ (snd acc) s1 Hp Hc)) as [k [old Hf]].
    unfold ref_upsert_product. rewrite Hf. reflexivity. }
  destruct (IH (ref_product acc r)) as [Hc Hu].
  - intros r' Hr'. apply Hin. right. exact Hr'.
  - intros r' Hr'. apply ref_product_keeps_cover;
      [exact HP | apply Hin; left; reflexivity | apply Hcov; right; exact Hr'].
  - rewrite Hc, Hst. rewrite Hst in Hu. simpl in *. split; [reflexivity | lia].
Qed.

Lemma importWorkers_fold (Date_parse : string -> option Z) (now : nat -> Z)
    (data : list (list cell)) (s : RefStore.Tables) :
  importWorkersFromExcel Date_parse now data s
  = fold_left ref_worker (worker_rows Date_parse now 0 data WorkerScan.init)
      (mkStats 0 0 0 [], s).
Proof.
  unfold importWorkersFromExcel.
  pose proof (worker_loop_fold Date_parse now data 0 WorkerScan.init s) as H.
  destruct (worker_loop Date_parse now 0 data WorkerScan.init s) as [st s']. exact H.
Qed.

Lemma importProducts_fold (data : list (list cell)) (s : RefStore.Tables) :
  importProductsFromExcel data s
  = fold_left ref_product (product_rows 0 data ProductScan.init) (mkStats 0 0 0 [], s).
Proof.
  unfold importProductsFromExcel.
  pose proof (product_loop_fold data 0 ProductScan.init s) as H.
  destruct (product_loop 0 data ProductScan.init s) as [st s']. exact H.
Qed.

(** C2, as stated: with a product code on every data row the second run
    would create nothing.  Here every row has a code, one code names two
    products and one product bears two codes: the second run creates a
    record again. *)
Lemma second_product_import_creates :
  let data := [[CStr "CODE"; CStr "NOM DU PRODUIT"];
               [CStr "C1"; CStr "X"]; [CStr "C1"; CStr "Y"]; [CStr "C2"; CStr "Y"]] in
  let s1 := snd (importProductsFromExcel data RefStore.empty) in
  Forall has_code (product_objects data)
  /\ fst (importProductsFromExcel data s1) = mkStats 3 1 2 [].
Proof.
  split; [repeat constructor | reflexivity].
Qed.

(** C2, amended: against the reference store, importing a sheet a second
    time on the store left by the first run gives [created = 0] and
    [updated = total]: for workers when every counted row has a national
    ID, and for products when the product codes of the sheet are stable,
    that is, rows with the same code carry the same name. *)
Theorem second_import_only_updates (Date_parse : string -> option Z)
    (now now' : nat -> Z) (data : list (list cell)) (s0 : RefStore.Tables) :
  (Forall has_cin (worker_rows Date_parse now 0 data WorkerScan.init) ->
   let s1 := snd (importWorkersFromExcel Date_parse now data s0) in
   let stats2 := fst (importWorkersFromExcel Date_parse now' data s1) in
   created stats2 = 0 /\ updated stats2 = total stats2)
  /\ (same_code_same_name (product_objects data) ->
      let s1 := snd (importProductsFromExcel data s0) in
      let stats2 := fst (importProductsFromExcel data s1) in
      created stats2 = 0 /\ updated stats2 = total stats2).
Proof.
  split.
  - intros Hcin s1 stats2. unfold stats2, s1. rewrite !importWorkers_fold.
    set (rows := worker_rows Date_parse now 0 data WorkerScan.init) in *.
    set (rows' := worker_rows Date_parse now' 0 data WorkerScan.init).
    destruct (fold_ref_worker_updates rows'
                (mkStats 0 0 0 [], snd (fold_left ref_worker rows (mkStats 0 0 0 [], s0))))
      as [Hc Hu].
    + intros d' Hd'.
      assert (Hm : In (Worker.cin d') (map Worker.cin rows)).
      { unfold rows. rewrite (worker_rows_cin Date_parse now now').
        apply in_map. exact Hd'. }
      apply in_map_iff in Hm as [d [Heq Hd]].
      rewrite Forall_forall in Hcin.
      destruct (has_cin_inv d (Hcin d (proj2 (list_elem_of_In _ _) Hd))) as [c [Hdc Hne]].
      exists c. split; [congruence|]. split; [exact Hne|].
      apply (fold_ref_worker_adds_cin rows _ d c Hd Hdc Hne).
    + simpl in Hc, Hu. split; [exact Hc | lia].
  - intros HP s1 stats2. unfold stats2, s1. rewrite !importProducts_fold.
    set (rows := product_rows 0 data ProductScan.init).
    assert (Hin : forall r, In r rows -> In (object_of r) (product_objects data)).
    { intros r Hr. unfold product_objects. apply in_map. exact Hr. }
    destruct (fold_ref_product_updates (product_objects data) rows
                (mkStats 0 0 0 [], snd (fold_left ref_product rows (mkStats 0 0 0 [], s0)))
                HP Hin) as [Hc Hu].
    + intros r Hr. apply fold_ref_product_adds_cover; assumption.
    + simpl in Hc, Hu. split; [exact Hc | lia].
Qed.

Lemma second_import_only_updates_witness :
  let workers := [[CStr "PRENOMS"; CStr "NOMS"; CStr "N.I"];
                  [CStr "Awa"; CStr "Diop"; CStr "A1"];
                  [CStr "Ali"; CStr "Ba"; CStr "A2"]] in
  let products := [[CStr "CODE"; CStr "NOM DU PRODUIT"];
                   [CStr "C1"; CStr "Savon"]; [CStr "C2"; CStr "Balai"]] in
  (let s1 := snd (importWorkersFromExcel iso_Date_parse (fun _ => 5%Z) workers RefStore.empty) in
   let stats2 := fst (importWorkersFromExcel iso_Date_parse (fun _ => 9%Z) workers s1) in
   created stats2 = 0 /\ updated stats2 = total stats2)
  /\ (let s1 := snd (importProductsFromExcel products RefStore.empty) in
      let stats2 := fst (importProductsFromExcel products s1) in
      created stats2 = 0 /\ updated stats2 = total stats2).
Proof.
  intros workers products. split.
  - apply (proj1 (second_import_only_updates iso_Date_parse (fun _ => 5%Z) (fun _ => 9%Z)
                    workers RefStore.empty)).
    repeat constructor.
  - apply (proj2 (second_import_only_updates iso_Date_parse (fun _ => 5%Z) (fun _ => 9%Z)
                    products RefStore.empty)).
    intros d1 d2 c H1 H2 _ E1 E2. vm_compute in H1, H2.
    destruct H1 as [<-|[<-|[]]]; destruct H2 as [<-|[<-|[]]];
      simpl in E1, E2; try reflexivity; congruence.
Defined.

(** * Further properties of the import code *)

(** ** The total is read off the sheet *)

Lemma worker_rows_shape (Date_parse Date_parse' : string -> option Z) (now now' : nat -> Z)
    (data : list (list cell)) (i : nat) (st : WorkerScan.t) :
  List.length (worker_rows Date_parse now i data st)
  = List.length (worker_rows Date_parse' now' i data st).
Proof.
  revert i st. induction data as [|row data IH]; intros i st; simpl; [reflexivity|].
  destruct (site_banner row) as [site|]; [apply IH|].
  destruct (is_worker_header row); [apply IH|].
  destruct (after_header _ _); [|apply IH].
  destruct (WorkerScan.prenom _) as [jp|]; [|apply IH].
  destruct (WorkerScan.nom _) as [jn|]; [|apply IH].
  destruct (_ || _); [apply IH|].
  destruct (inner_site row) as [site|]; [apply IH|].
  simpl. f_equal. apply IH.
Qed.

Lemma worker_rows_bound (Date_parse : string -> option Z) (now : nat -> Z)
    (data : list (list cell)) (i : nat) (st : WorkerScan.t) :
  List.length (worker_rows Date_parse now i data st) <= List.length data.
Proof.
  revert i st. induction data as [|row data IH]; intros i st; simpl; [lia|].
  destruct (site_banner row) as [site|]; [etrans; [apply IH | lia]|].
  destruct (is_worker_header row); [etrans; [apply IH | lia]|].
  destruct (after_header _ _); [|etrans; [apply IH | lia]].
  destruct (WorkerScan.prenom _) as [jp|]; [|etrans; [apply IH | lia]].
  destruct (WorkerScan.nom _) as [jn|]; [|etrans; [apply IH | lia]].
  destruct (_ || _); [etrans; [apply IH | lia]|].
  destruct (inner_site row) as [site|]; [etrans; [apply IH | lia]|].
  simpl. pose proof (IH (i + 1) st). lia.
Qed.

Lemma product_rows_bound (data : list (list cell)) (i : nat) (st : ProductScan.t) :
  List.length (product_rows i data st) <= List.length data.
Proof.
  revert i st. induction data as [|row data IH]; intros i st; simpl; [lia|].
  destruct (is_product_header row); [etrans; [apply IH | lia]|].
  destruct (after_header _ _); [|etrans; [apply IH | lia]].
  destruct (ProductScan.nom _) as [jn|]; [|etrans; [apply IH | lia]].
  destruct (negb _); [etrans; [apply IH | lia]|].
  simpl. pose proof (IH (i + 1) st). lia.
Qed.

Lemma settle_total (st : Stats) (line : string) (o : outcome upserted) :
  total (settle (count st) line o) = S (total st).
Proof. destruct o as [[|]|msg]; reflexivity. Qed.

Lemma worker_loop_total {Store : Type} `{!Models Store}
    (Date_parse : string -> option Z) (now : nat -> Z)
    (data : list (list cell)) (i : nat) (st : WorkerScan.t) (s : Store) :
  total (WorkerScan.stats (fst (worker_loop Date_parse now i data st s)))
  = total (WorkerScan.stats st) + List.length (worker_rows Date_parse now i data st).
Proof.
  revert i st s. induction data as [|row data IH]; intros i st s; simpl; [lia|].
  unfold worker_step.
  destruct (site_banner row) as [site|].
  { exact (IH (i + 1) (WorkerScan.set_site site st) s). }
  destruct (is_worker_header row).
  { exact (IH (i + 1) (WorkerScan.mk (WorkerScan.currentSite st) (Some i)
                         (WorkerScan.map_columns (rowStr_of row) 0 (WorkerScan.colMap st))
                         (WorkerScan.stats st)) s). }
  destruct (after_header _ _); [|apply IH].
  destruct (WorkerScan.prenom _) as [jp|]; [|apply IH].
  destruct (WorkerScan.nom _) as [jn|]; [|apply IH].
  destruct (_ || _); [apply IH|].
  destruct (inner_site row) as [site|].
  { exact (IH (i + 1) (WorkerScan.set_site site st) s). }
  destruct (upsert_worker _ s) as [o s'].
  rewrite IH, worker_rows_stats. cbn [WorkerScan.stats WorkerScan.set_stats].
  rewrite settle_total. simpl. lia.
Qed.

Lemma product_loop_total {Store : Type} `{!Models Store}
    (data : list (list cell)) (i : nat) (st : ProductScan.t) (s : Store) :
  total (ProductScan.stats (fst (product_loop i data st s)))
  = total (ProductScan.stats st) + List.length (product_rows i data st).
Proof.
  revert i st s. induction data as [|row data IH]; intros i st s; simpl; [lia|].
  unfold product_step.
  destruct (is_product_header row).
  { exact (IH (i + 1) (ProductScan.mk (Some i)
                         (ProductScan.map_columns (rowStr_of row) 0 (ProductScan.colMap st))
                         (ProductScan.stats st)) s). }
  destruct (after_header _ _); [|apply IH].
  destruct (ProductScan.nom _) as [jn|]; [|apply IH].
  destruct (negb _); [apply IH|].
  destruct (product_body _ _ _ s) as [o s'].
  rewrite IH, product_rows_stats. cbn [ProductScan.stats ProductScan.set_stats].
  rewrite settle_total. simpl. lia.
Qed.

(** X1: the [total] of an import is decided by the sheet alone.  Two runs
    of [importWorkersFromExcel] (or of [importProductsFromExcel]) on the
    same grid report the same total whatever the stores are and do, at
    whatever time, and the total never exceeds the number of rows. *)
Theorem total_depends_on_sheet_only
    (Store1 Store2 : Type) (M1 : Models Store1) (M2 : Models Store2)
    (Date_parse Date_parse' : string -> option Z) (now now' : nat -> Z)
    (data : list (list cell)) (s1 : Store1) (s2 : Store2) :
  (total (fst (importWorkersFromExcel Date_parse now data s1))
   = total (fst (importWorkersFromExcel Date_parse' now' data s2))
   /\ total (fst (importWorkersFromExcel Date_parse now data s1)) <= List.length data)
  /\ (total (fst (importProductsFromExcel data s1))
      = total (fst (importProductsFromExcel data s2))
      /\ total (fst (importProductsFromExcel data s1)) <= List.length data).
Proof.
  assert (Hw : forall (St : Type) (Mo : Models St) dp nw (s : St),
             total (fst (importWorkersFromExcel dp nw data s))
             = List.length (worker_rows dp nw 0 data WorkerScan.init)).
  { intros St Mo dp nw s. unfold importWorkersFromExcel.
    pose proof (worker_loop_total dp nw data 0 WorkerScan.init s) as H.
    destruct (worker_loop dp nw 0 data WorkerScan.init s) as [st s']. exact H. }
  assert (Hp : forall (St : Type) (Mo : Models St) (s : St),
             total (fst (importProductsFromExcel data s))
             = List.length (product_rows 0 data ProductScan.init)).
  { intros St Mo s. unfold importProductsFromExcel.
    pose proof (product_loop_total data 0 ProductScan.init s) as H.
    destruct (product_loop 0 data ProductScan.init s) as [st s']. exact H. }
  split; split.
  - rewrite !Hw. apply worker_rows_shape.
  - rewrite Hw. apply worker_rows_bound.
  - rewrite !Hp. reflexivity.
  - rewrite Hp. apply product_rows_bound.
Qed.

(** ** Column maps after a header *)

Lemma worker_assign_prenom_keep (c : string) (idx : nat) (m : WorkerScan.cols) :
  includes "PRENOM" c = false ->
  WorkerScan.prenom (WorkerScan.assign c idx m) = WorkerScan.prenom m.
Proof.
  intros H. unfold WorkerScan.assign. rewrite H.
  repeat match goal with |- context [if ?b then _ else _] => destruct b end; reflexivity.
Qed.

Lemma worker_assign_nom_keep (c : string) (idx : nat) (m : WorkerScan.cols) :
  c <> "NOMS" ->
  WorkerScan.nom (WorkerScan.assign c idx m) = WorkerScan.nom m.
Proof.
  intros H. unfold WorkerScan.assign.
  destruct (includes "PRENOM" c); [reflexivity|].
  destruct (String.eqb_spec c "NOMS") as [->|_]; [contradiction|].
  repeat match goal with |- context [if ?b then _ else _] => destruct b end; reflexivity.
Qed.

Lemma worker_columns_prenom_keep (l : list string) (idx : nat) (m : WorkerScan.cols) :
  Forall (fun c => includes "PRENOM" c = false) l ->
  WorkerScan.prenom (WorkerScan.map_columns l idx m) = WorkerScan.prenom m.
Proof.
  intros H. revert idx m. induction H as [|c l Hc _ IH]; intros idx m; simpl; [reflexivity|].
  rewrite IH. apply worker_assign_prenom_keep. exact Hc.
Qed.

Lemma worker_columns_nom_keep (l : list string) (idx : nat) (m : WorkerScan.cols) :
  Forall (fun c => c <> "NOMS") l ->
  WorkerScan.nom (WorkerScan.map_columns l idx m) = WorkerScan.nom m.
Proof.
  intros H. revert idx m. induction H as [|c l Hc _ IH]; intros idx m; simpl; [reflexivity|].
  rewrite IH. apply worker_assign_nom_keep. exact Hc.
Qed.

(** The first-name column is the last cell that contains [PRENOM]. *)
Lemma worker_columns_prenom_set (l : list string) (idx : nat) (m : WorkerScan.cols) :
  Exists (fun c => includes "PRENOM" c = true) l ->
  exists j c, WorkerScan.prenom (WorkerScan.map_columns l idx m) = Some (idx + j)
              /\ l !! j = Some c /\ includes "PRENOM" c = true.
Proof.
  revert idx m. induction l as [|c l IH]; intros idx m H; [inversion H|]. simpl.
  destruct (existsb (includes "PRENOM") l) eqn:Hex.
  - destruct (IH (S idx) (WorkerScan.assign c idx m)) as [j [c' [Hj [Hl Hc']]]].
    { apply Exists_exists. apply existsb_exists in Hex as [x [Hx Hi]].
      exists x. split; [apply list_elem_of_In; exact Hx | exact Hi]. }
    exists (S j), c'. split; [rewrite Hj; f_equal; lia|]. split; assumption.
  - assert (Hall : Forall (fun x => includes "PRENOM" x = false) l).
    { apply Forall_forall. intros x Hx.
      destruct (includes "PRENOM" x) eqn:Hi; [|reflexivity].
      assert (existsb (includes "PRENOM") l = true)
        by (apply existsb_exists; exists x; split; [apply list_elem_of_In; exact Hx | exact Hi]).
      congruence. }
    assert (Hc : includes "PRENOM" c = true).
    { inversion H as [? ? Hc|? ? Hl]; subst; [exact Hc|].
      exfalso. apply Exists_exists in Hl as [x [Hx Hi]].
      rewrite Forall_forall in Hall. rewrite (Hall x Hx) in Hi. discriminate. }
    exists 0, c. rewrite worker_columns_prenom_keep by exact Hall.
    split; [|split; [reflexivity | exact Hc]].
    unfold WorkerScan.assign. rewrite Hc. simpl. f_equal. lia.
Qed.

(** The surname column is the last cell that reads [NOMS]. *)
Lemma worker_columns_nom_set (l : list string) (idx : nat) (m : WorkerScan.cols) :
  In "NOMS" l ->
  exists j, WorkerScan.nom (WorkerScan.map_columns l idx m) = Some (idx + j)
            /\ l !! j = Some "NOMS".
Proof.
  revert idx m. induction l as [|c l IH]; intros idx m H; [destruct H|]. simpl.
  destruct (in_dec string_dec "NOMS" l) as [Hin|Hnot].
  - destruct (IH (S idx) (WorkerScan.assign c idx m) Hin) as [j [Hj Hl]].
    exists (S j). split; [rewrite Hj; f_equal; lia | exact Hl].
  - assert (Hall : Forall (fun x => x <> "NOMS") l).
    { apply Forall_forall. intros x Hx ->. apply Hnot. apply list_elem_of_In. exact Hx. }
    destruct H as [->|H]; [|contradiction].
    exists 0. rewrite worker_columns_nom_keep by exact Hall.
    split; [|reflexivity]. unfold WorkerScan.assign. simpl. f_equal. lia.
Qed.

Lemma rowStr_lookup (row : list cell) (j : nat) (c : string) :
  rowStr_of row !! j = Some c ->
  j < List.length row /\ toUpperCase (trim (String_ (at_ row j))) = c.
Proof.
  unfold rowStr_of, at_. intros H.
  rewrite list_lookup_fmap in H.
  destruct (row !! j) as [x|] eqn:Hx; [|discriminate].
  injection H as <-. split.
  - apply lookup_lt_Some in Hx. exact Hx.
  - f_equal. f_equal. f_equal. apply nth_lookup_Some with (d := CUndef) in Hx.
    exact Hx.
Qed.

Lemma worker_header_names (row : list cell) (m : WorkerScan.cols) :
  is_worker_header row = true ->
  exists jp jn,
    WorkerScan.prenom (WorkerScan.map_columns (rowStr_of row) 0 m) = Some jp
    /\ WorkerScan.nom (WorkerScan.map_columns (rowStr_of row) 0 m) = Some jn
    /\ jp <> jn /\ jp < List.length row /\ jn < List.length row
    /\ includes "PRENOM" (toUpperCase (trim (String_ (at_ row jp)))) = true
    /\ toUpperCase (trim (String_ (at_ row jn))) = "NOMS".
Proof.
  unfold is_worker_header, arr_includes. intros H.
  apply andb_true_iff in H as [Hp Hn].
  apply existsb_exists in Hp as [x [Hx Hxe]]. apply String.eqb_eq in Hxe. subst x.
  apply existsb_exists in Hn as [y [Hy Hye]]. apply String.eqb_eq in Hye. subst y.
  destruct (worker_columns_prenom_set (rowStr_of row) 0 m) as [jp [c [Hjp [Hl Hc]]]].
  { apply Exists_exists. exists "PRENOMS". split; [apply list_elem_of_In; exact Hx | reflexivity]. }
  destruct (worker_columns_nom_set (rowStr_of row) 0 m Hy) as [jn [Hjn Hln]].
  simpl in Hjp, Hjn.
  destruct (rowStr_lookup row jp c Hl) as [Hlt Hce].
  destruct (rowStr_lookup row jn "NOMS" Hln) as [Hlt' Hne].
  exists jp, jn. repeat split; try assumption.
  - intros ->. rewrite Hl in Hln. injection Hln as ->. discriminate Hc.
  - rewrite Hce. exact Hc.
Qed.

Lemma header_is_no_banner (row : list cell) :
  is_worker_header row = true -> site_banner row = None.
Proof.
  unfold is_worker_header, site_banner. intros H.
  apply andb_true_iff in H as [Hp _]. rewrite Hp.
  destruct (nonEmptyCells_of row) as [|c [|c' l]]; try reflexivity.
  rewrite andb_false_r. reflexivity.
Qed.

Lemma worker_step_names_known {Store : Type} `{!Models Store}
    (Date_parse : string -> option Z) (now : nat -> Z)
    (i : nat) (row : list cell) (st : WorkerScan.t) (s : Store) :
  WorkerScan.headerRowIndex st = None \/ names_known (WorkerScan.colMap st) ->
  WorkerScan.headerRowIndex (fst (worker_step Date_parse now i row st s)) = None
  \/ names_known (WorkerScan.colMap (fst (worker_step Date_parse now i row st s))).
Proof.
  intros Hinv. unfold worker_step.
  destruct (site_banner row) as [site|]; [exact Hinv|].
  destruct (is_worker_header row) eqn:Hh.
  { right. simpl.
    destruct (worker_header_names row (WorkerScan.colMap st) Hh)
      as [jp [jn [Hp [Hn [Hne _]]]]].
    exists jp, jn. repeat split; assumption. }
  destruct (after_header _ _); [|exact Hinv].
  destruct (WorkerScan.prenom _) as [jp|] eqn:Hp; [|exact Hinv].
  destruct (WorkerScan.nom _) as [jn|] eqn:Hn; [|exact Hinv].
  destruct (_ || _); [exact Hinv|].
  destruct (inner_site row) as [site|]; [exact Hinv|].
  destruct (upsert_worker _ s) as [o s']. exact Hinv.
Qed.

(** X2: a row recognized as the worker header fixes the first-name and the
    surname column: both indices are set, lie inside the row, differ, and
    point at the cells that read [PRENOM...] and [NOMS].  So whenever
    [headerRowIndex] is set the two columns are known, in every state the
    loop reaches: once a header was seen, the test
    [colMap.prenom === -1 || colMap.nom === -1] never skips a row. *)
Theorem header_fixes_name_columns {Store : Type} `{!Models Store}
    (Date_parse : string -> option Z) (now : nat -> Z) :
  (forall (i : nat) (row : list cell) (st : WorkerScan.t) (s : Store),
      is_worker_header row = true ->
      snd (worker_step Date_parse now i row st s) = s
      /\ WorkerScan.headerRowIndex (fst (worker_step Date_parse now i row st s)) = Some i
      /\ exists jp jn,
           WorkerScan.prenom (WorkerScan.colMap (fst (worker_step Date_parse now i row st s)))
           = Some jp
           /\ WorkerScan.nom (WorkerScan.colMap (fst (worker_step Date_parse now i row st s)))
              = Some jn
           /\ jp <> jn /\ jp < List.length row /\ jn < List.length row
           /\ includes "PRENOM" (toUpperCase (trim (String_ (at_ row jp)))) = true
           /\ toUpperCase (trim (String_ (at_ row jn))) = "NOMS")
  /\ (forall (data : list (list cell)) (s : Store),
        let st := fst (worker_loop Date_parse now 0 data WorkerScan.init s) in
        WorkerScan.headerRowIndex st = None \/ names_known (WorkerScan.colMap st)).
Proof.
  split.
  - intros i row st s Hh. unfold worker_step.
    rewrite (header_is_no_banner row Hh), Hh. simpl.
    split; [reflexivity|]. split; [reflexivity|].
    apply worker_header_names. exact Hh.
  - intros data s.
    assert (Hgen : forall data i st s,
               WorkerScan.headerRowIndex st = None \/ names_known (WorkerScan.colMap st) ->
               WorkerScan.headerRowIndex (fst (worker_loop Date_parse now i data st s)) = None
               \/ names_known
                    (WorkerScan.colMap (fst (worker_loop Date_parse now i data st s)))).
    { clear data s. induction data as [|row data IH]; intros i st s Hinv; simpl; [exact Hinv|].
      pose proof (worker_step_names_known Date_parse now i row st s Hinv) as Hstep.
      destruct (worker_step Date_parse now i row st s) as [st1 s1]. apply IH. exact Hstep. }
    apply Hgen. left. reflexivity.
Qed.

Lemma header_fixes_name_columns_witness :
  WorkerScan.headerRowIndex
    (fst (worker_step iso_Date_parse (fun _ => 0%Z) 3
            [CStr "N"; CStr " Prenoms "; CStr "noms"; CStr "Salaire"] WorkerScan.init
            RefStore.empty))
  = Some 3.
Proof.
  apply (proj1 (header_fixes_name_columns (Store := RefStore.Tables)
                  iso_Date_parse (fun _ => 0%Z)) 3
           [CStr "N"; CStr " Prenoms "; CStr "noms"; CStr "Salaire"] WorkerScan.init
           RefStore.empty eq_refl).
Defined.

Lemma product_assign_nom_keep (c : string) (idx : nat) (m : ProductScan.cols) :
  includes "CODE" c = true \/ includes "NOM" c = false ->
  ProductScan.nom (ProductScan.assign c idx m) = ProductScan.nom m.
Proof.
  intros H. unfold ProductScan.assign.
  destruct (includes "CODE" c); [reflexivity|].
  destruct H as [H|H]; [discriminate|]. rewrite H.
  repeat match goal with |- context [if ?b then _ else _] => destruct b end; reflexivity.
Qed.

Lemma product_columns_nom_keep (l : list string) (idx : nat) (m : ProductScan.cols) :
  Forall (fun c => includes "CODE" c = true \/ includes "NOM" c = false) l ->
  ProductScan.nom (ProductScan.map_columns l idx m) = ProductScan.nom m.
Proof.
  intros H. revert idx m. induction H as [|c l Hc _ IH]; intros idx m; simpl; [reflexivity|].
  rewrite IH. apply product_assign_nom_keep. exact Hc.
Qed.

Lemma product_loop_without_name {Store : Type} `{!Models Store}
    (data : list (list cell)) (i : nat) (st : ProductScan.t) (s : Store) :
  ProductScan.nom (ProductScan.colMap st) = None ->
  (forall row, In row data -> is_product_header row = true ->
     Forall (fun c => includes "CODE" c = true \/ includes "NOM" c = false) (rowStr_of row)) ->
  snd (product_loop i data st s) = s
  /\ ProductScan.stats (fst (product_loop i data st s)) = ProductScan.stats st.
Proof.
  revert i st. induction data as [|row data IH]; intros i st Hn Hall; simpl;
    [split; reflexivity|].
  unfold product_step.
  destruct (is_product_header row) eqn:Hh.
  - apply (IH (i + 1) (ProductScan.mk (Some i)
                         (ProductScan.map_columns (rowStr_of row) 0 (ProductScan.colMap st))
                         (ProductScan.stats st))).
    + simpl. rewrite product_columns_nom_keep; [exact Hn|].
      apply Hall; [left; reflexivity | exact Hh].
    + intros r Hr. apply Hall. right. exact Hr.
  - rewrite Hn.
    destruct (after_header _ _); apply IH; try assumption;
      intros r Hr; apply Hall; right; exact Hr.
Qed.

(** X3: a product sheet whose header rows have no name column imports
    nothing.  When in every row recognized as header each cell either
    contains [CODE] or does not contain [NOM] (so that the header was
    recognized through [CODE] and a [CAT] cell), the name column stays
    unknown, every row is skipped, the statistics are all zero and the
    store is untouched, whatever the store does. *)
Theorem product_sheet_without_name_column {Store : Type} `{!Models Store}
    (data : list (list cell)) (s : Store) :
  (forall row, In row data -> is_product_header row = true ->
     Forall (fun c => includes "CODE" c = true \/ includes "NOM" c = false) (rowStr_of row)) ->
  importProductsFromExcel data s = (mkStats 0 0 0 [], s).
Proof.
  intros Hall. unfold importProductsFromExcel.
  destruct (product_loop_without_name data 0 ProductScan.init s eq_refl Hall) as [Hs Hst].
  destruct (product_loop 0 data ProductScan.init s) as [st s']. simpl in *.
  rewrite Hs, Hst. reflexivity.
Qed.

Lemma product_sheet_without_name_column_witness :
  importProductsFromExcel
    [[CStr "Code"; CStr "Categorie"]; [CStr "C1"; CStr "Savons"]] RefStore.empty
  = (mkStats 0 0 0 [], RefStore.empty).
Proof.
  apply product_sheet_without_name_column.
  intros row [<-|[<-|[]]] Hh.
  - constructor; [left; reflexivity|]. constructor; [right; reflexivity | constructor].
  - vm_compute in Hh. discriminate Hh.
Defined.

(** ** The header and site tests of the controller *)

Lemma prefix_cons_inv (a : ascii) (n s : string) :
  String.prefix (String a n) s = true ->
  exists t, s = String a t /\ String.prefix n t = true.
Proof.
  destruct s as [|b t]; [discriminate|]. cbn [String.prefix].
  destruct (ascii_dec a b) as [->|_]; [|discriminate]. eauto.
Qed.

Lemma includes_prefix (n s : string) : String.prefix n s = true -> includes n s = true.
Proof.
  intros H. destruct s; cbn [includes]; rewrite H; reflexivity.
Qed.

Lemma includes_cons (n : string) (a : ascii) (s : string) :
  includes n s = true -> includes n (String a s) = true.
Proof.
  intros H. cbn [includes]. rewrite H. apply orb_true_r.
Qed.

Lemma includes_PRENOMS_NOMS (s : string) :
  includes "PRENOMS" s = true -> includes "NOMS" s = true.
Proof.
  induction s as [|c s IH]; [discriminate|].
  intros H. cbn [includes] in H. apply orb_true_iff in H as [H|H].
  - apply prefix_cons_inv in H as [t1 [E1 H]]. rewrite E1.
    apply prefix_cons_inv in H as [t2 [-> H]].
    apply prefix_cons_inv in H as [t3 [-> H]].
    do 3 apply includes_cons. apply includes_prefix. exact H.
  - apply includes_cons. apply IH. exact H.
Qed.

(** X4: in the controller a row is a header as soon as its JSON text
    contains [PRENOMS]: the text then contains [NOMS] as well, so the second
    half of the test never decides.  A row that mentions first names but
    has no surname column is still taken as header. *)
Theorem controller_header_is_prenoms_test (row : list cell) :
  is_controller_header row = includes "PRENOMS" (toUpperCase (Json.stringify row)).
Proof.
  unfold is_controller_header.
  destruct (includes "PRENOMS" (toUpperCase (Json.stringify row))) eqn:H; [|reflexivity].
  rewrite (includes_PRENOMS_NOMS _ H). reflexivity.
Qed.

Lemma controller_accounted_weaken (hi hi' : nat) (st : ControllerScan.t) :
  hi <= hi' -> controller_accounted hi st -> controller_accounted hi' st.
Proof.
  intros Hle [Hsum Herr]. split; [lia|].
  eapply Forall_impl; [exact Herr|].
  intros e [i [Hi Hp]]. exists i. split; [lia | exact Hp].
Qed.

Lemma controller_line_prefix (i : nat) (msg : string) :
  String.prefix ("Erreur ligne " ++ string_of_nat (i + 1) ++ ": ")
    ("Erreur ligne " ++ string_of_nat (i + 1) ++ ": " ++ msg) = true.
Proof.
  replace ("Erreur ligne " ++ string_of_nat (i + 1) ++ ": " ++ msg)%string
    with (("Erreur ligne " ++ string_of_nat (i + 1) ++ ": ") ++ msg)%string.
  - apply prefix_append.
  - rewrite !append_assoc. reflexivity.
Qed.

Lemma controller_step_accounted {Store : Type} `{!Models Store}
    (Date_parse : string -> option Z) (now : nat -> Z) (user_id : Z)
    (i : nat) (row : list cell) (st : ControllerScan.t) (s : Store) :
  controller_accounted i st ->
  controller_accounted (i + 1) (fst (controller_step Date_parse now user_id i row st s)).
Proof.
  intros Hacc.
  assert (Hweak : controller_accounted (i + 1) st)
    by (eapply controller_accounted_weaken; [|exact Hacc]; lia).
  destruct Hweak as [Hsum Herr].
  unfold controller_step.
  destruct row as [|c row]; [split; assumption|].
  destruct (rowContent_of (c :: row) =? 0); [split; assumption|].
  destruct (is_controller_header (c :: row)); [split; assumption|].
  destruct (controller_site _ _); [split; assumption|].
  destruct (_ || _); [split; assumption|].
  destruct (controller_upsert _ s) as [[u|msg] s']; split; simpl.
  - destruct Hacc as [Hs _]. lia.
  - exact Herr.
  - destruct Hacc as [Hs _]. rewrite List.length_app. simpl. lia.
  - apply Forall_app. split; [exact Herr|]. constructor; [|constructor].
    exists i. split; [lia | apply controller_line_prefix].
Qed.

Lemma controller_loop_accounted {Store : Type} `{!Models Store}
    (Date_parse : string -> option Z) (now : nat -> Z) (user_id : Z)
    (rows : list (list cell)) (i : nat) (st : ControllerScan.t) (s : Store) :
  controller_accounted i st ->
  controller_accounted (i + List.length rows)
    (fst (controller_loop Date_parse now user_id i rows st s)).
Proof.
  revert i st s. induction rows as [|row rows IH]; intros i st s Hacc.
  - simpl. rewrite Nat.add_0_r. exact Hacc.
  - cbn [controller_loop].
    pose proof (controller_step_accounted Date_parse now user_id i row st s Hacc) as Hstep.
    destruct (controller_step Date_parse now user_id i row st s) as [st1 s1].
    replace (i + List.length (row :: rows)) with (i + 1 + List.length rows) by (simpl; lia).
    apply IH. exact Hstep.
Qed.

(** X5: the response of the controller's [importWorkers] accounts for its
    rows, whatever the store does: the count of imported workers plus the
    number of error strings is at most the number of rows, and every error
    string starts with [Erreur ligne N: ] for the 1-based index [N] of a
    row of the sheet. *)
Theorem controller_stats_are_accounted {Store : Type} `{!Models Store}
    (Date_parse : string -> option Z) (now : nat -> Z) (user_id : Z)
    (rows : list (list cell)) (s : Store) :
  let response := fst (importWorkers Date_parse now user_id rows s) in
  fst response + List.length (snd response) <= List.length rows
  /\ Forall (fun e => exists i, i < List.length rows
               /\ String.prefix ("Erreur ligne " ++ string_of_nat (i + 1) ++ ": ") e = true)
       (snd response).
Proof.
  assert (H0 : controller_accounted 0 ControllerScan.init)
    by (split; [simpl; lia | constructor]).
  pose proof (controller_loop_accounted Date_parse now user_id rows 0 ControllerScan.init s H0)
    as [Hsum Herr].
  unfold importWorkers.
  destruct (controller_loop Date_parse now user_id 0 rows ControllerScan.init s) as [st s'].
  simpl in *. split; assumption.
Qed.

Lemma potentialName_counts (row : list cell) (n : string) :
  potentialName_of row = Some n -> row <> [] /\ rowContent_of row <> 0.
Proof.
  unfold potentialName_of, rowContent_of. intros H.
  destruct (List.find _ row) as [x|] eqn:Hf; [|discriminate].
  apply find_some in Hf as [Hin Hx].
  split; [intros ->; destruct Hin|].
  assert (Hin' : In x (List.filter
                         (fun c => match c with
                                   | CUndef => false
                                   | CStr s => negb (String.eqb s "")
                                   | _ => true
                                   end) row)).
  { apply filter_In. split; [exact Hin|].
    destruct x as [s| | |]; try discriminate.
    destruct s; [discriminate Hx | reflexivity]. }
  destruct (List.filter _ row); [destruct Hin' | simpl; lia].
Qed.

(** X6: the controller takes a sparse row for a site.  A row with at most
    two filled cells whose JSON text does not contain [NOMS], and in which
    some text cell is longer than two characters and is not one of the
    reserved words, only switches the current site: nothing is looked up,
    created, updated, counted or reported, even when the two filled cells
    are a first name and a surname. *)
Theorem controller_sparse_row_is_site {Store : Type} `{!Models Store}
    (Date_parse : string -> option Z) (now : nat -> Z) (user_id : Z)
    (i : nat) (row : list cell) (st : ControllerScan.t) (s : Store) (n : string) :
  rowContent_of row <= 2 ->
  includes "NOMS" (toUpperCase (Json.stringify row)) = false ->
  potentialName_of row = Some n ->
  arr_includes (toUpperCase n) ["PRENOMS"; "NOMS"; "SALAIRES"] = false ->
  exists site,
    controller_step Date_parse now user_id i row st s
    = (ControllerScan.mk site (ControllerScan.successCount st)
         (ControllerScan.errors st) (ControllerScan.colMap st), s)
    /\ (includes "LES TECHNICIENS DE SURFACE DE" (toUpperCase (trim n)) = false ->
        site = trim n).
Proof.
  intros Hc Hn Hp Hr.
  destruct (potentialName_counts row n Hp) as [Hne Hc0].
  assert (Hh : is_controller_header row = false).
  { rewrite controller_header_is_prenoms_test.
    destruct (includes "PRENOMS" _) eqn:E; [|reflexivity].
    rewrite (includes_PRENOMS_NOMS _ E) in Hn. discriminate. }
  assert (Hpr : includes "PRENOMS" (toUpperCase (Json.stringify row)) = false)
    by (rewrite <- controller_header_is_prenoms_test; exact Hh).
  unfold controller_step.
  destruct row as [|c row]; [contradiction|].
  destruct (Nat.eqb_spec (rowContent_of (c :: row)) 0) as [E|_]; [contradiction|].
  rewrite Hh. unfold controller_site.
  apply Nat.leb_le in Hc. rewrite Hc, Hpr, Hn, Hp, Hr. simpl.
  destruct (includes "LES TECHNICIENS DE SURFACE DE" (toUpperCase (trim n))) eqn:E.
  - eexists. split; [reflexivity | discriminate].
  - eexists. split; [reflexivity | reflexivity].
Qed.

Lemma controller_sparse_row_is_site_witness :
  controller_step iso_Date_parse (fun _ => 0%Z) 1%Z 4
    [CUndef; CStr "Awa"; CStr "Diop"] ControllerScan.init RefStore.empty
  = (ControllerScan.mk "Awa" 0 [] (ControllerScan.colMap ControllerScan.init), RefStore.empty).
Proof.
  destruct (controller_sparse_row_is_site iso_Date_parse (fun _ => 0%Z) 1%Z 4
              [CUndef; CStr "Awa"; CStr "Diop"] ControllerScan.init RefStore.empty "Awa")
    as [site [Hstep Hsite]].
  - vm_compute. lia.
  - reflexivity.
  - reflexivity.
  - reflexivity.
  - rewrite Hstep, (Hsite eq_refl). reflexivity.
Defined.

(** ** What the service imports leave alone *)

Lemma same_identity_refl (w : Worker.data) : same_identity w w.
Proof. repeat split. Qed.

Lemma same_identity_trans (w1 w2 w3 : Worker.data) :
  same_identity w1 w2 -> same_identity w2 w3 -> same_identity w1 w3.
Proof.
  unfold same_identity. intros H1 H2.
  destruct H1 as (?&?&?&?&?&?&?&?). destruct H2 as (?&?&?&?&?&?&?&?).
  repeat split; congruence.
Qed.

Lemma or_zero_not_NaN (x : num) : or_zero x <> NaN.
Proof.
  unfold or_zero. destruct x as [|neg|q]; simpl; try discriminate.
  destruct (negb _); discriminate.
Qed.

(** One upsert of the worker import on the reference store. *)
Lemma ref_upsert_worker_frame (d : Worker.data) (s : RefStore.Tables) :
  Worker.salaire_base d <> NaN ->
  RefStore.products (snd (ref_upsert_worker d s)) = RefStore.products s
  /\ RefStore.categories (snd (ref_upsert_worker d s)) = RefStore.categories s
  /\ List.length (RefStore.workers (snd (ref_upsert_worker d s)))
     = List.length (RefStore.workers s)
       + match fst (ref_upsert_worker d s) with Created => 1 | Updated => 0 end
  /\ (forall k w, RefStore.workers s !! k = Some w ->
        exists w', RefStore.workers (snd (ref_upsert_worker d s)) !! k = Some w'
                   /\ same_identity w w'
                   /\ (num_pos (Worker.salaire_base w) = true ->
                       num_pos (Worker.salaire_base w') = true)
                   /\ (Worker.salaire_base w <> NaN -> Worker.salaire_base w' <> NaN))
  /\ (Forall (fun w => Worker.salaire_base w <> NaN) (RefStore.workers s) ->
      Forall (fun w => Worker.salaire_base w <> NaN)
        (RefStore.workers (snd (ref_upsert_worker d s)))).
Proof.
  intros Hd. unfold ref_upsert_worker.
  destruct (ref_find_worker d s) as [[j old]|] eqn:Hf; simpl.
  - pose proof (ref_find_worker_lookup d s j old Hf) as Hold.
    assert (Hk : forall k w, RefStore.workers s !! k = Some w ->
              exists w',
                alter (RefStore.apply_changes (Worker.Patch (worker_patch d old))) j
                  (RefStore.workers s) !! k = Some w'
                /\ same_identity w w'
                /\ (num_pos (Worker.salaire_base w) = true ->
                    num_pos (Worker.salaire_base w') = true)
                /\ (Worker.salaire_base w <> NaN -> Worker.salaire_base w' <> NaN)).
    { intros k w Hk. destruct (decide (j = k)) as [->|Hne].
      - rewrite Hk in Hold. injection Hold as <-.
        exists (RefStore.apply_changes (Worker.Patch (worker_patch d w)) w).
        split; [rewrite list_lookup_alter_eq, Hk; reflexivity|].
        split; [repeat split|]. simpl.
        destruct (num_pos (Worker.salaire_base d)) eqn:Hp; split; auto.
      - exists w. split; [rewrite list_lookup_alter_ne; assumption|].
        split; [apply same_identity_refl | auto]. }
    split; [reflexivity|]. split; [reflexivity|].
    split; [rewrite length_alter; lia|]. split; [exact Hk|].
    intros Hall. apply Forall_lookup. intros k w' Hw'.
    destruct (RefStore.workers s !! k) as [w|] eqn:Hw.
    + destruct (Hk k w Hw) as [w'' [Hl [_ [_ Hn]]]].
      rewrite Hl in Hw'. injection Hw' as <-. apply Hn.
      rewrite Forall_lookup in Hall. exact (Hall k w Hw).
    + apply lookup_ge_None in Hw. apply lookup_lt_Some in Hw'.
      rewrite length_alter in Hw'. lia.
  - split; [reflexivity|]. split; [reflexivity|].
    split; [rewrite List.length_app; simpl; lia|]. split.
    + intros k w Hk. exists w.
      split; [apply lookup_app_l_Some; exact Hk|].
      split; [apply same_identity_refl | auto].
    + intros Hall. apply Forall_app. split; [exact Hall|]. constructor; [exact Hd | constructor].
Qed.

Lemma worker_rows_salary (Date_parse : string -> option Z) (now : nat -> Z)
    (data : list (list cell)) (i : nat) (st : WorkerScan.t) :
  Forall (fun d => Worker.salaire_base d <> NaN) (worker_rows Date_parse now i data st).
Proof.
  revert i st. induction data as [|row data IH]; intros i st; simpl; [constructor|].
  destruct (site_banner row) as [site|]; [apply IH|].
  destruct (is_worker_header row); [apply IH|].
  destruct (after_header _ _); [|apply IH].
  destruct (WorkerScan.prenom _) as [jp|]; [|apply IH].
  destruct (WorkerScan.nom _) as [jn|]; [|apply IH].
  destruct (_ || _); [apply IH|].
  destruct (inner_site row) as [site|]; [apply IH|].
  constructor; [|apply IH].
  simpl. unfold salary_of. destruct (present _ row); [apply or_zero_not_NaN | discriminate].
Qed.

Lemma fold_ref_worker_frame (rows : list Worker.data) (acc : Stats * RefStore.Tables) :
  Forall (fun d => Worker.salaire_base d <> NaN) rows ->
  let r := fold_left ref_worker rows acc in
  RefStore.products (snd r) = RefStore.products (snd acc)
  /\ RefStore.categories (snd r) = RefStore.categories (snd acc)
  /\ List.length (RefStore.workers (snd r)) + created (fst acc)
     = List.length (RefStore.workers (snd acc)) + created (fst r)
  /\ (forall k w, RefStore.workers (snd acc) !! k = Some w ->
        exists w', RefStore.workers (snd r) !! k = Some w'
                   /\ same_identity w w'
                   /\ (num_pos (Worker.salaire_base w) = true ->
                       num_pos (Worker.salaire_base w') = true))
  /\ (Forall (fun w => Worker.salaire_base w <> NaN) (RefStore.workers (snd acc)) ->
      Forall (fun w => Worker.salaire_base w <> NaN) (RefStore.workers (snd r))).
Proof.
  intros Hrows. revert acc. induction Hrows as [|d rows Hd _ IH]; intros acc; cbn zeta.
  - simpl. repeat split; try lia; auto.
    intros k w Hk. exists w. split; [exact Hk|]. split; [apply same_identity_refl | auto].
  - cbn [fold_left].
    destruct (IH (ref_worker acc d)) as (Hp & Hc & Hl & Hk & Hn).
    destruct (ref_upsert_worker_frame d (snd acc) Hd) as (Hp1 & Hc1 & Hl1 & Hk1 & Hn1).
    assert (Hs : snd (ref_worker acc d) = snd (ref_upsert_worker d (snd acc))
                 /\ created (fst (ref_worker acc d))
                    = created (fst acc)
                      + match fst (ref_upsert_worker d (snd acc)) with
                        | Created => 1 | Updated => 0 end).
    { unfold ref_worker. destruct (ref_upsert_worker d (snd acc)) as [u s']. simpl.
      split; [reflexivity|]. destruct u; simpl; lia. }
    destruct Hs as [Hs Hcr]. rewrite Hs in *.
    split; [congruence|]. split; [congruence|]. split; [lia|]. split.
    + intros k w Hw. destruct (Hk1 k w Hw) as [w1 [Hw1 [Hi1 [Hpos1 _]]]].
      destruct (Hk k w1 Hw1) as [w2 [Hw2 [Hi2 Hpos2]]].
      exists w2. split; [exact Hw2|].
      split; [eapply same_identity_trans; eassumption | auto].
    + intros Hall. apply Hn. apply Hn1. exact Hall.
Qed.

(** X7: against the reference store, [importWorkersFromExcel] leaves the
    product and category tables as they are, adds exactly [created] worker
    records, removes none, and never changes first name, surname, national
    ID, position, status, e-mail, hiring date or creator of a record that
    was there before. *)
Theorem worker_import_frame (Date_parse : string -> option Z) (now : nat -> Z)
    (data : list (list cell)) (s : RefStore.Tables) :
  let r := importWorkersFromExcel Date_parse now data s in
  RefStore.products (snd r) = RefStore.products s
  /\ RefStore.categories (snd r) = RefStore.categories s
  /\ List.length (RefStore.workers (snd r))
     = List.length (RefStore.workers s) + created (fst r)
  /\ (forall k w, RefStore.workers s !! k = Some w ->
        exists w', RefStore.workers (snd r) !! k = Some w' /\ same_identity w w').
Proof.
  cbn zeta. rewrite importWorkers_fold.
  destruct (fold_ref_worker_frame (worker_rows Date_parse now 0 data WorkerScan.init)
              (mkStats 0 0 0 [], s) (worker_rows_salary _ _ _ _ _))
    as (Hp & Hc & Hl & Hk & _).
  simpl in *. split; [exact Hp|]. split; [exact Hc|]. split; [lia|].
  intros k w Hw. destruct (Hk k w Hw) as [w' [Hw' [Hi _]]]. eauto.
Qed.

Lemma worker_import_frame_witness :
  let stored := Worker.mk "Awa" "Diop" "Gardien" "DAKAR" "SUSPENDU"
                  (ValidDate 0) None (Some "awa@example.org") (Some "A1") None None
                  (Fin (3500 # 1)) (Some 2%Z) in
  let data := [[CStr "PRENOMS"; CStr "NOMS"; CStr "N.I"; CStr "ADRESSE"];
               [CStr "Awa Marie"; CStr "Diop"; CStr "A1"; CStr "Thies"]] in
  exists w', RefStore.workers
               (snd (importWorkersFromExcel iso_Date_parse (fun _ => 0%Z) data
                       (RefStore.mk [stored] [] []))) !! 0 = Some w'
             /\ same_identity stored w'.
Proof.
  intros stored data.
  apply (proj2 (proj2 (proj2 (worker_import_frame iso_Date_parse (fun _ => 0%Z) data
                                (RefStore.mk [stored] [] [])))) 0 stored).
  reflexivity.
Defined.

(** X8: against the reference store, [importWorkersFromExcel] never stores
    [NaN] as a base salary when none was stored before, and a record whose
    base salary was positive still has a positive base salary afterwards:
    a blank, zero or unreadable salary cell does not erase it. *)
Theorem worker_import_keeps_salaries (Date_parse : string -> option Z) (now : nat -> Z)
    (data : list (list cell)) (s : RefStore.Tables) :
  let s' := snd (importWorkersFromExcel Date_parse now data s) in
  (Forall (fun w => Worker.salaire_base w <> NaN) (RefStore.workers s) ->
   Forall (fun w => Worker.salaire_base w <> NaN) (RefStore.workers s'))
  /\ (forall k w, RefStore.workers s !! k = Some w ->
        num_pos (Worker.salaire_base w) = true ->
        exists w', RefStore.workers s' !! k = Some w'
                   /\ num_pos (Worker.salaire_base w') = true).
Proof.
  cbn zeta. rewrite importWorkers_fold.
  destruct (fold_ref_worker_frame (worker_rows Date_parse now 0 data WorkerScan.init)
              (mkStats 0 0 0 [], s) (worker_rows_salary _ _ _ _ _))
    as (_ & _ & _ & Hk & Hn).
  simpl in *. split; [exact Hn|].
  intros k w Hw Hpos. destruct (Hk k w Hw) as [w' [Hw' [_ Hp]]]. eauto.
Qed.

Lemma worker_import_keeps_salaries_witness :
  let stored := Worker.mk "Awa" "Diop" "Technicien de surface" "DAKAR" "ACTIF"
                  (ValidDate 0) None None (Some "A1") None None (Fin (3500 # 1)) None in
  let data := [[CStr "PRENOMS"; CStr "NOMS"; CStr "N.I"; CStr "SALAIRE"];
               [CStr "Awa"; CStr "Diop"; CStr "A1"; CStr "n/a"]] in
  exists w', RefStore.workers
               (snd (importWorkersFromExcel iso_Date_parse (fun _ => 0%Z) data
                       (RefStore.mk [stored] [] []))) !! 0 = Some w'
             /\ num_pos (Worker.salaire_base w') = true.
Proof.
  intros stored data.
  apply (proj2 (worker_import_keeps_salaries iso_Date_parse (fun _ => 0%Z) data
                  (RefStore.mk [stored] [] [])) 0 stored); reflexivity.
Defined.

Lemma ref_resolve_category_frame (colMap : ProductScan.cols) (row : list cell)
    (d : Product.data) (s : RefStore.Tables) :
  RefStore.workers (snd (ref_resolve_category colMap row d s)) = RefStore.workers s
  /\ exists added,
       RefStore.categories (snd (ref_resolve_category colMap row d s))
       = (RefStore.categories s ++ added)%list
       /\ Forall (fun c => Category.description c = "Importé via Excel") added
       /\ (NoDup (map Category.nom (RefStore.categories s)) ->
           NoDup (map Category.nom (RefStore.categories s ++ added))).
Proof.
  unfold ref_resolve_category.
  destruct (present _ row) as [c|].
  - destruct (RefStore.find_where _ _) as [[k old]|] eqn:Hf; simpl.
    + split; [reflexivity|]. exists []. rewrite app_nil_r. repeat split; auto.
    + split; [reflexivity|]. eexists. split; [reflexivity|].
      split; [repeat constructor|].
      intros Hnd. rewrite map_app. apply NoDup_app. split; [exact Hnd|].
      split; [|apply NoDup_singleton].
      intros x Hx Hx'. simpl in Hx'. apply list_elem_of_singleton in Hx'. subst x.
      apply list_elem_of_fmap in Hx as [y [Hy Hin]].
      apply list_find_None in Hf. rewrite Forall_forall in Hf.
      apply (Hf y Hin). apply String.eqb_eq. symmetry. exact Hy.
  - simpl. split; [reflexivity|]. exists []. rewrite app_nil_r. repeat split; auto.
Qed.

Lemma ref_upsert_product_frame (d : Product.data) (s : RefStore.Tables) :
  RefStore.workers (snd (ref_upsert_product d s)) = RefStore.workers s
  /\ RefStore.categories (snd (ref_upsert_product d s)) = RefStore.categories s
  /\ List.length (RefStore.products (snd (ref_upsert_product d s)))
     = List.length (RefStore.products s)
       + match fst (ref_upsert_product d s) with Created => 1 | Updated => 0 end.
Proof.
  unfold ref_upsert_product.
  destruct (ref_find_product d s) as [[j old]|]; simpl.
  - repeat split. rewrite length_alter. lia.
  - repeat split. rewrite List.length_app. simpl. lia.
Qed.

Lemma ref_product_frame (acc : Stats * RefStore.Tables)
    (r : ProductScan.cols * list cell * cell) :
  RefStore.workers (snd (ref_product acc r)) = RefStore.workers (snd acc)
  /\ List.length (RefStore.products (snd (ref_product acc r))) + created (fst acc)
     = List.length (RefStore.products (snd acc)) + created (fst (ref_product acc r))
  /\ exists added,
       RefStore.categories (snd (ref_product acc r))
       = (RefStore.categories (snd acc) ++ added)%list
       /\ Forall (fun c => Category.description c = "Importé via Excel") added
       /\ (NoDup (map Category.nom (RefStore.categories (snd acc))) ->
           NoDup (map Category.nom (RefStore.categories (snd acc) ++ added))).
Proof.
  destruct r as [[cols row] nom]. unfold ref_product.
  destruct (ref_resolve_category_frame cols row (productData_of cols row nom) (snd acc))
    as [Hw [added [Hc [Hd Hnd]]]].
  destruct (ref_resolve_category_same cols row (productData_of cols row nom) (snd acc))
    as [Hp _].
  destruct (ref_resolve_category _ _ _ _) as [d s1]. simpl in *.
  destruct (ref_upsert_product_frame d s1) as [Hw2 [Hc2 Hl2]].
  destruct (ref_upsert_product d s1) as [u s2]. simpl in *.
  split; [congruence|]. split.
  - rewrite Hl2, Hp. destruct u; simpl; lia.
  - exists added. split; [congruence|]. split; assumption.
Qed.

Lemma fold_ref_product_frame (rows : list (ProductScan.cols * list cell * cell))
    (acc : Stats * RefStore.Tables) :
  let r := fold_left ref_product rows acc in
  RefStore.workers (snd r) = RefStore.workers (snd acc)
  /\ List.length (RefStore.products (snd r)) + created (fst acc)
     = List.length (RefStore.products (snd acc)) + created (fst r)
  /\ exists added,
       RefStore.categories (snd r) = (RefStore.categories (snd acc) ++ added)%list
       /\ Forall (fun c => Category.description c = "Importé via Excel") added
       /\ (NoDup (map Category.nom (RefStore.categories (snd acc))) ->
           NoDup (map Category.nom (RefStore.categories (snd acc) ++ added))).
Proof.
  revert acc. induction rows as [|r rows IH]; intros acc; cbn zeta.
  - simpl. split; [reflexivity|]. split; [lia|]. exists []. rewrite app_nil_r.
    repeat split; auto.
  - cbn [fold_left].
    destruct (IH (ref_product acc r)) as (Hw & Hl & added2 & Hc2 & Hd2 & Hn2).
    destruct (ref_product_frame acc r) as (Hw1 & Hl1 & added1 & Hc1 & Hd1 & Hn1).
    split; [congruence|]. split; [lia|].
    exists (added1 ++ added2)%list. rewrite Hc2, Hc1, <- app_assoc.
    split; [reflexivity|]. split; [apply Forall_app; split; assumption|].
    intros Hnd. rewrite app_assoc. rewrite Hc1 in Hn2. apply Hn2. apply Hn1. exact Hnd.
Qed.

(** X9: against the reference store, [importProductsFromExcel] leaves the
    worker table as it is, adds exactly [created] product records and
    removes none, and only appends to the category table: the categories
    that were there stay in place, and each one it adds has the
    description [Importé via Excel]. *)
Theorem product_import_frame (data : list (list cell)) (s : RefStore.Tables) :
  let r := importProductsFromExcel data s in
  RefStore.workers (snd r) = RefStore.workers s
  /\ List.length (RefStore.products (snd r))
     = List.length (RefStore.products s) + created (fst r)
  /\ exists added,
       RefStore.categories (snd r) = (RefStore.categories s ++ added)%list
       /\ Forall (fun c => Category.description c = "Importé via Excel") added.
Proof.
  cbn zeta. rewrite importProducts_fold.
  destruct (fold_ref_product_frame (product_rows 0 data ProductScan.init)
              (mkStats 0 0 0 [], s)) as (Hw & Hl & added & Hc & Hd & _).
  simpl in *. split; [exact Hw|]. split; [lia|]. exists added. split; assumption.
Qed.

(** X10: against the reference store, [importProductsFromExcel] keeps
    category names distinct: when no two stored categories bear the same
    name, none do after the import, however often a name recurs in the
    sheet. *)
Theorem product_import_keeps_category_names_distinct
    (data : list (list cell)) (s : RefStore.Tables) :
  NoDup (map Category.nom (RefStore.categories s)) ->
  NoDup (map Category.nom (RefStore.categories (snd (importProductsFromExcel data s)))).
Proof.
  intros Hnd. rewrite importProducts_fold.
  destruct (fold_ref_product_frame (product_rows 0 data ProductScan.init)
              (mkStats 0 0 0 [], s)) as (_ & _ & added & Hc & _ & Hn).
  simpl in *. rewrite Hc. apply Hn. exact Hnd.
Qed.

Lemma product_import_keeps_category_names_distinct_witness :
  NoDup (map Category.nom
           (RefStore.categories
              (snd (importProductsFromExcel
                      [[CStr "NOM DU PRODUIT"; CStr "CATEGORIE"];
                       [CStr "Savon"; CStr "Hygiene"]; [CStr "Javel"; CStr " Hygiene"];
                       [CStr "Balai"; CStr "Outils"]]
                      (RefStore.mk [] [] [Category.mk "Outils" "Materiel"]))))).
Proof.
  apply product_import_keeps_category_names_distinct.
  simpl. apply NoDup_singleton.
Defined.

(** ** Identifiers stay unique *)

Lemma alter_lookup_inv {A : Type} (f : A -> A) (j i : nat) (l : list A) (x : A) :
  alter f j l !! i = Some x ->
  exists y, l !! i = Some y /\ (x = y \/ (i = j /\ x = f y)).
Proof.
  intros H. destruct (decide (j = i)) as [->|Hne].
  - rewrite list_lookup_alter_eq in H.
    destruct (l !! i) as [y|]; [|discriminate]. injection H as <-. eauto.
  - rewrite list_lookup_alter_ne in H by assumption. eauto.
Qed.

Lemma ref_find_worker_none (d : Worker.data) (s : RefStore.Tables) (c : string) :
  ref_find_worker d s = None -> Worker.cin d = Some c -> c <> "" -> ~ cin_in c s.
Proof.
  intros Hf Hd Hne Hin.
  destruct (cin_in_found d s c Hd Hne Hin) as [k [old Hk]]. congruence.
Qed.

Lemma ref_upsert_worker_unique (d : Worker.data) (s : RefStore.Tables) :
  unique_cins s -> unique_cins (snd (ref_upsert_worker d s)).
Proof.
  intros Hu. unfold ref_upsert_worker.
  destruct (ref_find_worker d s) as [[k old]|] eqn:Hf; simpl.
  - intros i j wi wj c Hi Hj Hci Hcj Hne. simpl in Hi, Hj.
    apply alter_lookup_inv in Hi as [yi [Hyi Hi]].
    apply alter_lookup_inv in Hj as [yj [Hyj Hj]].
    apply (Hu i j yi yj c Hyi Hyj); [| |exact Hne].
    + destruct Hi as [Ei|[_ Ei]]; subst; exact Hci.
    + destruct Hj as [Ej|[_ Ej]]; subst; exact Hcj.
  - intros i j wi wj c Hi Hj Hci Hcj Hne. simpl in Hi, Hj.
    assert (Hnew : forall k w, (RefStore.workers s ++ [d])%list !! k = Some w ->
               Worker.cin w = Some c ->
               k < List.length (RefStore.workers s) -> RefStore.workers s !! k = Some w).
    { intros k w Hk _ Hlt. rewrite lookup_app_l in Hk by exact Hlt. exact Hk. }
    assert (Hlast : forall k w, (RefStore.workers s ++ [d])%list !! k = Some w ->
               Worker.cin w = Some c ->
               List.length (RefStore.workers s) <= k ->
               k = List.length (RefStore.workers s) /\ ~ cin_in c s).
    { intros k w Hk Hc Hge. rewrite lookup_app_r in Hk by exact Hge.
      destruct (k - List.length (RefStore.workers s)) as [|n] eqn:E; [|destruct n; discriminate].
      injection Hk as <-. split; [lia|].
      apply (ref_find_worker_none d s c Hf Hc Hne). }
    destruct (Nat.lt_ge_cases i (List.length (RefStore.workers s))) as [Hli|Hli];
      destruct (Nat.lt_ge_cases j (List.length (RefStore.workers s))) as [Hlj|Hlj].
    + apply (Hu i j wi wj c); auto.
    + destruct (Hlast j wj Hj Hcj Hlj) as [_ Hno]. exfalso. apply Hno.
      exists i, wi. split; [apply Hnew; assumption | exact Hci].
    + destruct (Hlast i wi Hi Hci Hli) as [_ Hno]. exfalso. apply Hno.
      exists j, wj. split; [apply Hnew; assumption | exact Hcj].
    + destruct (Hlast i wi Hi Hci Hli) as [-> _].
      destruct (Hlast j wj Hj Hcj Hlj) as [-> _]. reflexivity.
Qed.

Lemma fold_ref_worker_unique (rows : list Worker.data) (acc : Stats * RefStore.Tables) :
  unique_cins (snd acc) -> unique_cins (snd (fold_left ref_worker rows acc)).
Proof.
  revert acc. induction rows as [|d rows IH]; intros acc H; simpl; [exact H|].
  apply IH. unfold ref_worker.
  pose proof (ref_upsert_worker_unique d (snd acc) H) as H'.
  destruct (ref_upsert_worker d (snd acc)) as [u s']. exact H'.
Qed.

(** X11: against the reference store, [importWorkersFromExcel] keeps
    national IDs unique: when no two stored workers share a non-empty
    national ID, none do after the import, even if the sheet repeats an
    ID. *)
Theorem worker_import_keeps_cins_unique (Date_parse : string -> option Z)
    (now : nat -> Z) (data : list (list cell)) (s : RefStore.Tables) :
  unique_cins s ->
  unique_cins (snd (importWorkersFromExcel Date_parse now data s)).
Proof.
  intros H. rewrite importWorkers_fold. apply fold_ref_worker_unique. exact H.
Qed.

Lemma worker_import_keeps_cins_unique_witness :
  unique_cins
    (snd (importWorkersFromExcel iso_Date_parse (fun _ => 0%Z)
            [[CStr "PRENOMS"; CStr "NOMS"; CStr "N.I"];
             [CStr "Awa"; CStr "Diop"; CStr "A1"]; [CStr "Ali"; CStr "Ba"; CStr "A1"]]
            RefStore.empty)).
Proof.
  apply worker_import_keeps_cins_unique.
  intros i j wi wj c Hi. destruct i; discriminate Hi.
Defined.

(** How [find_product] resolves: through the code, on a record bearing it,
    or else by name, when no record bears the code of the row. *)
Lemma ref_find_product_cases (d : Product.data) (s : RefStore.Tables) :
  (exists c j old, Product.code_produit d = Some c /\ c <> ""
                   /\ Product.code_produit old = Some c
                   /\ ref_find_product d s = Some (j, old))
  \/ ((forall c k p, Product.code_produit d = Some c -> c <> "" ->
         RefStore.products s !! k = Some p -> Product.code_produit p <> Some c)
      /\ ref_find_product d s
         = RefStore.find_where (RefStore.product_matches (Product.ByNom (Product.nom d)))
             (RefStore.products s)).
Proof.
  unfold ref_find_product.
  destruct (Product.code_produit d) as [c|] eqn:Hd.
  - destruct (negb (c =? "")%string) eqn:Hb.
    + destruct (RefStore.find_where (RefStore.product_matches (Product.ByCode c)) _)
        as [[j old]|] eqn:Hf.
      * left. exists c, j, old.
        apply list_find_Some in Hf as [_ [Hm _]]. simpl in Hm. unfold RefStore.opt_is in Hm.
        destruct (Product.code_produit old) as [y|]; [|discriminate].
        apply String.eqb_eq in Hm. subst y.
        repeat split. intros ->. discriminate.
      * right. split; [|reflexivity].
        intros c' k p [= <-] _ Hk Hp.
        apply list_find_None in Hf. rewrite Forall_forall in Hf.
        apply (Hf p); [apply list_elem_of_lookup; eauto|].
        simpl. unfold RefStore.opt_is. rewrite Hp. apply String.eqb_refl.
    + right. split; [|reflexivity].
      intros c' k p [= <-] Hne. apply negb_false_iff, String.eqb_eq in Hb. contradiction.
  - right. split; [|reflexivity]. intros c' k p Hc. discriminate Hc.
Qed.

Lemma ref_upsert_product_unique (d : Product.data) (s : RefStore.Tables) :
  unique_codes s -> unique_codes (snd (ref_upsert_product d s)).
Proof.
  intros Hu. unfold ref_upsert_product.
  destruct (ref_find_product_cases d s) as [[c0 [j0 [old0 [Hd [Hne0 [Hold Hf]]]]]]|[Hfree Hf]].
  - rewrite Hf. simpl.
    pose proof (ref_find_product_lookup d s j0 old0 Hf) as Hlk.
    intros i j pi pj c Hi Hj Hci Hcj Hne. simpl in Hi, Hj.
    apply alter_lookup_inv in Hi as [yi [Hyi Hi]].
    apply alter_lookup_inv in Hj as [yj [Hyj Hj]].
    apply (Hu i j yi yj c Hyi Hyj); [| |exact Hne].
    + destruct Hi as [Ei|[Ei Ei']]; subst; [exact Hci|].
      simpl in Hci. rewrite Hlk in Hyi. injection Hyi as <-. congruence.
    + destruct Hj as [Ej|[Ej Ej']]; subst; [exact Hcj|].
      simpl in Hcj. rewrite Hlk in Hyj. injection Hyj as <-. congruence.
  - destruct (ref_find_product d s) as [[k old]|] eqn:Hfind; simpl.
    + intros i j pi pj c Hi Hj Hci Hcj Hne. simpl in Hi, Hj.
      apply alter_lookup_inv in Hi as [yi [Hyi Hi]].
      apply alter_lookup_inv in Hj as [yj [Hyj Hj]].
      destruct Hi as [Ei|[Ei Ei']]; destruct Hj as [Ej|[Ej Ej']]; subst.
      * apply (Hu i j yi yj c); assumption.
      * exfalso. simpl in Hcj. apply (Hfree c i yi Hcj Hne Hyi). exact Hci.
      * exfalso. simpl in Hci. apply (Hfree c j yj Hci Hne Hyj). exact Hcj.
      * reflexivity.
    + intros i j pi pj c Hi Hj Hci Hcj Hne. simpl in Hi, Hj.
      assert (Hlast : forall k p, (RefStore.products s ++ [d])%list !! k = Some p ->
                 List.length (RefStore.products s) <= k ->
                 k = List.length (RefStore.products s) /\ p = d).
      { intros k p Hk Hge. rewrite lookup_app_r in Hk by exact Hge.
        destruct (k - List.length (RefStore.products s)) as [|n] eqn:E;
          [|destruct n; discriminate].
        injection Hk as <-. split; [lia | reflexivity]. }
      destruct (Nat.lt_ge_cases i (List.length (RefStore.products s))) as [Hli|Hli];
        destruct (Nat.lt_ge_cases j (List.length (RefStore.products s))) as [Hlj|Hlj].
      * rewrite lookup_app_l in Hi, Hj by assumption. apply (Hu i j pi pj c); assumption.
      * rewrite lookup_app_l in Hi by assumption.
        destruct (Hlast j pj Hj Hlj) as [_ ->]. exfalso.
        apply (Hfree c i pi Hcj Hne Hi). exact Hci.
      * rewrite lookup_app_l in Hj by assumption.
        destruct (Hlast i pi Hi Hli) as [_ ->]. exfalso.
        apply (Hfree c j pj Hci Hne Hj). exact Hcj.
      * destruct (Hlast i pi Hi Hli) as [-> _].
        destruct (Hlast j pj Hj Hlj) as [-> _]. reflexivity.
Qed.

Lemma ref_product_unique (acc : Stats * RefStore.Tables)
    (r : ProductScan.cols * list cell * cell) :
  unique_codes (snd acc) -> unique_codes (snd (ref_product acc r)).
Proof.
  intros Hu. destruct r as [[cols row] nom]. unfold ref_product.
  destruct (ref_resolve_category_same cols row (productData_of cols row nom) (snd acc))
    as [Hp _].
  destruct (ref_resolve_category _ _ _ _) as [d s1]. simpl in *.
  assert (Hu1 : unique_codes s1).
  { unfold unique_codes. rewrite Hp. exact Hu. }
  pose proof (ref_upsert_product_unique d s1 Hu1) as H.
  destruct (ref_upsert_product d s1) as [u s2]. exact H.
Qed.

(** X12: against the reference store, [importProductsFromExcel] keeps
    product codes unique: when no two stored products share a non-empty
    code, none do after the import, although an update may move a record
    to another code. *)
Theorem product_import_keeps_codes_unique (data : list (list cell)) (s : RefStore.Tables) :
  unique_codes s -> unique_codes (snd (importProductsFromExcel data s)).
Proof.
  intros H. rewrite importProducts_fold.
  generalize (mkStats 0 0 0 [], s) (product_rows 0 data ProductScan.init)
             (H : unique_codes (snd (mkStats 0 0 0 [], s))).
  intros acc rows. revert acc.
  induction rows as [|r rows IH]; intros acc Hacc; simpl; [exact Hacc|].
  apply IH. apply ref_product_unique. exact Hacc.
Qed.

Lemma product_import_keeps_codes_unique_witness :
  unique_codes
    (snd (importProductsFromExcel
            [[CStr "CODE"; CStr "NOM DU PRODUIT"];
             [CStr "C1"; CStr "X"]; [CStr "C1"; CStr "Y"]; [CStr "C2"; CStr "Y"]]
            RefStore.empty)).
Proof.
  apply product_import_keeps_codes_unique.
  intros i j pi pj c Hi. destruct i; discriminate Hi.
Defined.

(** ** Dates written as text *)

Lemma rev_string_acc (s acc : string) :
  rev_string s acc = (rev_string s "" ++ acc)%string.
Proof.
  revert acc. induction s as [|a s IH]; intros acc; simpl; [reflexivity|].
  rewrite (IH (String a acc)), (IH (String a "")), append_assoc. reflexivity.
Qed.

Lemma split_go_last (sep : ascii) (a cur : string) :
  lacks sep a = true ->
  split_go sep a cur = [(rev_string cur "" ++ a)%string].
Proof.
  revert cur. induction a as [|x a IH]; intros cur H; simpl.
  - f_equal. clear. induction (rev_string cur "") as [|y t IHt]; simpl; [reflexivity|].
    rewrite <- IHt. reflexivity.
  - simpl in H. apply andb_true_iff in H as [Hx Ha].
    apply negb_true_iff in Hx. rewrite Hx, (IH _ Ha). simpl.
    rewrite (rev_string_acc cur), append_assoc. reflexivity.
Qed.

Lemma split_go_part (sep : ascii) (a t cur : string) :
  lacks sep a = true ->
  split_go sep (a ++ String sep t) cur = (rev_string cur "" ++ a)%string :: split_go sep t "".
Proof.
  revert cur. induction a as [|x a IH]; intros cur H; simpl.
  - rewrite Ascii.eqb_refl. f_equal.
    clear. induction (rev_string cur "") as [|y u IHu]; simpl; [reflexivity|].
    rewrite <- IHu. reflexivity.
  - simpl in H. apply andb_true_iff in H as [Hx Ha].
    apply negb_true_iff in Hx. rewrite Hx, (IH _ Ha). simpl.
    rewrite (rev_string_acc cur), append_assoc. reflexivity.
Qed.

Lemma split_three (a b c : string) :
  lacks "/" a = true -> lacks "/" b = true -> lacks "/" c = true ->
  split "/" (a ++ "/" ++ b ++ "/" ++ c) = [a; b; c].
Proof.
  intros Ha Hb Hc. unfold split.
  change (a ++ "/" ++ b ++ "/" ++ c)%string
    with (a ++ String "/" (b ++ String "/" c))%string.
  rewrite (split_go_part "/" a _ "" Ha), (split_go_part "/" b _ "" Hb),
    (split_go_last "/" c "" Hc). reflexivity.
Qed.

(** X13: text of the form [a/b/c] (three parts without slash) is never
    checked: [parseExcelDate], and the controller's inline copy, return the
    date that the engine makes of the rearranged text [c-b-a], valid or
    not, and never null. *)
Theorem slash_text_is_rearranged (Date_parse : string -> option Z) (a b c : string) :
  lacks "/" a = true -> lacks "/" b = true -> lacks "/" c = true ->
  parseExcelDate Date_parse (CStr (a ++ "/" ++ b ++ "/" ++ c))
  = Some (Date_of_string Date_parse (c ++ "-" ++ b ++ "-" ++ a))
  /\ controller_date Date_parse (CStr (a ++ "/" ++ b ++ "/" ++ c))
     = Some (Date_of_string Date_parse (c ++ "-" ++ b ++ "-" ++ a)).
Proof.
  intros Ha Hb Hc.
  assert (Ht : truthy (CStr (a ++ "/" ++ b ++ "/" ++ c)) = true)
    by (destruct a; reflexivity).
  unfold parseExcelDate, controller_date. rewrite Ht. cbn [negb String_].
  rewrite (split_three a b c Ha Hb Hc). split; reflexivity.
Qed.

Lemma slash_text_is_rearranged_witness :
  option_map utc_ymd (parseExcelDate iso_Date_parse (CStr "05/01/2021"))
  = Some (Some (2021, 1, 5)%Z).
Proof.
  change (CStr "05/01/2021") with (CStr ("05" ++ "/" ++ "01" ++ "/" ++ "2021")).
  rewrite (proj1 (slash_text_is_rearranged iso_Date_parse "05" "01" "2021"
                    eq_refl eq_refl eq_refl)).
  reflexivity.
Defined.

(** X14: [parseExcelDate] returns null in two cases only: on a falsy cell
    (empty text, a missing cell, the number 0, false), and on text that
    does not split into three parts at the slashes and that the engine
    cannot read as a date.  Every non-zero number, [true], and every text
    in three parts gives a date object. *)
Theorem parseExcelDate_null_cases (Date_parse : string -> option Z) (x : cell) :
  parseExcelDate Date_parse x = None
  <-> truthy x = false
      \/ exists s, x = CStr s /\ List.length (split "/" s) <> 3
                   /\ Date_isNaN (Date_of_string Date_parse s) = true.
Proof.
  split.
  - intros H. destruct (truthy x) eqn:Ht; [|left; reflexivity]. right.
    unfold parseExcelDate in H. rewrite Ht in H. cbn [negb] in H.
    destruct x as [s|n|b|]; try discriminate.
    + exists s. split; [reflexivity|].
      destruct (split "/" s) as [|p0 [|p1 [|p2 [|p3 l]]]]; try discriminate H;
        (split; [simpl; lia|]); destruct (Date_isNaN _); try reflexivity; discriminate H.
    + destruct b; simpl in H; discriminate.
  - intros [Ht|[s [-> [Hl Hd]]]]; unfold parseExcelDate.
    + rewrite Ht. reflexivity.
    + destruct (truthy (CStr s)); [|reflexivity]. cbn [negb].
      destruct (split "/" s) as [|p0 [|p1 [|p2 [|p3 l]]]]; try (rewrite Hd; reflexivity).
      simpl in Hl. lia.
Qed.

(** ** The salary filter of [getWorkers] *)

(** X15: in [getWorkers] a payment status other than [NOT_CREATED] makes
    the salary join required, but the status reaches the query only
    through the object [salaryWhere], which [salaryInclude.where] points to
    only when a month or a year was given.  With a month or a year the
    join is filtered by the status; with neither, the join carries no
    [where] at all and the status is lost. *)
Theorem payment_status_needs_month_or_year
    (getPagination : option string -> option string -> Z * Z * Z)
    (q : GetWorkers.query) (ps : string) :
  GetWorkers.paymentStatus q = Some ps -> ps <> "" -> ps <> "NOT_CREATED" ->
  let inc := GetWorkers.o_salaries (GetWorkers.getWorkers_options getPagination q) in
  GetWorkers.required inc = true
  /\ (GetWorkers.given (GetWorkers.month q) = None ->
      GetWorkers.given (GetWorkers.year q) = None ->
      GetWorkers.i_where inc = None)
  /\ (GetWorkers.given (GetWorkers.month q) <> None
      \/ GetWorkers.given (GetWorkers.year q) <> None ->
      exists w, GetWorkers.i_where inc = Some w
                /\ GetWorkers.sw_statut w = Some ps
                /\ GetWorkers.mois w = option_map parseInt (GetWorkers.given (GetWorkers.month q))
                /\ GetWorkers.annee w = option_map parseInt (GetWorkers.given (GetWorkers.year q))).
Proof.
  intros Hps Hne Hnc.
  assert (Hg : GetWorkers.given (GetWorkers.paymentStatus q) = Some ps).
  { rewrite Hps. simpl. destruct (String.eqb_spec ps ""); [contradiction | reflexivity]. }
  assert (Hn : String.eqb ps "NOT_CREATED" = false)
    by (destruct (String.eqb_spec ps "NOT_CREATED"); [contradiction | reflexivity]).
  unfold GetWorkers.getWorkers_options.
  destruct (getPagination _ _) as [[limitNum offset] pageNum]. cbn zeta.
  unfold GetWorkers.run. rewrite Hg, Hn.
  unfold GetWorkers.build_salaryWhere, GetWorkers.keys. simpl.
  destruct (GetWorkers.given (GetWorkers.month q)) as [m|];
    destruct (GetWorkers.given (GetWorkers.year q)) as [y|]; simpl;
    (split; [reflexivity|]); split;
    try discriminate; try reflexivity;
    try (intros _; eexists; repeat split; reflexivity).
  intros [H|H]; contradiction.
Qed.

Lemma payment_status_needs_month_or_year_witness :
  let q := GetWorkers.mkQuery None None None None None None None None (Some "PAYE") in
  let inc := GetWorkers.o_salaries
               (GetWorkers.getWorkers_options (fun _ _ => (10, 0, 1)%Z) q) in
  GetWorkers.required inc = true /\ GetWorkers.i_where inc = None.
Proof.
  intros q inc.
  destruct (payment_status_needs_month_or_year (fun _ _ => (10, 0, 1)%Z) q "PAYE")
    as [Hr [Hnone _]]; [reflexivity | discriminate | discriminate |].
  split; [exact Hr | apply Hnone; reflexivity].
Defined.

(** ** Sites and sums *)







Lemma fold_ref_worker_errors (rows : list Worker.data) (acc : Stats * RefStore.Tables) :
  errors (fst (fold_left ref_worker rows acc)) = errors (fst acc).
Proof.
  revert acc. induction rows as [|d rows IH]; intros acc; simpl; [reflexivity|].
  rewrite IH. unfold ref_worker.
  destruct (ref_upsert_worker d (snd acc)) as [[|] s']; reflexivity.
Qed.

Lemma fold_ref_product_errors (rows : list (ProductScan.cols * list cell * cell))
    (acc : Stats * RefStore.Tables) :
  errors (fst (fold_left ref_product rows acc)) = errors (fst acc).
Proof.
  revert acc. induction rows as [|r rows IH]; intros acc; simpl; [reflexivity|].
  rewrite IH. destruct r as [[cols row] nom]. unfold ref_product.
  destruct (ref_resolve_category _ _ _ _) as [d s1].
  destruct (ref_upsert_product d s1) as [[|] s2]; reflexivity.
Qed.

(** X17: every counted row ends as exactly one of created, updated or
    failed: for both service imports and whatever the store does,
    [errors.length + created + updated] equals [total].  Against the
    reference store, where no call throws, there is no error string and
    [created + updated = total]. *)
Theorem counted_rows_are_settled {Store : Type} `{!Models Store}
    (Date_parse : string -> option Z) (now : nat -> Z) (data : list (list cell)) (s : Store) :
  (let stats := fst (importWorkersFromExcel Date_parse now data s) in
   List.length (errors stats) + created stats + updated stats = total stats)
  /\ (let stats := fst (importProductsFromExcel data s) in
      List.length (errors stats) + created stats + updated stats = total stats)
  /\ (forall r : RefStore.Tables,
        let stats := fst (importWorkersFromExcel Date_parse now data r) in
        errors stats = [] /\ created stats + updated stats = total stats)
  /\ (forall r : RefStore.Tables,
        let stats := fst (importProductsFromExcel data r) in
        errors stats = [] /\ created stats + updated stats = total stats).
Proof.
  assert (H0 : accounted 0 0 (mkStats 0 0 0 [])) by (split; [reflexivity | constructor]).
  assert (Hw : forall (St : Type) (Mo : Models St) (x : St),
             let stats := fst (importWorkersFromExcel Date_parse now data x) in
             List.length (errors stats) + created stats + updated stats = total stats).
  { intros St Mo x. cbn zeta. unfold importWorkersFromExcel.
    pose proof (worker_loop_accounted Date_parse now 0 data 0 WorkerScan.init x
                  (le_n 0) H0) as [Hsum _].
    destruct (worker_loop Date_parse now 0 data WorkerScan.init x) as [st x']. exact Hsum. }
  assert (Hp : forall (St : Type) (Mo : Models St) (x : St),
             let stats := fst (importProductsFromExcel data x) in
             List.length (errors stats) + created stats + updated stats = total stats).
  { intros St Mo x. cbn zeta. unfold importProductsFromExcel.
    pose proof (product_loop_accounted 0 data 0 ProductScan.init x (le_n 0) H0)
      as [Hsum _].
    destruct (product_loop 0 data ProductScan.init x) as [st x']. exact Hsum. }
  split; [apply Hw|]. split; [apply Hp|]. split.
  - intros r. cbn zeta. pose proof (Hw _ _ r) as Hsum. cbn zeta in Hsum.
    assert (He : errors (fst (importWorkersFromExcel Date_parse now data r)) = []).
    { rewrite importWorkers_fold. apply fold_ref_worker_errors. }
    rewrite He in Hsum. split; [exact He | exact Hsum].
  - intros r. cbn zeta. pose proof (Hp _ _ r) as Hsum. cbn zeta in Hsum.
    assert (He : errors (fst (importProductsFromExcel data r)) = []).
    { rewrite importProducts_fold. apply fold_ref_product_errors. }
    rewrite He in Hsum. split; [exact He | exact Hsum].
Qed.

(** ** The stock screen *)

(** X18: the exit form sends a request only after its three checks.  A
    request that is sent names the selected product, carries the number
    read from a non-empty quantity text, which is not [<= 0] (a positive
    number, or [NaN] when the text is no number), and a destination that is
    the trimmed, non-empty text of the form.  The dialog is closed and the
    form reset only when the service call returned; otherwise an alert is
    shown. *)
Theorem stock_exit_is_validated (recordExit : Stock.exitRequest -> outcome unit)
    (f : Stock.formData) :
  (forall r, Stock.sent (Stock.handleStockExit recordExit f) = Some r ->
     Stock.e_product_id r = Stock.product_id f /\ Stock.product_id f <> ""
     /\ Stock.quantite f <> "" /\ Stock.e_quantite r = Stock.Number_ (Stock.quantite f)
     /\ Stock.num_le0 (Stock.e_quantite r) = false
     /\ Stock.e_destination r = trim (Stock.destination f) /\ Stock.e_destination r <> ""
     /\ Stock.e_notes r = Stock.notes f)
  /\ (Stock.closed (Stock.handleStockExit recordExit f) = true ->
      Stock.alert (Stock.handleStockExit recordExit f) = None
      /\ exists r, Stock.sent (Stock.handleStockExit recordExit f) = Some r
                   /\ recordExit r = Returned tt)
  /\ (Stock.closed (Stock.handleStockExit recordExit f) = false ->
      Stock.alert (Stock.handleStockExit recordExit f) <> None).
Proof.
  unfold Stock.handleStockExit.
  destruct (String.eqb_spec (Stock.product_id f) "") as [Hp|Hp].
  { simpl. repeat split; try discriminate. }
  destruct (String.eqb_spec (Stock.quantite f) "") as [Hq|Hq].
  { simpl. repeat split; try discriminate. }
  simpl. destruct (Stock.num_le0 (Stock.Number_ (Stock.quantite f))) eqn:Hn.
  { simpl. repeat split; try discriminate. }
  destruct (String.eqb_spec (Stock.destination f) "") as [Hd|Hd].
  { simpl. repeat split; try discriminate. }
  simpl. destruct (String.eqb_spec (trim (Stock.destination f)) "") as [Ht|Ht].
  { simpl. repeat split; try discriminate. }
  destruct (recordExit _) as [[]|msg] eqn:Hr; simpl.
  - split; [|split; [|discriminate]].
    + intros r [= <-]. simpl. repeat split; assumption.
    + intros _. split; [reflexivity|]. eexists. split; [reflexivity | exact Hr].
  - split; [|split; [discriminate|]].
    + intros r [= <-]. simpl. repeat split; assumption.
    + intros _. discriminate.
Qed.

Lemma stock_exit_is_validated_witness :
  let f := Stock.mkForm "p1" "2.5" "" " Dakar " "" "" in
  exists r, Stock.sent (Stock.handleStockExit (fun _ => Returned tt) f) = Some r
            /\ Stock.num_le0 (Stock.e_quantite r) = false
            /\ Stock.e_destination r = "Dakar".
Proof.
  intros f. eexists. split; [reflexivity|].
  destruct (proj1 (stock_exit_is_validated (fun _ => Returned tt) f) _ eq_refl)
    as (_ & _ & _ & _ & Hn & Hd & _).
  split; [exact Hn | exact Hd].
Defined.

Lemma prefix_app_l (a b s : string) :
  String.prefix (a ++ b) s = true -> String.prefix a s = true.
Proof.
  revert s. induction a as [|x a IH]; intros s H.
  - destruct s; reflexivity.
  - destruct s as [|y s]; [discriminate|]. cbn [append String.prefix] in *.
    destruct (ascii_dec x y); [apply IH; exact H | discriminate].
Qed.

Lemma includes_app_l (a b s : string) :
  includes (a ++ b) s = true -> includes a s = true.
Proof.
  induction s as [|y s IH]; intros H.
  - cbn [includes] in *. rewrite orb_false_r in *. apply (prefix_app_l a b). exact H.
  - cbn [includes] in *. apply orb_true_iff in H as [H|H].
    + rewrite (prefix_app_l a b _ H). reflexivity.
    + rewrite (IH H). apply orb_true_r.
Qed.

Lemma includes_empty (s : string) : includes "" s = true.
Proof. destruct s; reflexivity. Qed.

Lemma map_chars_app (f : ascii -> ascii) (a b : string) :
  map_chars f (a ++ b) = (map_chars f a ++ map_chars f b)%string.
Proof.
  induction a as [|x a IH]; simpl; [reflexivity | rewrite IH; reflexivity].
Qed.

Lemma ascii_text_app (a b : string) :
  ascii_text a = true -> ascii_text b = true -> ascii_text (a ++ b) = true.
Proof.
  intros Ha Hb. induction a as [|x a IH]; [exact Hb|].
  cbn [ascii_text append] in *. apply andb_true_iff in Ha as [Hx Ha].
  rewrite Hx, (IH Ha). reflexivity.
Qed.

(** An ASCII character is lower-cased on its own, whatever surrounds it. *)
Lemma lower_go_ascii_char (a : ascii) (t : string) (b : bool) :
  (nat_of_ascii a <? 128) = true ->
  exists b', lower_go b 0 (String a t) = String (lower_char a) (lower_go b' 0 t).
Proof.
  destruct a as [[] [] [] [] [] [] [] []]; intros H;
    try (vm_compute in H; discriminate H); eexists; reflexivity.
Qed.

Lemma lower_go_ascii (s : string) (b : bool) :
  ascii_text s = true -> lower_go b 0 s = map_chars lower_char s.
Proof.
  revert b. induction s as [|a t IH]; intros b H; [reflexivity|].
  cbn [ascii_text] in H. apply andb_true_iff in H as [Ha Ht].
  destruct (lower_go_ascii_char a t b Ha) as [b' ->].
  cbn [map_chars]. rewrite (IH b' Ht). reflexivity.
Qed.

Lemma toLowerCase_app (t u : string) :
  ascii_text t = true -> ascii_text u = true ->
  toLowerCase (t ++ u) = (toLowerCase t ++ toLowerCase u)%string.
Proof.
  intros Ht Hu. unfold toLowerCase.
  rewrite !lower_go_ascii by (try apply ascii_text_app; assumption).
  apply map_chars_app.
Qed.

Lemma matches_narrow (t u : string) (p : Stock.product) :
  ascii_text t = true -> ascii_text u = true ->
  Stock.matches (t ++ u) p = true -> Stock.matches t p = true.
Proof.
  intros Ht Hu. unfold Stock.matches. rewrite (toLowerCase_app t u Ht Hu). intros H.
  apply orb_true_iff in H as [H|H]; [apply orb_true_iff in H as [H|H]|].
  - rewrite (includes_app_l _ _ _ H). reflexivity.
  - rewrite (includes_app_l _ _ _ H). rewrite orb_true_r. reflexivity.
  - rewrite (includes_app_l _ _ _ H). apply orb_true_r.
Qed.

(** X19: the product search of the stock screen.  With an empty search
    term every product is listed.  A longer term only narrows the list
    when the term is ASCII text: searching for [t ++ u] among the products
    found for [t] then gives what searching for [t ++ u] among all of them
    gives, whatever the names, codes and categories of the products are.
    (Beyond ASCII the lower case of a text need not begin with the lower
    case of its beginning: a sigma is lowered according to what follows.) *)
Theorem search_narrows (products : list Stock.product) (t u : string) :
  Stock.filteredProducts products "" = products
  /\ (ascii_text t = true -> ascii_text u = true ->
      Stock.filteredProducts (Stock.filteredProducts products t) (t ++ u)
      = Stock.filteredProducts products (t ++ u)).
Proof.
  unfold Stock.filteredProducts. split.
  - induction products as [|p ps IH]; simpl; [reflexivity|].
    unfold Stock.matches at 1. change (toLowerCase "") with "".
    rewrite includes_empty. simpl. rewrite IH. reflexivity.
  - intros Ht Hu. induction products as [|p ps IH]; simpl; [reflexivity|].
    destruct (Stock.matches t p) eqn:Hm; simpl.
    + rewrite IH. reflexivity.
    + destruct (Stock.matches (t ++ u) p) eqn:Htu; [|exact IH].
      rewrite (matches_narrow t u p Ht Hu Htu) in Hm. discriminate.
Qed.

Lemma search_narrows_witness :
  let products :=
    [Stock.mkProduct "Éponge SAVONNEUSE" (Some "EP1") None;
     Stock.mkProduct "Savon" None (Some "Hygiène");
     Stock.mkProduct "Balai" (Some "B7") (Some "Sols")] in
  Stock.filteredProducts (Stock.filteredProducts products "sa") "saVON"
  = Stock.filteredProducts products "saVON".
Proof.
  intros products.
  apply (proj2 (search_narrows products "sa" "VON")); reflexivity.
Defined.
